(** * azurecostapp: the aggregation handlers of [server.js]

    A shallow embedding of the three Express handlers of [src/server.js]
    ([POST /api/costs], [POST /api/top-resources], [GET /api/plans]) and of the
    five helpers they call ([getAccessToken], [getSubscriptions],
    [fetchCostData], [fetchTopResources], [fetchDefenderPlans]).

    - JSON payloads are values of an untyped [value] type with the property
      access, truthiness and destructuring rules of JavaScript;
    - numbers are IEEE-754 binary64 values ([spec_float] with [prec = 53],
      [emax = 1024]);
    - [await]ed upstream requests, thrown exceptions and [console.error] are
      threaded through a small state-and-exception monad [M].

    Of the console output only the [console.error] lines of the three
    handlers are kept.  [console.log] has no effect on a response, and the
    lines the fetch helpers print interleave as the network answers; where
    the argument of a log line can throw the throw is modelled: the
    property reads of lines 122, 238 and 305, and the ToString of every
    template literal that interpolates a value of a payload or of the
    request (lines 62, 82, 115, 125, 138, 152, 200, 231, 241, 298, 301 and
    308).  [Promise.all] rejects with the rejection that is first in time;
    the model has no clock and keeps every rejection. *)

From Stdlib Require Import String Ascii List Bool ZArith NArith Lia Arith PeanoNat.
From Stdlib Require Import DecimalString.
From Stdlib Require Import Permutation Sorted.
From Stdlib Require Import Floats.SpecFloat.
Import ListNotations.

Set Implicit Arguments.

Local Open Scope string_scope.
Local Open Scope list_scope.

(* ================================================================== *)
(** * JavaScript numbers: binary64 *)
(* ================================================================== *)

Module Number.

Definition prec : Z := 53.
Definition emax : Z := 1024.

(** A JS Number.  Finite values are [(-1)^s * m * 2^e]. *)
Definition number := spec_float.

(** The smallest exponent of a binary64 value, [-1074]. *)
Definition emin : Z := Eval cbv in SpecFloat.emin prec emax.

(** The Number nearest to the rational [(-1)^s * num / den] (ties to even):
    what reading a decimal literal yields.  [SFdiv] divides the two integers
    exactly before it rounds, whatever their size. *)
Definition nearest (s : bool) (num den : positive) : number :=
  SFdiv prec emax (S754_finite s num 0) (S754_finite false den 0).

(** [b - a] on Numbers. *)
Definition sub (b a : number) : number := SFsub prec emax b a.

(** ToBoolean on a Number: [0], [-0] and [NaN] are falsy. *)
Definition truthy (x : number) : bool :=
  match x with
  | S754_zero _ | S754_nan => false
  | _ => true
  end.

(** [v > 0] for a comparator's return value; false for zeros and NaN. *)
Definition is_positive (v : number) : bool :=
  match v with
  | S754_finite false _ _ | S754_infinity false => true
  | _ => false
  end.

(** ** [Number.prototype.toFixed(2)] *)

(** The String that [toFixed(2)] returns, kept structured:
    - [Digits s n] is the text [s ++ a ++ "." ++ b] where [a ++ b] are the
      decimal digits of [n] (padded to three digits) and [b] the last two:
      it denotes [(-1)^s * n / 100];
    - [Printed x] is [Number::toString(x)], which [toFixed] returns for NaN,
      the infinities, and magnitudes of at least [10^21]. *)
Inductive fixed :=
| Digits (negative : bool) (hundredths : N)
| Printed (x : number).

(** [|x| >= 10^21] for [|x| = m * 2^e]. *)
Definition at_least_1e21 (m : positive) (e : Z) : bool :=
  match e with
  | Zneg k => (10 ^ 21 * 2 ^ Zpos k <=? Zpos m)%Z
  | _ => (10 ^ 21 <=? Zpos m * 2 ^ e)%Z
  end.

(** "Let n be an integer for which n / 10^2 - x is as close to zero as
    possible.  If there are two such n, pick the larger n", for
    [x = m * 2^e > 0]: [n = floor (100 * x + 1/2)]. *)
Definition hundredths_of (m : positive) (e : Z) : N :=
  match e with
  | Zneg k => Z.to_N ((200 * Zpos m + 2 ^ Zpos k) / (2 * 2 ^ Zpos k))
  | _ => Z.to_N (100 * Zpos m * 2 ^ e)
  end.

Definition toFixed2 (x : number) : fixed :=
  match x with
  | S754_nan | S754_infinity _ => Printed x
  | S754_zero _ => Digits false 0
  | S754_finite s m e =>
      if at_least_1e21 m e then Printed x
      else Digits s (hundredths_of m e)
  end.

(** The text of a digit string: ["12.35"], ["-0.00"], ["0.05"]. *)
Fixpoint zeros (k : nat) : string :=
  match k with
  | O => EmptyString
  | S k' => String "0" (zeros k')
  end.

Definition text (negative : bool) (hundredths : N) : string :=
  let digits := NilZero.string_of_uint (N.to_uint hundredths) in
  let m := (zeros (3 - String.length digits) ++ digits)%string in
  let k := String.length m in
  ((if negative then "-" else "")
     ++ substring 0 (k - 2) m ++ "." ++ substring (k - 2) 2 m)%string.

(** ** [parseFloat] on the Strings that [toFixed] produces *)

(** A digit string denotes the Number nearest to its decimal value;
    ["-0.00"] is [-0].  [Number::toString(x)] reads back as [x]. *)
Definition parseFloat (str : fixed) : number :=
  match str with
  | Digits s N0 => S754_zero s
  | Digits s (Npos n) => nearest s n 100
  | Printed x => x
  end.

(** ** Exact order of Numbers *)

(** The real line extended by the two infinities, in units of [2^emin]. *)
Inductive ereal := NegInf | Fin (z : Z) | PosInf.

Definition ereal_le (a b : ereal) : Prop :=
  match a, b with
  | NegInf, _ => True
  | _, PosInf => True
  | Fin x, Fin y => (x <= y)%Z
  | _, _ => False
  end.

Definition cond_Zopp (s : bool) (z : Z) : Z := if s then (- z)%Z else z.

(** The exact value of a (non-NaN) binary64 Number, as a multiple of
    [2^emin]; every finite binary64 value has [emin <= e]. *)
Definition exact (x : number) : ereal :=
  match x with
  | S754_zero _ | S754_nan => Fin 0
  | S754_infinity s => if s then NegInf else PosInf
  | S754_finite s m e => Fin (cond_Zopp s (Zpos m * 2 ^ (e - emin)))
  end.

(** The magnitude [m * 2^e] of a finite Number as a fraction
    [numerator / denominator]. *)
Definition numerator (m : positive) (e : Z) : Z := Zpos m * 2 ^ Z.max e 0.
Definition denominator (e : Z) : Z := 2 ^ Z.max (- e) 0.

(** [a <= b] on Numbers, by exact value. *)
Definition le (a b : number) : Prop := ereal_le (exact a) (exact b).

(** The Numbers JavaScript can hold: not an ill-formed [spec_float].
    (Only the lower bound on the exponent matters below.) *)
Definition representable (x : number) : bool :=
  match x with
  | S754_finite _ _ e => (emin <=? e)%Z
  | _ => true
  end.

Definition is_nan (x : number) : bool :=
  match x with S754_nan => true | _ => false end.

Definition well_formed (x : number) : Prop :=
  representable x = true /\ is_nan x = false.

End Number.

(* ================================================================== *)
(** * JavaScript values as they arrive from JSON *)
(* ================================================================== *)

Module Js.

Import Number.

#[warnings="-register-all"]
Inductive value : Type :=
| VUndefined
| VNull
| VBool (b : bool)
| VNumber (x : number)
| VString (s : string)
| VArray (elements : list value)
| VObject (fields : list (string * value)).

(** ToBoolean. *)
Definition truthy (v : value) : bool :=
  match v with
  | VUndefined | VNull => false
  | VBool b => b
  | VNumber x => Number.truthy x
  | VString s => negb (String.eqb s "")
  | VArray _ | VObject _ => true
  end.

Definition nullish (v : value) : bool :=
  match v with
  | VUndefined | VNull => true
  | _ => false
  end.

(** [a || b]. *)
Definition or_else (a b : value) : value := if truthy a then a else b.

Definition has_key (key : string) (fields : list (string * value)) : bool :=
  existsb (fun kv => String.eqb (fst kv) key) fields.

(** ToString, as a template literal applies it, returns: it throws a
    TypeError on an object with an own [toString] property (in a value that
    came from JSON the property is not callable, and the inherited [valueOf]
    returns the object itself), and on an array holding such an object
    ([Array.prototype.join] converts every element but [null] and
    [undefined]). *)
Fixpoint printable (v : value) : bool :=
  match v with
  | VArray l => forallb printable l
  | VObject fields => negb (has_key "toString" fields)
  | _ => true
  end.

(** Own-property lookup in an object literal; the first binding of a key is
    the effective one. *)
Fixpoint lookup (key : string) (fields : list (string * value)) : value :=
  match fields with
  | [] => VUndefined
  | (k, v) :: rest => if String.eqb k key then v else lookup key rest
  end.

(** [v.key] for the property names [server.js] reads ([properties], [rows],
    [value], [access_token], [subscriptionId], [displayName], [name],
    [pricingTier], [startDate], [endDate]): none of them is defined on a
    built-in prototype, so arrays and primitives answer [undefined];
    [null] and [undefined] throw a TypeError ([None]). *)
Definition member (v : value) (key : string) : option value :=
  match v with
  | VUndefined | VNull => None
  | VObject fields => Some (lookup key fields)
  | _ => Some VUndefined
  end.

(** Reading any property of [null] or [undefined] throws a TypeError. *)
Definition object_coercible (v : value) : option unit :=
  if nullish v then None else Some tt.

(** [v?.key]. *)
Definition member_opt (v : value) (key : string) : value :=
  match member v key with
  | Some x => x
  | None => VUndefined
  end.

(** A String is held as the bytes of its UTF-8 encoding (a lone surrogate
    as its three bytes).  A byte [10xxxxxx] continues the code point of the
    byte before it. *)
Definition continuation (c : ascii) : bool :=
  let b := N_of_ascii c in (128 <=? b)%N && (b <? 192)%N.

Definition continued (s : string) : bool :=
  match s with
  | String c _ => continuation c
  | EmptyString => false
  end.

(** The code points of a String, each as a String of its own. *)
Fixpoint code_points (s : string) : list string :=
  match s with
  | EmptyString => []
  | String c rest =>
      match code_points rest with
      | point :: points =>
          if continued rest then String c point :: points
          else String c EmptyString :: point :: points
      | [] => [String c EmptyString]
      end
  end.

Definition byte (n : N) : ascii := ascii_of_N (n mod 256).

(** The three bytes of a code unit [0x0800 <= u <= 0xFFFF]. *)
Definition three_bytes (u : N) : string :=
  String (byte (224 + u / 4096))
    (String (byte (128 + (u / 64) mod 64))
       (String (byte (128 + u mod 64)) EmptyString)).

(** The UTF-16 code units of a code point: two surrogates when its
    encoding has four bytes, itself otherwise. *)
Definition units_of (point : string) : list string :=
  match point with
  | String b0 (String b1 (String b2 (String b3 EmptyString))) =>
      let u := ((N_of_ascii b0 mod 8) * 262144 + (N_of_ascii b1 mod 64) * 4096
                + (N_of_ascii b2 mod 64) * 64 + N_of_ascii b3 mod 64 - 65536)%N in
      [three_bytes (55296 + u / 1024); three_bytes (56320 + u mod 1024)]
  | _ => [point]
  end.

Definition code_units (s : string) : list string :=
  flat_map units_of (code_points s).

(** [s[i]]: the String of the code unit at index [i], or [undefined]. *)
Definition char_at (s : string) (i : nat) : value :=
  match nth_error (code_units s) i with
  | Some unit => VString unit
  | None => VUndefined
  end.

(** The property key of an array index: its decimal digits. *)
Definition index_key (i : nat) : string :=
  match i with
  | 0 => "0" | 1 => "1" | 2 => "2" | 3 => "3" | 4 => "4"
  | 5 => "5" | 6 => "6" | 7 => "7" | 8 => "8" | 9 => "9"
  | _ => ""
  end.

(** [v[i]] for a literal index [i <= 9]. *)
Definition at_index (v : value) (i : nat) : option value :=
  match v with
  | VUndefined | VNull => None
  | VArray l => Some (nth i l VUndefined)
  | VString s => Some (char_at s i)
  | VObject fields => Some (lookup (index_key i) fields)
  | VBool _ | VNumber _ => Some VUndefined
  end.

(** The String iterator yields the code points. *)
Definition characters (s : string) : list value :=
  map VString (code_points s).

(** The elements an array-destructuring pattern draws from [v]: arrays and
    Strings are iterable, anything else throws a TypeError ([None]). *)
Definition iterate (v : value) : option (list value) :=
  match v with
  | VArray l => Some l
  | VString s => Some (characters s)
  | _ => None
  end.

(** [s.split(sep)] for a one-character separator. *)
Fixpoint split (sep : ascii) (s : string) : list string :=
  match s with
  | EmptyString => [EmptyString]
  | String c rest =>
      if Ascii.eqb c sep then EmptyString :: split sep rest
      else match split sep rest with
           | segment :: segments => String c segment :: segments
           | [] => [String c EmptyString]
           end
  end.

(** [segments.pop()]: the last element, [undefined] on an empty array. *)
Fixpoint pop (segments : list string) : value :=
  match segments with
  | [] => VUndefined
  | [s] => VString s
  | _ :: rest => pop rest
  end.

(** Every Number inside a value is a binary64 Number other than NaN, as for
    everything [JSON.parse] returns. *)
Fixpoint from_json (v : value) : bool :=
  match v with
  | VNumber x => representable x && negb (is_nan x)
  | VArray l => forallb from_json l
  | VObject fields => forallb (fun kv => from_json (snd kv)) fields
  | _ => true
  end.

End Js.

(* ================================================================== *)
(** * Effects: upstream requests, exceptions, [console.error] *)
(* ================================================================== *)

Module Effects.

Import Js.

(** What can be thrown: a runtime TypeError, a rejected axios request,
    [new Error(text)] where a template literal's interpolated value is kept
    beside its text, or the rejection of [Promise.all]: the one of
    [rejections] that came first in time.  The model has no clock, so the
    exception carries every rejection, in list order. *)
#[warnings="-register-all"]
Inductive exn :=
| TypeError
| AxiosError
| Error (text : string) (interpolated : option value)
| Earliest (rejections : list exn).

Inductive outcome (A : Type) :=
| Return (a : A)
| Throw (e : exn).
Arguments Return {A} a.
Arguments Throw {A} e.

(** The requests [server.js] sends upstream, with the values spliced into
    their URL, headers and body. *)
Inductive call :=
| PostToken
| GetSubscriptions (accessToken : value)
| PostCostQuery (accessToken subscriptionId startDate endDate : value)
| PostResourceQuery (accessToken subscriptionId startDate endDate : value)
| GetPricings (accessToken subscriptionId : value).

(** An axios promise settles with [response.data] or rejects. *)
Inductive http_result :=
| Response (data : value)
| Rejected.

(** The management plane: its answer to a request may depend on the requests
    already issued. *)
Definition Upstream := list call -> call -> http_result.

(** One [console.error(label, ...)] of a handler: the label, the value
    interpolated into it (if any) and the error whose message is printed. *)
Record log_entry := ConsoleError
  { label : string; about : option value; err : exn }.

Record World := mkWorld
  { calls : list call;            (* upstream requests issued so far *)
    console : list log_entry }.   (* handler-level console.error lines *)

Definition world0 : World := mkWorld [] [].

Definition M (A : Type) : Type := Upstream -> World -> outcome A * World.

Definition ret {A} (a : A) : M A := fun _ w => (Return a, w).

Definition throw {A} (e : exn) : M A := fun _ w => (Throw e, w).

Definition bind {A B} (m : M A) (k : A -> M B) : M B :=
  fun up w =>
    match m up w with
    | (Return a, w') => k a up w'
    | (Throw e, w') => (Throw e, w')
    end.

(** [try { m } catch (error) { handler error }]. *)
Definition try_catch {A} (m : M A) (handler : exn -> M A) : M A :=
  fun up w =>
    match m up w with
    | (Return a, w') => (Return a, w')
    | (Throw e, w') => handler e up w'
    end.

(** A step that throws a TypeError when the access is undefined. *)
Definition or_TypeError {A} (o : option A) : M A :=
  match o with
  | Some a => ret a
  | None => throw TypeError
  end.

(** [(await axios.get/post(...)).data] *)
Definition axios (c : call) : M value :=
  fun up w =>
    let w' := mkWorld (calls w ++ [c]) (console w) in
    match up (calls w) c with
    | Response data => (Return data, w')
    | Rejected => (Throw AxiosError, w')
    end.

Definition console_error (l : string) (v : option value) (e : exn) : M unit :=
  fun _ w => (Return tt, mkWorld (calls w) (console w ++ [ConsoleError l v e])).

(** [`...${v}...`]: the template literal converts [v] with ToString. *)
Definition to_string (v : value) : M unit :=
  if printable v then ret tt else throw TypeError.

(** The promises created by [subscriptions.map]: each async function runs up
    to its request, in list order, before any of them settles. *)
Fixpoint settle_all {A} (promises : list (M A)) (up : Upstream) (w : World)
  : list (outcome A) * World :=
  match promises with
  | [] => ([], w)
  | p :: rest =>
      let (r, w1) := p up w in
      let (rs, w2) := settle_all rest up w1 in
      (r :: rs, w2)
  end.

Definition rejections {A} (settled : list (outcome A)) : list exn :=
  flat_map (fun r => match r with Throw e => [e] | Return _ => [] end) settled.

Definition fulfilled {A} (settled : list (outcome A)) : list A :=
  flat_map (fun r => match r with Return a => [a] | Throw _ => [] end) settled.

(** [await Promise.all(promises)]: every result in list order when no
    promise rejects, and otherwise the rejection that is first in time. *)
Definition promise_all {A} (promises : list (M A)) : M (list A) :=
  fun up w =>
    let (settled, w') := settle_all promises up w in
    match rejections settled with
    | [] => (Return (fulfilled settled), w')
    | es => (Throw (Earliest es), w')
    end.

(** [list.forEach(x => body)] where the body updates the array [acc] it
    pushes to; an exception leaves the loop. *)
Fixpoint forEach {A S} (l : list A) (body : A -> S -> M S) (acc : S) : M S :=
  match l with
  | [] => ret acc
  | x :: rest => bind (body x acc) (forEach rest body)
  end.

Declare Scope js_scope.
Delimit Scope js_scope with js.
Notation "x <- m ;; k" := (bind m (fun x => k))
  (at level 61, m at next level, right associativity) : js_scope.
Notation "m ;;; k" := (bind m (fun _ => k))
  (at level 61, right associativity) : js_scope.

End Effects.

(* ================================================================== *)
(** * [server.js] *)
(* ================================================================== *)

Module Server.

Import Number Js Effects.
Local Open Scope js_scope.

(** ** Data *)

(** [{ subscriptionId, displayName }] as built by [getSubscriptions]. *)
Record Subscription := mkSubscription
  { subscriptionId : value;
    displayName : value }.

(** What a mapped promise resolves to: [{ subscription, data }] or, on the
    costs path after [.catch], [{ subscription, error }].  An absent [data]
    is [undefined]; an absent [error] is [None]. *)
Record Settled := mkSettled
  { subscription : Subscription;
    data : value;
    error : option exn }.

(** An element of [topResources]. *)
Record TopResource := mkTopResource
  { tr_subscriptionId : value;
    tr_subscriptionName : value;
    resourceName : value;
    resourceId : value;
    meterSubCategory : value;
    cost : number }.

(** An element of [plansData]. *)
Record DefenderPlan := mkDefenderPlan
  { dp_subscriptionId : value;
    dp_subscriptionName : value;
    planName : value;
    pricingTier : value }.

(** The argument of [res.json]. *)
Inductive body :=
| ErrorBody (error : string)
    (* { error: '...' } *)
| CostsBody (rows : list (list value)) (columns : list (string * string))
            (subscriptions : list Subscription)
    (* { properties: { rows, columns }, subscriptions } *)
| TopResourcesBody (sortedResources : list TopResource)
| PlansBody (plansData : list DefenderPlan).

(** [res.status(status).json(body)]; [res.json(body)] has status 200. *)
Record response := mkResponse
  { status : nat;
    json : body }.

(** The receiver of [.forEach] / [.map] must be an array; on any other JSON
    value the method is undefined and the call throws. *)
Definition array_elements (v : value) : option (list value) :=
  match v with
  | VArray l => Some l
  | _ => None
  end.

Fixpoint map_option {A B} (f : A -> option B) (l : list A) : option (list B) :=
  match l with
  | [] => Some []
  | x :: rest =>
      match f x, map_option f rest with
      | Some y, Some ys => Some (y :: ys)
      | _, _ => None
      end
  end.

(** ** Helpers *)

(** [getAccessToken] (lines 31-53). *)
Definition getAccessToken : M value :=
  try_catch
    (data <- axios PostToken ;;
     or_TypeError (member data "access_token"))
    (fun _ => throw (Error "Failed to fetch access token" None)).

(** [sub => ({ subscriptionId: sub.subscriptionId, displayName: sub.displayName })] *)
Definition subscription_of (sub : value) : option Subscription :=
  match member sub "subscriptionId", member sub "displayName" with
  | Some i, Some n => Some (mkSubscription i n)
  | _, _ => None
  end.

(** [getSubscriptions] (lines 56-76).  The [Authorization] header of line
    62 interpolates the token before the request is made. *)
Definition getSubscriptions (accessToken : value) : M (list Subscription) :=
  try_catch
    (to_string accessToken ;;;
     data <- axios (GetSubscriptions accessToken) ;;
     value <- or_TypeError (member data "value") ;;
     subs <- or_TypeError (array_elements value) ;;
     or_TypeError (map_option subscription_of subs))
    (fun _ => throw (Error "Failed to fetch subscriptions" None)).

(** [fetchCostData] (lines 79-128).  The URL of line 82 interpolates the
    subscription id and the header of line 115 the token, before the request
    is made.  Before returning [response.data] the function logs
    [response.data.properties?.rows?.length || 0], which reads [.properties]
    of the payload.  The [catch] interpolates the id again (line 125)
    before it throws its own error. *)
Definition fetchCostData (accessToken subscriptionId startDate endDate : value)
  : M value :=
  try_catch
    (to_string subscriptionId ;;;
     to_string accessToken ;;;
     data <- axios (PostCostQuery accessToken subscriptionId startDate endDate) ;;
     or_TypeError (member data "properties") ;;;
     ret data)
    (fun _ =>
       to_string subscriptionId ;;;
       throw (Error "Failed to fetch cost data for " (Some subscriptionId))).

(** [fetchTopResources] (lines 197-244), with the template literals of
    lines 200, 231 and 241. *)
Definition fetchTopResources (accessToken subscriptionId startDate endDate : value)
  : M value :=
  try_catch
    (to_string subscriptionId ;;;
     to_string accessToken ;;;
     data <- axios (PostResourceQuery accessToken subscriptionId startDate endDate) ;;
     or_TypeError (member data "properties") ;;;
     ret data)
    (fun _ =>
       to_string subscriptionId ;;;
       throw (Error "Failed to fetch top resources for " (Some subscriptionId))).

(** [fetchDefenderPlans] (lines 295-311), with the template literals of
    lines 298 and 301.  The log line reads [response.data.value.length];
    the [catch] interpolates the id (line 308) and returns [null]. *)
Definition fetchDefenderPlans (accessToken subscriptionId : value) : M value :=
  try_catch
    (to_string subscriptionId ;;;
     to_string accessToken ;;;
     data <- axios (GetPricings accessToken subscriptionId) ;;
     value <- or_TypeError (member data "value") ;;
     or_TypeError (object_coercible value) ;;;
     ret data)
    (fun _ =>
       to_string subscriptionId ;;;
       ret VNull).

(** ** [POST /api/costs] (lines 131-194) *)

Definition cost_columns : list (string * string) :=
  [ ("Cost", "Number"); ("MeterCategory", "String");
    ("MeterSubCategory", "String"); ("SubscriptionId", "String");
    ("ResourceGroup", "String"); ("SubscriptionName", "String") ].

(** Lines 159-167: [const [cost, meterCategory, meterSubCategory, ,
    resourceGroup] = row] and the pushed array. *)
Definition cost_row (sub : Subscription) (row : value) : option (list value) :=
  match iterate row with
  | Some cells =>
      let cost := nth 0 cells VUndefined in
      let meterCategory := nth 1 cells VUndefined in
      let meterSubCategory := nth 2 cells VUndefined in
      let resourceGroup := nth 4 cells VUndefined in
      Some [ cost; meterCategory; meterSubCategory; subscriptionId sub;
             or_else resourceGroup (VString "Unknown"); displayName sub ]
  | None => None
  end.

(** [result.data?.properties?.rows] *)
Definition payload_rows (d : value) : value :=
  member_opt (member_opt d "properties") "rows".

(** Lines 150-169: the body of [results.forEach]. *)
Definition costs_each (result : Settled) (aggregatedRows : list (list value))
  : M (list (list value)) :=
  match error result with
  | Some e =>
      to_string (subscriptionId (subscription result)) ;;;
      console_error "Error for subscription " (Some (subscriptionId (subscription result))) e ;;;
      ret aggregatedRows
  | None =>
      let rows := or_else (payload_rows (data result)) (VArray []) in
      rows <- or_TypeError (array_elements rows) ;;
      forEach rows
        (fun row acc =>
           r <- or_TypeError (cost_row (subscription result) row) ;;
           ret (acc ++ [r]))
        aggregatedRows
  end.

(** Lines 142-146: one element of [costPromises]. *)
Definition costPromise (accessToken startDate endDate : value) (sub : Subscription)
  : M Settled :=
  try_catch
    (d <- fetchCostData accessToken (subscriptionId sub) startDate endDate ;;
     ret (mkSettled sub d None))
    (fun e => ret (mkSettled sub VUndefined (Some e))).

Definition api_costs (req_body : value) : M response :=
  try_catch
    (startDate <- or_TypeError (member req_body "startDate") ;;
     endDate <- or_TypeError (member req_body "endDate") ;;
     if negb (truthy startDate) || negb (truthy endDate) then
       ret (mkResponse 400 (ErrorBody "Missing required parameters"))
     else
       (* line 138: `Received request: startDate=${startDate}, ...` *)
       to_string startDate ;;;
       to_string endDate ;;;
       accessToken <- getAccessToken ;;
       subscriptions <- getSubscriptions accessToken ;;
       results <- promise_all
                    (map (costPromise accessToken startDate endDate) subscriptions) ;;
       aggregatedRows <- forEach results costs_each [] ;;
       ret (mkResponse 200 (CostsBody aggregatedRows cost_columns subscriptions)))
    (fun e =>
       console_error "Error in /api/costs:" None e ;;;
       ret (mkResponse 500 (ErrorBody "Failed to fetch cost data"))).

(** ** [POST /api/top-resources] (lines 247-292) *)

(** Line 271: [resourceId ? resourceId.split('/').pop() : 'Unknown'].
    [split] exists on Strings only. *)
Definition resource_name (resourceId : value) : option value :=
  if truthy resourceId then
    match resourceId with
    | VString s => Some (pop (split "/"%char s))
    | _ => None
    end
  else Some (VString "Unknown").

(** Line 278: [parseFloat(cost.toFixed(2))]; [toFixed] exists on Numbers
    only. *)
Definition rounded_cost (cost : value) : option number :=
  match cost with
  | VNumber x => Some (parseFloat (toFixed2 x))
  | _ => None
  end.

(** Lines 268-279: the object pushed for one row. *)
Definition top_resource (sub : Subscription) (row : value) : option TopResource :=
  match at_index row 0, at_index row 1, at_index row 2 with
  | Some cost, Some resourceId, Some meterSubCategory =>
      match resource_name resourceId, rounded_cost cost with
      | Some resourceName, Some c =>
          Some (mkTopResource (subscriptionId sub) (displayName sub)
                  resourceName resourceId meterSubCategory c)
      | _, _ => None
      end
  | _, _, _ => None
  end.

(** Lines 265-282: the body of [results.forEach]. *)
Definition top_each (result : Settled) (topResources : list TopResource)
  : M (list TopResource) :=
  let rows := payload_rows (data result) in
  if truthy rows then
    rows <- or_TypeError (array_elements rows) ;;
    forEach rows
      (fun row acc =>
         r <- or_TypeError (top_resource (subscription result) row) ;;
         ret (acc ++ [r]))
      topResources
  else ret topResources.

(** [Array.prototype.sort(comparefn)]: a stable sort; [x] is moved behind
    [y] exactly when [comparefn(x, y) > 0]. *)
Section Sort.
Variable A : Type.
Variable comparefn : A -> A -> number.

Fixpoint insert (x : A) (sorted : list A) : list A :=
  match sorted with
  | [] => [x]
  | y :: rest =>
      if is_positive (comparefn x y) then y :: insert x rest
      else x :: sorted
  end.

Definition sort (l : list A) : list A := fold_right insert [] l.
End Sort.

(** [(a, b) => b.cost - a.cost] *)
Definition by_cost_descending (a b : TopResource) : number :=
  Number.sub (cost b) (cost a).

(** [.slice(0, 10)] *)
Definition slice_0_10 {A} (l : list A) : list A := firstn 10 l.

(** Lines 257-260: one element of [resourcePromises]. *)
Definition resourcePromise (accessToken startDate endDate : value) (sub : Subscription)
  : M Settled :=
  d <- fetchTopResources accessToken (subscriptionId sub) startDate endDate ;;
  ret (mkSettled sub d None).

Definition api_top_resources (req_body : value) : M response :=
  try_catch
    (startDate <- or_TypeError (member req_body "startDate") ;;
     endDate <- or_TypeError (member req_body "endDate") ;;
     if negb (truthy startDate) || negb (truthy endDate) then
       ret (mkResponse 400 (ErrorBody "Missing required parameters"))
     else
       accessToken <- getAccessToken ;;
       subscriptions <- getSubscriptions accessToken ;;
       results <- promise_all
                    (map (resourcePromise accessToken startDate endDate) subscriptions) ;;
       topResources <- forEach results top_each [] ;;
       let sortedResources := slice_0_10 (sort by_cost_descending topResources) in
       ret (mkResponse 200 (TopResourcesBody sortedResources)))
    (fun e =>
       console_error "Error in /api/top-resources:" None e ;;;
       ret (mkResponse 500 (ErrorBody "Failed to fetch top resources"))).

(** ** [GET /api/plans] (lines 314-348) *)

(** Lines 330-337: what one plan record pushes, if anything. *)
Definition defender_plan (sub : Subscription) (plan : value)
  : option (list DefenderPlan) :=
  match member plan "properties" with
  | Some properties =>
      let tier := member_opt properties "pricingTier" in
      if truthy tier then
        Some [ mkDefenderPlan (subscriptionId sub) (displayName sub)
                 (member_opt plan "name") tier ]
      else Some []
  | None => None
  end.

(** Lines 327-340: the body of [results.forEach]. *)
Definition plans_each (result : Settled) (plansData : list DefenderPlan)
  : M (list DefenderPlan) :=
  let plans := member_opt (data result) "value" in
  if truthy plans then
    plans <- or_TypeError (array_elements plans) ;;
    forEach plans
      (fun plan acc =>
         pushed <- or_TypeError (defender_plan (subscription result) plan) ;;
         ret (acc ++ pushed))
      plansData
  else ret plansData.

(** Lines 319-322: one element of [planPromises]. *)
Definition planPromise (accessToken : value) (sub : Subscription) : M Settled :=
  d <- fetchDefenderPlans accessToken (subscriptionId sub) ;;
  ret (mkSettled sub d None).

Definition api_plans : M response :=
  try_catch
    (accessToken <- getAccessToken ;;
     subscriptions <- getSubscriptions accessToken ;;
     results <- promise_all (map (planPromise accessToken) subscriptions) ;;
     plansData <- forEach results plans_each [] ;;
     ret (mkResponse 200 (PlansBody plansData)))
    (fun e =>
       console_error "Error in /api/plans:" None e ;;;
       ret (mkResponse 500 (ErrorBody "Failed to fetch Defender plans"))).

(** Running a handler against an upstream, from a fresh request. *)
Definition run {A} (m : M A) (up : Upstream) : outcome A * World := m up world0.

End Server.

(* ================================================================== *)
(** * What the fan-out and the merge loops compute *)
(* ================================================================== *)

Module Aggregation.

Import Number Js Effects Server.

(** The answers of the upstream to a batch of requests issued in list order,
    one per subscription, after the requests in [history]. *)
Fixpoint fan_out (up : Upstream) (history : list call)
    (query : Subscription -> call) (subs : list Subscription)
  : list (Subscription * http_result) :=
  match subs with
  | [] => []
  | sub :: rest =>
      (sub, up history (query sub))
        :: fan_out up (history ++ [query sub]) query rest
  end.

(** The payload with which [fetchCostData] / [fetchTopResources] resolve
    once the request is made; [None] when they throw. *)
Definition query_data (r : http_result) : option value :=
  match r with
  | Response d => if nullish d then None else Some d
  | Rejected => None
  end.

(** The payload with which [fetchDefenderPlans] resolves once the request
    is made; [null] after its [catch]. *)
Definition plans_data (r : http_result) : value :=
  match r with
  | Response d =>
      match member d "value" with
      | Some v => if nullish v then VNull else d
      | None => VNull
      end
  | Rejected => VNull
  end.

Definition cost_call (accessToken startDate endDate : value) (sub : Subscription) :=
  PostCostQuery accessToken (subscriptionId sub) startDate endDate.

Definition resource_call (accessToken startDate endDate : value) (sub : Subscription) :=
  PostResourceQuery accessToken (subscriptionId sub) startDate endDate.

Definition plan_call (accessToken : value) (sub : Subscription) :=
  GetPricings accessToken (subscriptionId sub).

Definition cost_failure (sub : Subscription) : exn :=
  Error "Failed to fetch cost data for " (Some (subscriptionId sub)).

(** What [costPromise] settles to once the request is made. *)
Definition settle_cost (sr : Subscription * http_result) : Settled :=
  match query_data (snd sr) with
  | Some d => mkSettled (fst sr) d None
  | None => mkSettled (fst sr) VUndefined (Some (cost_failure (fst sr)))
  end.

(** What [resourcePromise] resolves to once the request is made, [None]
    when it rejects. *)
Definition settle_resource (sr : Subscription * http_result) : option Settled :=
  match query_data (snd sr) with
  | Some d => Some (mkSettled (fst sr) d None)
  | None => None
  end.

(** What [planPromise] resolves to once the request is made. *)
Definition settle_plan (sr : Subscription * http_result) : Settled :=
  mkSettled (fst sr) (plans_data (snd sr)) None.

Definition failed (r : Settled) : bool :=
  match error r with Some _ => true | None => false end.

(** The rows one settled result adds to [aggregatedRows]; [None] when the
    loop body throws. *)
Definition cost_contribution (r : Settled) : option (list (list value)) :=
  match error r with
  | Some _ =>
      if printable (subscriptionId (subscription r)) then Some [] else None
  | None =>
      match array_elements (or_else (payload_rows (data r)) (VArray [])) with
      | Some rows => map_option (cost_row (subscription r)) rows
      | None => None
      end
  end.

(** The raw rows in the payload of a result: those of its
    [properties.rows] array, none when the query failed or the array is
    missing. *)
Definition raw_rows (r : Settled) : list value :=
  match error r with
  | Some _ => []
  | None =>
      match or_else (payload_rows (data r)) (VArray []) with
      | VArray rows => rows
      | _ => []
      end
  end.

Definition row_count (r : Settled) : nat := length (raw_rows r).

(** The [console.error] line of a failed result. *)
Definition failure_log (r : Settled) : list log_entry :=
  match error r with
  | Some e => [ConsoleError "Error for subscription "
                 (Some (subscriptionId (subscription r))) e]
  | None => []
  end.

(** The elements one result adds to [topResources]. *)
Definition top_contribution (r : Settled) : option (list TopResource) :=
  let rows := payload_rows (data r) in
  if truthy rows then
    match array_elements rows with
    | Some rows => map_option (top_resource (subscription r)) rows
    | None => None
    end
  else Some [].

(** The elements one result adds to [plansData]. *)
Definition plan_contribution (r : Settled) : option (list DefenderPlan) :=
  let plans := member_opt (data r) "value" in
  if truthy plans then
    match array_elements plans with
    | Some plans =>
        option_map (@List.concat _) (map_option (defender_plan (subscription r)) plans)
    | None => None
    end
  else Some [].


Definition top_resource_of (sub : Subscription) (t : TopResource) : Prop :=
  tr_subscriptionId t = subscriptionId sub /\
  tr_subscriptionName t = displayName sub.


(** Non-increasing order of the [cost] field, by exact value. *)
Definition descending_by_cost (l : list TopResource) : Prop :=
  StronglySorted (fun a b => Number.le (cost b) (cost a)) l.


(** The payload of a plans query has no [value]. *)
Definition lacks_value (d : value) : Prop :=
  member_opt d "value" = VUndefined.

Definition has_slash (s : string) : bool :=
  existsb (fun c => Ascii.eqb c "/"%char) (list_ascii_of_string s).

(** The substring after the last ['/'] of [s] (all of [s] without one). *)
Fixpoint last_segment (s : string) : string :=
  match s with
  | EmptyString => EmptyString
  | String c rest =>
      if has_slash rest then last_segment rest
      else if Ascii.eqb c "/"%char then rest else s
  end.

(** How the raw rows of a result relate to the rows it contributes. *)
Definition flattened (r : Settled) (g : list (list value)) : Prop :=
  Forall2 (fun row out => cost_row (subscription r) row = Some out)
    (raw_rows r) g.

(** An array-destructuring pattern accepts the row. *)
Definition iterable (v : value) : bool :=
  match v with
  | VArray _ | VString _ => true
  | _ => false
  end.

(** A cost payload in the shape the provider documents: its
    [properties.rows], when present, is an array of rows. *)
Definition tabular (d : value) : bool :=
  match payload_rows d with
  | VArray rows => forallb iterable rows
  | v => negb (truthy v)
  end.

(** A pricings payload in the shape the provider documents: its [value],
    when present, is an array of plan records. *)
Definition listing (d : value) : bool :=
  match member_opt d "value" with
  | VArray plans => forallb (fun plan => negb (nullish plan)) plans
  | v => negb (truthy v)
  end.

(** [plan.properties?.pricingTier] *)
Definition tier_of (plan : value) : value :=
  member_opt (member_opt plan "properties") "pricingTier".

Definition succeeded (r : Settled) : bool := negb (failed r).

(** The world after a batch of requests has been issued, and after a handler
    has printed [entries]. *)
Definition issued (w : World) (batch : list call) : World :=
  mkWorld (calls w ++ batch) (console w).

Definition logged (w : World) (entries : list log_entry) : World :=
  mkWorld (calls w) (console w ++ entries).

(** Every listed subscription id can be interpolated into a URL. *)
Definition printable_ids (subs : list Subscription) : bool :=
  forallb (fun sub => printable (subscriptionId sub)) subs.

(** The settled results of the three fan-outs. *)
Definition cost_results up history tok sd ed subs : list Settled :=
  map settle_cost (fan_out up history (cost_call tok sd ed) subs).

Definition resource_results up history tok sd ed subs : option (list Settled) :=
  map_option settle_resource (fan_out up history (resource_call tok sd ed) subs).

Definition plan_results up history tok subs : list Settled :=
  map settle_plan (fan_out up history (plan_call tok) subs).

End Aggregation.

(* ================================================================== *)
(** * The aggregated results as the specification words them *)
(* ================================================================== *)

(** Nothing here is taken from [server.js]: the definitions read the
    payloads with the object and array primitives alone, so that the
    theorems compare the handlers with them. *)
Module Expected.

Import Number Js Effects Server Aggregation.

(** The [properties.rows] of a payload, [undefined] without one. *)
Definition rows_field (d : value) : value :=
  match d with
  | VObject fields =>
      match lookup "properties" fields with
      | VObject properties => lookup "rows" properties
      | _ => VUndefined
      end
  | _ => VUndefined
  end.

(** The raw rows of a payload. *)
Definition rows_of (d : value) : list value :=
  match rows_field d with
  | VArray rows => rows
  | _ => []
  end.

Definition is_array (v : value) : bool :=
  match v with
  | VArray _ => true
  | _ => false
  end.

(** The cells of a positional row; a missing cell is [undefined]. *)
Definition cell (row : value) (i : nat) : value :=
  match row with
  | VArray cells => nth i cells VUndefined
  | _ => VUndefined
  end.

(** The tabular payload of the cost query: no rows, or an array of
    positional rows. *)
Definition cost_table (d : value) : bool :=
  match rows_field d with
  | VArray rows => forallb is_array rows
  | v => negb (truthy v)
  end.

(** CostRow: the raw row [cost, meterCategory, meterSubCategory, <unused>,
    resourceGroup] joined with its owning Subscription. *)
Definition joined (sub : Subscription) (row : value) : list value :=
  [ cell row 0; cell row 1; cell row 2; subscriptionId sub;
    (if truthy (cell row 4) then cell row 4 else VString "Unknown");
    displayName sub ].

(** The CostRows of one subscription: none when its query failed. *)
Definition cost_rows (sr : Subscription * http_result) : list (list value) :=
  match query_data (snd sr) with
  | Some d => map (joined (fst sr)) (rows_of d)
  | None => []
  end.

(** The column schema of section 6. *)
Definition schema : list (string * string) :=
  [ ("Cost", "Number"); ("MeterCategory", "String");
    ("MeterSubCategory", "String"); ("SubscriptionId", "String");
    ("ResourceGroup", "String"); ("SubscriptionName", "String") ].

(** The number of raw rows a subscription's query returned; none when it
    failed. *)
Definition returned_rows (sr : Subscription * http_result) : nat :=
  match query_data (snd sr) with
  | Some d => length (rows_of d)
  | None => 0
  end.

(** resourceName: the last path segment of the resource id, ["Unknown"]
    without one. *)
Definition name_of (resourceId : value) : value :=
  match resourceId with
  | VString s =>
      if String.eqb s "" then VString "Unknown" else VString (last_segment s)
  | _ => VString "Unknown"
  end.

(** A cost rounded to two decimals, as [toFixed(2)] prints it and
    [parseFloat] reads it back. *)
Definition two_decimals (cost : value) : number :=
  match cost with
  | VNumber x => parseFloat (toFixed2 x)
  | _ => S754_nan
  end.

(** A row of the resource query: [cost, resourceId, meterSubCategory] with
    a Number for cost and a String, if anything, for the id. *)
Definition is_number (v : value) : bool :=
  match v with
  | VNumber _ => true
  | _ => false
  end.

Definition string_if_any (v : value) : bool :=
  match v with
  | VString _ => true
  | _ => negb (truthy v)
  end.

Definition ranked_row (row : value) : bool :=
  is_array row && is_number (cell row 0) && string_if_any (cell row 1).

Definition resource_table (d : value) : bool :=
  match rows_field d with
  | VArray rows => forallb ranked_row rows
  | v => negb (truthy v)
  end.

(** TopResource. *)
Definition resource_of (sub : Subscription) (row : value) : TopResource :=
  mkTopResource (subscriptionId sub) (displayName sub)
    (name_of (cell row 1)) (cell row 1) (cell row 2) (two_decimals (cell row 0)).

(** The TopResources of one subscription's payload. *)
Definition resources (sr : Subscription * http_result) : list TopResource :=
  match query_data (snd sr) with
  | Some d => map (resource_of (fst sr)) (rows_of d)
  | None => []
  end.

End Expected.

(* ================================================================== *)
(** * A sample tenant *)
(* ================================================================== *)

(** Three subscriptions.  On the cost query the second is rejected and the
    third answers without [properties]; on the pricings query the second is
    rejected and the third answers without [value]. *)
Module Sample.

Import Number Js Effects Server Aggregation.

Definition is_subscription (id : value) (name : string) : bool :=
  match id with
  | VString s => String.eqb s name
  | _ => false
  end.

(** The Number a decimal literal [num / den] denotes. *)
Definition decimal (num den : positive) : value := VNumber (nearest false num den).

Definition token_payload : value :=
  VObject [("token_type", VString "Bearer"); ("access_token", VString "tok")].

Definition subscriptions_payload : value :=
  VObject
    [("value",
      VArray
        [VObject [("subscriptionId", VString "s1"); ("displayName", VString "One")];
         VObject [("subscriptionId", VString "s2"); ("displayName", VString "Two")];
         VObject [("subscriptionId", VString "s3"); ("displayName", VString "Three")]])].

Definition listed : list Subscription :=
  [mkSubscription (VString "s1") (VString "One");
   mkSubscription (VString "s2") (VString "Two");
   mkSubscription (VString "s3") (VString "Three")].

Definition costs_s1 : value :=
  VObject
    [("properties",
      VObject
        [("rows",
          VArray
            [VArray [decimal 5 1; VString "Microsoft Defender for Cloud";
                     VString "Servers"; VString "s1"; VString "rg1"];
             VArray [decimal 7 2; VString "Microsoft Defender for Cloud";
                     VString "SQL"; VString "s1"; VString ""]])])].

Definition resources_s1 : value :=
  VObject
    [("properties",
      VObject
        [("rows",
          VArray
            [VArray [decimal 12345 1000;
                     VString "/sub/rg/providers/Foo/bar/myResource";
                     VString "Servers"];
             VArray [decimal 99 1; VNull; VString "SQL"]])])].

Definition resources_s2 : value :=
  VObject
    [("properties",
      VObject
        [("rows",
          VArray [VArray [decimal 50 1; VString "/sub/rg/vm1"; VString "Servers"]])])].

Definition pricings_s1 : value :=
  VObject
    [("value",
      VArray
        [VObject [("name", VString "VirtualMachines");
                  ("properties", VObject [("pricingTier", VString "Standard")])];
         VObject [("name", VString "SqlServers")]])].

Definition azure : Upstream :=
  fun _ c =>
    match c with
    | PostToken => Response token_payload
    | GetSubscriptions _ => Response subscriptions_payload
    | PostCostQuery _ id _ _ =>
        if is_subscription id "s1" then Response costs_s1
        else if is_subscription id "s2" then Rejected
        else Response (VObject [])
    | PostResourceQuery _ id _ _ =>
        if is_subscription id "s1" then Response resources_s1
        else if is_subscription id "s2" then Response resources_s2
        else Response (VObject [])
    | GetPricings _ id =>
        if is_subscription id "s1" then Response pricings_s1
        else if is_subscription id "s2" then Rejected
        else Response (VObject [])
    end.

(** The same tenant when the resource query of the second subscription is
    rejected. *)
Definition azure_flaky : Upstream :=
  fun history c =>
    match c with
    | PostResourceQuery _ id _ _ =>
        if is_subscription id "s2" then Rejected else azure history c
    | _ => azure history c
    end.

Definition january : value :=
  VObject [("startDate", VString "2024-01-01"); ("endDate", VString "2024-01-31")].

Definition no_end_date : value :=
  VObject [("startDate", VString "2024-01-01")].

Definition start_date : value := VString "2024-01-01".
Definition end_date : value := VString "2024-01-31".
Definition token : value := VString "tok".

(** The worlds after the token and the subscription list were fetched. *)
Definition with_token : World := mkWorld [PostToken] [].
Definition with_subscriptions : World :=
  mkWorld [PostToken; GetSubscriptions token] [].

(** The response of a handler run. *)
Definition answer (r : outcome response * World) : response :=
  match fst r with
  | Return resp => resp
  | Throw _ => mkResponse 0 (ErrorBody "")
  end.

End Sample.

(* ================================================================== *)
(** * Start-up of the process (lines 19-28 and 350-355) *)
(* ================================================================== *)

Module Startup.

Import Js.

(** [process.env] once [dotenv] has been loaded: the variables [server.js]
    reads; an unset variable is [undefined].  [PORT] is only named in the
    comment of line 350. *)
Record Env := mkEnv
  { TENANT_ID : option string;
    CLIENT_ID : option string;
    CLIENT_SECRET : option string;
    PORT : option string }.

(** [process.env.NAME] *)
Definition env_value (variable : option string) : value :=
  match variable with
  | Some s => VString s
  | None => VUndefined
  end.

(** How loading the module ends: [process.exit(code)] after a
    [console.error], or [app.listen(port)]. *)
Inductive boot :=
| Exit (code : nat) (message : string)
| Listen (port : N).

Definition start (env : Env) : boot :=
  let tenantId := env_value (TENANT_ID env) in
  let clientId := env_value (CLIENT_ID env) in
  let clientSecret := env_value (CLIENT_SECRET env) in
  if negb (truthy tenantId) || negb (truthy clientId) || negb (truthy clientSecret)
  then Exit 1 "Missing required environment variables: TENANT_ID, CLIENT_ID, or CLIENT_SECRET"
  else let port := 8080%N in Listen port.

(** A variable is set to a non-empty string. *)
Definition provided (variable : option string) : Prop :=
  exists s, variable = Some s /\ s <> "".

End Startup.

(* ================================================================== *)
(** * What the helpers and the handlers do, case by case *)
(* ================================================================== *)

Module Behaviour.

Import Number Js Effects Server Aggregation.

(** The token with which [getAccessToken] resolves; [None] when it throws. *)
Definition token_of (answer : http_result) : option value :=
  match answer with
  | Response d => member d "access_token"
  | Rejected => None
  end.

(** The list with which [getSubscriptions] resolves once the request is
    made; [None] when it throws. *)
Definition listed_subscriptions (answer : http_result)
  : option (list Subscription) :=
  match answer with
  | Response d =>
      match member d "value" with
      | Some v =>
          match array_elements v with
          | Some items => map_option subscription_of items
          | None => None
          end
      | None => None
      end
  | Rejected => None
  end.

(** A subscription as the management API lists it. *)
Definition encode_subscription (sub : Subscription) : value :=
  VObject [("subscriptionId", subscriptionId sub);
           ("displayName", displayName sub)].

(** The three answers that are not a 200. *)
Definition bad_request : response :=
  mkResponse 400 (ErrorBody "Missing required parameters").

Definition costs_failed : response :=
  mkResponse 500 (ErrorBody "Failed to fetch cost data").

Definition top_resources_failed : response :=
  mkResponse 500 (ErrorBody "Failed to fetch top resources").

Definition plans_failed : response :=
  mkResponse 500 (ErrorBody "Failed to fetch Defender plans").

(** The body has both dates. *)
Definition dated (req sd ed : value) : Prop :=
  member req "startDate" = Some sd /\ member req "endDate" = Some ed /\
  truthy sd = true /\ truthy ed = true.

(** The requests issued up to the fan-out. *)
Definition preamble (tok : value) : list call :=
  [PostToken; GetSubscriptions tok].

(** The records [/api/plans] builds from one answer, in payload order. *)
Definition tiered_plans (sr : Subscription * http_result) : list DefenderPlan :=
  match member_opt (plans_data (snd sr)) "value" with
  | VArray plans =>
      flat_map
        (fun plan =>
           if truthy (tier_of plan)
           then [mkDefenderPlan (subscriptionId (fst sr)) (displayName (fst sr))
                   (member_opt plan "name") (tier_of plan)]
           else [])
        plans
  | _ => []
  end.

(** [sub => ({ subscriptionId: sub.subscriptionId, displayName:
    sub.displayName })] on an element that is not [null]. *)
Definition decode_subscription (item : value) : Subscription :=
  mkSubscription (member_opt item "subscriptionId") (member_opt item "displayName").

(** Both dates can be interpolated into the log line of [/api/costs]. *)
Definition legible (sd ed : value) : bool := printable sd && printable ed.

(** What happens before the fan-out: the token fetch fails, the token
    cannot be interpolated into the header of the listing, the listing
    fails, or both resolve. *)
Inductive prelude (up : Upstream) : Type :=
| TokenFailed :
    token_of (up [] PostToken) = None -> prelude up
| Unauthorized tok :
    token_of (up [] PostToken) = Some tok ->
    printable tok = false ->
    prelude up
| ListingFailed tok :
    token_of (up [] PostToken) = Some tok ->
    printable tok = true ->
    listed_subscriptions (up [PostToken] (GetSubscriptions tok)) = None ->
    prelude up
| Listed tok subs :
    token_of (up [] PostToken) = Some tok ->
    printable tok = true ->
    listed_subscriptions (up [PostToken] (GetSubscriptions tok)) = Some subs ->
    prelude up.

End Behaviour.

(* ================================================================== *)
(** * The sample tenant when something goes wrong *)
(* ================================================================== *)

Module Scenarios.

Import Number Js Effects Server Aggregation Sample.

(** The token request is rejected. *)
Definition no_token : Upstream :=
  fun history c =>
    match c with
    | PostToken => Rejected
    | _ => azure history c
    end.

(** The token endpoint answers without [access_token]. *)
Definition anonymous : Upstream :=
  fun history c =>
    match c with
    | PostToken => Response (VObject [("token_type", VString "Bearer")])
    | _ => azure history c
    end.

(** The subscription listing is rejected. *)
Definition no_listing : Upstream :=
  fun history c =>
    match c with
    | GetSubscriptions _ => Rejected
    | _ => azure history c
    end.

(** The credential sees no subscription. *)
Definition empty_tenant : Upstream :=
  fun history c =>
    match c with
    | GetSubscriptions _ => Response (VObject [("value", VArray [])])
    | _ => azure history c
    end.

(** The first subscription answers the cost query with [rows] that are not
    an array, and the pricings query with a [value] that is not one. *)
Definition garbled_costs : value :=
  VObject [("properties", VObject [("rows", VString "none")])].

Definition garbled_pricings : value :=
  VObject [("value", VString "none")].

Definition garbled : Upstream :=
  fun history c =>
    match c with
    | PostCostQuery _ id _ _ =>
        if is_subscription id "s1" then Response garbled_costs
        else azure history c
    | GetPricings _ id =>
        if is_subscription id "s1" then Response garbled_pricings
        else azure history c
    | _ => azure history c
    end.

(** The second subscription answers the resource query with a cost that is
    a String. *)
Definition quoted_cost_row : value :=
  VArray [VString "50.00"; VString "/sub/rg/vm1"; VString "Servers"].

Definition quoted_costs : value :=
  VObject [("properties", VObject [("rows", VArray [quoted_cost_row])])].

Definition quoted : Upstream :=
  fun history c =>
    match c with
    | PostResourceQuery _ id _ _ =>
        if is_subscription id "s2" then Response quoted_costs
        else azure history c
    | _ => azure history c
    end.

(** The first subscription answers the resource query with two rows that
    cost 12.345 and 12.344. *)
Definition cents_rows : value :=
  VObject
    [("properties",
      VObject
        [("rows",
          VArray
            [VArray [decimal 12345 1000; VString "/sub/rg/a"; VString "Servers"];
             VArray [decimal 12344 1000; VString "/sub/rg/b"; VString "Servers"]])])].

Definition cents : Upstream :=
  fun history c =>
    match c with
    | PostResourceQuery _ id _ _ =>
        if is_subscription id "s1" then Response cents_rows
        else Response (VObject [])
    | _ => azure history c
    end.

(** A value that ToString rejects: [{ "toString": 1 }]. *)
Definition opaque : value := VObject [("toString", decimal 1 1)].

(** A body whose start date cannot be printed. *)
Definition opaque_dates : value :=
  VObject [("startDate", opaque); ("endDate", VString "2024-01-31")].

(** The listing holds a subscription whose id cannot be printed. *)
Definition opaque_listing : Upstream :=
  fun history c =>
    match c with
    | GetSubscriptions _ =>
        Response
          (VObject
             [("value",
               VArray
                 [VObject [("subscriptionId", VString "s1");
                           ("displayName", VString "One")];
                  VObject [("subscriptionId", opaque);
                           ("displayName", VString "Opaque")]])])
    | _ => azure history c
    end.

(** The token endpoint answers with a token that cannot be printed. *)
Definition opaque_token : Upstream :=
  fun history c =>
    match c with
    | PostToken => Response (VObject [("access_token", opaque)])
    | _ => azure history c
    end.

(** An environment with the three credentials, and one without secret. *)
Definition configured : Startup.Env :=
  Startup.mkEnv (Some "tenant") (Some "client") (Some "secret") (Some "3000").

Definition unconfigured : Startup.Env :=
  Startup.mkEnv (Some "tenant") (Some "client") None None.

End Scenarios.

(* ================================================================== *)
(** * Proofs *)
(* ================================================================== *)

Module Examples.
Import Number Js Effects Server Aggregation Sample.

(** [0.1] is [0x3FB999999999999A]. *)
Example literal_0_1 :
  nearest false 1 10 = S754_finite false 7205759403792794 (-56).
Proof. vm_compute. reflexivity. Qed.

(** [12.345] lies just above 12.345, [1.005] just below 1.005. *)
Example literal_12_345 :
  nearest false 12345 1000 = S754_finite false 6949617174986097 (-49).
Proof. vm_compute. reflexivity. Qed.

Example toFixed_12_345 : toFixed2 (nearest false 12345 1000) = Digits false 1235.
Proof. vm_compute. reflexivity. Qed.

Example text_12_35 : text false 1235 = "12.35".
Proof. vm_compute. reflexivity. Qed.

Example text_0_05 : text true 5 = "-0.05".
Proof. vm_compute. reflexivity. Qed.

Example toFixed_1_005 : toFixed2 (nearest false 1005 1000) = Digits false 100.
Proof. vm_compute. reflexivity. Qed.

(** [(-0.001).toFixed(2)] is ["-0.00"], read back as [-0]. *)
Example toFixed_minus_0_001 :
  parseFloat (toFixed2 (nearest true 1 1000)) = S754_zero true.
Proof. vm_compute. reflexivity. Qed.

(** [(1e21).toFixed(2)] is ["1e+21"]. *)
Example toFixed_1e21 :
  toFixed2 (nearest false (10 ^ 21) 1) = Printed (nearest false (10 ^ 21) 1).
Proof. vm_compute. reflexivity. Qed.

Example split_resource_id :
  split "/"%char "/sub/rg/providers/Foo/bar/myResource" =
  [""; "sub"; "rg"; "providers"; "Foo"; "bar"; "myResource"].
Proof. reflexivity. Qed.

Example costs_of_january :
  run (api_costs january) azure =
  (Return
     (mkResponse 200
        (CostsBody
           [[decimal 5 1; VString "Microsoft Defender for Cloud"; VString "Servers";
             VString "s1"; VString "rg1"; VString "One"];
            [decimal 7 2; VString "Microsoft Defender for Cloud"; VString "SQL";
             VString "s1"; VString "Unknown"; VString "One"]]
           cost_columns listed)),
   mkWorld
     [PostToken; GetSubscriptions token;
      PostCostQuery token (VString "s1") start_date end_date;
      PostCostQuery token (VString "s2") start_date end_date;
      PostCostQuery token (VString "s3") start_date end_date]
     [ConsoleError "Error for subscription " (Some (VString "s2"))
        (Error "Failed to fetch cost data for " (Some (VString "s2")))]).
Proof. vm_compute. reflexivity. Qed.

Example top_resources_of_january :
  fst (run (api_top_resources january) azure) =
  Return
    (mkResponse 200
       (TopResourcesBody
          [mkTopResource (VString "s1") (VString "One") (VString "Unknown")
             VNull (VString "SQL") (nearest false 99 1);
           mkTopResource (VString "s2") (VString "Two") (VString "vm1")
             (VString "/sub/rg/vm1") (VString "Servers") (nearest false 50 1);
           mkTopResource (VString "s1") (VString "One") (VString "myResource")
             (VString "/sub/rg/providers/Foo/bar/myResource") (VString "Servers")
             (nearest false 1235 100)])).
Proof. vm_compute. reflexivity. Qed.

Example plans_of_sample :
  fst (run api_plans azure) =
  Return
    (mkResponse 200
       (PlansBody
          [mkDefenderPlan (VString "s1") (VString "One")
             (VString "VirtualMachines") (VString "Standard")])).
Proof. vm_compute. reflexivity. Qed.

(** One rejected resource query: nothing of the other subscriptions is
    returned. *)
Example top_resources_when_flaky :
  fst (run (api_top_resources january) azure_flaky) =
  Return (mkResponse 500 (ErrorBody "Failed to fetch top resources")).
Proof. vm_compute. reflexivity. Qed.

(** A start date that cannot be printed stops [/api/costs] at its log line,
    before any request; [/api/top-resources] has no such line. *)
Example costs_with_opaque_date :
  run (api_costs Scenarios.opaque_dates) azure =
  (Return (mkResponse 500 (ErrorBody "Failed to fetch cost data")),
   mkWorld [] [ConsoleError "Error in /api/costs:" None TypeError]).
Proof. vm_compute. reflexivity. Qed.

Example top_resources_with_opaque_date :
  status (answer (run (api_top_resources Scenarios.opaque_dates) azure)) = 200.
Proof. vm_compute. reflexivity. Qed.

(** A listed id that cannot be printed: its query is never made, and each
    path ends in its 500. *)
Example costs_with_opaque_id :
  run (api_costs january) Scenarios.opaque_listing =
  (Return (mkResponse 500 (ErrorBody "Failed to fetch cost data")),
   mkWorld
     [PostToken; GetSubscriptions token;
      PostCostQuery token (VString "s1") start_date end_date]
     [ConsoleError "Error in /api/costs:" None TypeError]).
Proof. vm_compute. reflexivity. Qed.

Example plans_with_opaque_id :
  run api_plans Scenarios.opaque_listing =
  (Return (mkResponse 500 (ErrorBody "Failed to fetch Defender plans")),
   mkWorld
     [PostToken; GetSubscriptions token; GetPricings token (VString "s1")]
     [ConsoleError "Error in /api/plans:" None (Earliest [TypeError])]).
Proof. vm_compute. reflexivity. Qed.

(** A token that cannot be printed: the listing is not requested. *)
Example plans_with_opaque_token :
  run api_plans Scenarios.opaque_token =
  (Return (mkResponse 500 (ErrorBody "Failed to fetch Defender plans")),
   mkWorld [PostToken]
     [ConsoleError "Error in /api/plans:" None
        (Error "Failed to fetch subscriptions" None)]).
Proof. vm_compute. reflexivity. Qed.

(** A String row is destructured by code point. *)
Example string_row_by_code_point :
  cost_row (mkSubscription (VString "s1") (VString "One")) (VString "a€b") =
  Some [VString "a"; VString "€"; VString "b"; VString "s1";
        VString "Unknown"; VString "One"].
Proof. vm_compute. reflexivity. Qed.

End Examples.

Module Remarks.
Import Number Js Effects Server Aggregation Sample.

(** When [req.body] is [undefined] (no body was parsed) the destructuring
    of line 133 / 249 throws: the answer is 500, still before any upstream
    request. *)
Lemma unparsed_body_answers_500 req up :
  nullish req = true ->
  run (api_costs req) up =
    (Return (mkResponse 500 (ErrorBody "Failed to fetch cost data")),
     mkWorld [] [ConsoleError "Error in /api/costs:" None TypeError]) /\
  run (api_top_resources req) up =
    (Return (mkResponse 500 (ErrorBody "Failed to fetch top resources")),
     mkWorld [] [ConsoleError "Error in /api/top-resources:" None TypeError]).
Proof. destruct req; try discriminate; intros _; split; reflexivity. Qed.

(** A [null] payload makes [fetchCostData] and [fetchTopResources] throw
    at their log line: for the handlers that query has failed. *)
Lemma null_payload_fails_the_query tok id sd ed up w :
  printable id = true -> printable tok = true ->
  up (calls w) (PostResourceQuery tok id sd ed) = Response VNull ->
  fetchTopResources tok id sd ed up w =
    (Throw (Error "Failed to fetch top resources for " (Some id)),
     issued w [PostResourceQuery tok id sd ed]).
Proof.
  intros Pid Ptok H.
  unfold fetchTopResources, try_catch, bind, axios, to_string.
  rewrite Pid. simpl. rewrite Ptok. simpl. now rewrite H.
Qed.

End Remarks.

Module Loops.
Import Number Js Effects Server Aggregation.
Local Open Scope js_scope.

Lemma world_eta w : mkWorld (calls w) (console w) = w.
Proof. now destruct w. Qed.

Lemma world_log_nil w : mkWorld (calls w) (console w ++ []) = w.
Proof. rewrite app_nil_r. apply world_eta. Qed.

Lemma map_option_Forall2 A B (f : A -> option B) l rs :
  map_option f l = Some rs -> Forall2 (fun x y => f x = Some y) l rs.
Proof.
  revert rs. induction l as [|x l IH]; simpl; intros rs H.
  - inversion H. constructor.
  - destruct (f x) eqn:E; [|discriminate].
    destruct (map_option f l); [|discriminate].
    inversion H; subst. constructor; auto.
Qed.

(** A loop whose body computes a pure, possibly failing, function of the
    element and folds it into the accumulator. *)
Lemma forEach_pure A B S (f : A -> option B) (g : S -> B -> S) l acc up w :
  forEach l (fun x acc => r <- or_TypeError (f x) ;; ret (g acc r)) acc up w =
  match map_option f l with
  | Some rs => (Return (fold_left g rs acc), w)
  | None => (Throw TypeError, w)
  end.
Proof.
  revert acc. induction l as [|x l IH]; intros acc; simpl.
  - reflexivity.
  - unfold bind at 1. unfold bind at 1. destruct (f x) as [y|]; simpl.
    + rewrite IH. now destruct (map_option f l).
    + reflexivity.
Qed.

Lemma fold_left_push A (rs : list A) acc :
  fold_left (fun acc r => acc ++ [r]) rs acc = acc ++ rs.
Proof.
  revert acc. induction rs as [|r rs IH]; intros acc; simpl.
  - now rewrite app_nil_r.
  - rewrite IH, <- app_assoc. reflexivity.
Qed.

Lemma fold_left_append A (rs : list (list A)) acc :
  fold_left (fun acc r => acc ++ r) rs acc = acc ++ concat rs.
Proof.
  revert acc. induction rs as [|r rs IH]; intros acc; simpl.
  - now rewrite app_nil_r.
  - rewrite IH, <- app_assoc. reflexivity.
Qed.

Lemma costs_each_run r acc up w :
  costs_each r acc up w =
  match cost_contribution r with
  | Some rows =>
      (Return (acc ++ rows), mkWorld (calls w) (console w ++ failure_log r))
  | None => (Throw TypeError, w)
  end.
Proof.
  unfold costs_each, cost_contribution, failure_log.
  destruct (error r) as [e|].
  - unfold bind, console_error, ret, to_string, throw.
    destruct (printable _); [now rewrite app_nil_r|reflexivity].
  - rewrite world_log_nil. unfold bind at 1.
    destruct (array_elements _) as [rows|]; simpl; [|reflexivity].
    rewrite forEach_pure.
    destruct (map_option _ rows); [|reflexivity].
    now rewrite fold_left_push.
Qed.

Lemma top_each_run r acc up w :
  top_each r acc up w =
  match top_contribution r with
  | Some rows => (Return (acc ++ rows), w)
  | None => (Throw TypeError, w)
  end.
Proof.
  unfold top_each, top_contribution.
  destruct (truthy _).
  - unfold bind at 1.
    destruct (array_elements _) as [rows|]; simpl; [|reflexivity].
    rewrite forEach_pure.
    destruct (map_option _ rows); [|reflexivity].
    now rewrite fold_left_push.
  - unfold ret. now rewrite app_nil_r.
Qed.

Lemma plans_each_run r acc up w :
  plans_each r acc up w =
  match plan_contribution r with
  | Some rows => (Return (acc ++ rows), w)
  | None => (Throw TypeError, w)
  end.
Proof.
  unfold plans_each, plan_contribution.
  destruct (truthy _).
  - unfold bind at 1.
    destruct (array_elements _) as [rows|]; simpl; [|reflexivity].
    rewrite forEach_pure.
    destruct (map_option _ rows); simpl; [|reflexivity].
    now rewrite fold_left_append.
  - unfold ret. now rewrite app_nil_r.
Qed.

(** A merge loop whose body adds a pure contribution and leaves the world
    alone. *)
Lemma forEach_merge A B (each : A -> list B -> M (list B))
    (contribution : A -> option (list B)) :
  (forall r acc up w,
      each r acc up w =
      match contribution r with
      | Some rows => (Return (acc ++ rows), w)
      | None => (Throw TypeError, w)
      end) ->
  forall results acc up w,
    forEach results each acc up w =
    match map_option contribution results with
    | Some groups => (Return (acc ++ concat groups), w)
    | None => (Throw TypeError, w)
    end.
Proof.
  intros Heach results.
  induction results as [|r results IH]; intros acc up w; simpl.
  - unfold ret. now rewrite app_nil_r.
  - unfold bind. rewrite Heach.
    destruct (contribution r) as [rows|]; [|reflexivity].
    rewrite IH. destruct (map_option contribution results); [|reflexivity].
    simpl. now rewrite app_assoc.
Qed.

Lemma forEach_costs results : forall acc up w,
  forEach results costs_each acc up w =
  match map_option cost_contribution results with
  | Some groups =>
      (Return (acc ++ concat groups),
       mkWorld (calls w) (console w ++ flat_map failure_log results))
  | None =>
      (Throw TypeError, snd (forEach results costs_each acc up w))
  end.
Proof.
  induction results as [|r results IH]; intros acc up w; simpl.
  - unfold ret. now rewrite app_nil_r, world_log_nil.
  - unfold bind. rewrite costs_each_run.
    destruct (cost_contribution r) as [rows|]; [|reflexivity].
    rewrite IH. destruct (map_option cost_contribution results); simpl.
    + now rewrite <- !app_assoc.
    + reflexivity.
Qed.

End Loops.

Module FanOut.
Import Number Js Effects Server Aggregation Loops.
Local Open Scope js_scope.

Lemma issued_nil w : issued w [] = w.
Proof. unfold issued. rewrite app_nil_r. apply world_eta. Qed.

Lemma issued_cons w c batch : issued (issued w [c]) batch = issued w (c :: batch).
Proof. unfold issued. simpl. now rewrite <- app_assoc. Qed.

Lemma to_string_run v up w :
  to_string v up w = (if printable v then Return tt else Throw TypeError, w).
Proof. unfold to_string. now destruct (printable v). Qed.

Ltac interpolate :=
  repeat match goal with
         | H : printable ?v = _ |- context [printable ?v] => rewrite H; simpl
         end.

Lemma fetchCostData_run tok id sd ed up w :
  printable id = true -> printable tok = true ->
  fetchCostData tok id sd ed up w =
  (match query_data (up (calls w) (PostCostQuery tok id sd ed)) with
   | Some d => Return d
   | None => Throw (Error "Failed to fetch cost data for " (Some id))
   end, issued w [PostCostQuery tok id sd ed]).
Proof.
  intros Pid Ptok.
  unfold fetchCostData, try_catch, bind, axios, query_data, issued, to_string.
  interpolate.
  destruct (up _ _) as [d|]; simpl; interpolate; [|reflexivity].
  destruct d; simpl; interpolate; reflexivity.
Qed.

Lemma fetchTopResources_run tok id sd ed up w :
  printable id = true -> printable tok = true ->
  fetchTopResources tok id sd ed up w =
  (match query_data (up (calls w) (PostResourceQuery tok id sd ed)) with
   | Some d => Return d
   | None => Throw (Error "Failed to fetch top resources for " (Some id))
   end, issued w [PostResourceQuery tok id sd ed]).
Proof.
  intros Pid Ptok.
  unfold fetchTopResources, try_catch, bind, axios, query_data, issued, to_string.
  interpolate.
  destruct (up _ _) as [d|]; simpl; interpolate; [|reflexivity].
  destruct d; simpl; interpolate; reflexivity.
Qed.

Lemma fetchDefenderPlans_run tok id up w :
  printable id = true -> printable tok = true ->
  fetchDefenderPlans tok id up w =
  (Return (plans_data (up (calls w) (GetPricings tok id))),
   issued w [GetPricings tok id]).
Proof.
  intros Pid Ptok.
  unfold fetchDefenderPlans, try_catch, bind, axios, plans_data, issued, to_string.
  interpolate.
  destruct (up _ _) as [d|]; simpl; interpolate; [|reflexivity].
  destruct d; simpl; interpolate; try reflexivity.
  destruct (lookup "value" fields); simpl; interpolate; reflexivity.
Qed.

(** With an id that cannot be interpolated no request is made: the helpers
    throw in their [try] and again in their [catch]. *)
Lemma fetchCostData_unsent tok id sd ed up w :
  printable id = false ->
  fetchCostData tok id sd ed up w = (Throw TypeError, w).
Proof.
  intros Pid. unfold fetchCostData, try_catch, bind, to_string.
  now rewrite Pid.
Qed.

Lemma fetchTopResources_unsent tok id sd ed up w :
  printable id = false ->
  fetchTopResources tok id sd ed up w = (Throw TypeError, w).
Proof.
  intros Pid. unfold fetchTopResources, try_catch, bind, to_string.
  now rewrite Pid.
Qed.

Lemma fetchDefenderPlans_unsent tok id up w :
  printable id = false ->
  fetchDefenderPlans tok id up w = (Throw TypeError, w).
Proof.
  intros Pid. unfold fetchDefenderPlans, try_catch, bind, to_string.
  now rewrite Pid.
Qed.

Lemma costPromise_run tok sd ed sub up w :
  printable (subscriptionId sub) = true -> printable tok = true ->
  costPromise tok sd ed sub up w =
  (Return (settle_cost (sub, up (calls w) (cost_call tok sd ed sub))),
   issued w [cost_call tok sd ed sub]).
Proof.
  intros Pid Ptok.
  unfold costPromise, try_catch, bind. rewrite fetchCostData_run by assumption.
  unfold settle_cost, cost_call, cost_failure. simpl.
  now destruct (query_data _).
Qed.

Lemma costPromise_unsent tok sd ed sub up w :
  printable (subscriptionId sub) = false ->
  costPromise tok sd ed sub up w =
  (Return (mkSettled sub VUndefined (Some TypeError)), w).
Proof.
  intros Pid. unfold costPromise, try_catch, bind.
  now rewrite fetchCostData_unsent.
Qed.

Lemma resourcePromise_run tok sd ed sub up w :
  printable (subscriptionId sub) = true -> printable tok = true ->
  resourcePromise tok sd ed sub up w =
  (match settle_resource (sub, up (calls w) (resource_call tok sd ed sub)) with
   | Some r => Return r
   | None => Throw (Error "Failed to fetch top resources for "
                      (Some (subscriptionId sub)))
   end, issued w [resource_call tok sd ed sub]).
Proof.
  intros Pid Ptok.
  unfold resourcePromise, bind. rewrite fetchTopResources_run by assumption.
  unfold settle_resource, resource_call. simpl.
  now destruct (query_data _).
Qed.

Lemma resourcePromise_unsent tok sd ed sub up w :
  printable (subscriptionId sub) = false ->
  resourcePromise tok sd ed sub up w = (Throw TypeError, w).
Proof.
  intros Pid. unfold resourcePromise, bind.
  now rewrite fetchTopResources_unsent.
Qed.

Lemma planPromise_run tok sub up w :
  printable (subscriptionId sub) = true -> printable tok = true ->
  planPromise tok sub up w =
  (Return (settle_plan (sub, up (calls w) (plan_call tok sub))),
   issued w [plan_call tok sub]).
Proof.
  intros Pid Ptok.
  unfold planPromise, bind. now rewrite fetchDefenderPlans_run.
Qed.

Lemma planPromise_unsent tok sub up w :
  printable (subscriptionId sub) = false ->
  planPromise tok sub up w = (Throw TypeError, w).
Proof.
  intros Pid. unfold planPromise, bind.
  now rewrite fetchDefenderPlans_unsent.
Qed.

Lemma printable_ids_cons sub subs :
  printable_ids (sub :: subs) = true ->
  printable (subscriptionId sub) = true /\ printable_ids subs = true.
Proof. intros H. now apply andb_true_iff in H. Qed.

Lemma printable_ids_In subs sub :
  printable_ids subs = true -> In sub subs ->
  printable (subscriptionId sub) = true.
Proof.
  unfold printable_ids. rewrite forallb_forall. intros H Hin. now apply H.
Qed.

Lemma unprintable_id subs :
  printable_ids subs = false ->
  exists sub, In sub subs /\ printable (subscriptionId sub) = false.
Proof.
  induction subs as [|sub subs IH]; simpl; [discriminate|].
  intros H. apply andb_false_iff in H. destruct H as [H|H].
  - exists sub. auto.
  - destruct (IH H) as (s & Hin & Hs). exists s. auto.
Qed.

(** Promises that each issue one request and may reject. *)
Lemma settle_all_fan_out (promise : Subscription -> M Settled)
    (query : Subscription -> call)
    (settle : Subscription * http_result -> outcome Settled) subs :
  (forall sub, In sub subs -> forall up w,
      promise sub up w =
      (settle (sub, up (calls w) (query sub)), issued w [query sub])) ->
  forall up w,
    settle_all (map promise subs) up w =
    (map settle (fan_out up (calls w) query subs), issued w (map query subs)).
Proof.
  induction subs as [|sub subs IH]; intros Hp up w; simpl.
  - now rewrite issued_nil.
  - rewrite (Hp sub (or_introl eq_refl)), IH by (intros; apply Hp; now right).
    simpl. now rewrite issued_cons.
Qed.

(** Joining promises that each issue one request and always resolve. *)
Lemma promise_all_settled (promise : Subscription -> M Settled)
    (query : Subscription -> call)
    (settle : Subscription * http_result -> Settled) subs :
  (forall sub, In sub subs -> forall up w,
      promise sub up w =
      (Return (settle (sub, up (calls w) (query sub))), issued w [query sub])) ->
  forall up w,
    promise_all (map promise subs) up w =
    (Return (map settle (fan_out up (calls w) query subs)),
     issued w (map query subs)).
Proof.
  intros Hp up w. unfold promise_all.
  rewrite (settle_all_fan_out promise query (fun sr => Return (settle sr)) subs Hp).
  induction (fan_out up (calls w) query subs) as [|sr answers IH]; simpl.
  - reflexivity.
  - destruct (rejections _); [|discriminate].
    inversion IH. reflexivity.
Qed.

(** Joining promises that each issue one request and may reject. *)
Lemma promise_all_rejecting (promise : Subscription -> M Settled)
    (query : Subscription -> call)
    (settle : Subscription * http_result -> option Settled)
    (failure : Subscription -> exn) subs :
  (forall sub, In sub subs -> forall up w,
      promise sub up w =
      (match settle (sub, up (calls w) (query sub)) with
       | Some r => Return r
       | None => Throw (failure sub)
       end, issued w [query sub])) ->
  forall up w,
    snd (promise_all (map promise subs) up w) = issued w (map query subs) /\
    match map_option settle (fan_out up (calls w) query subs) with
    | Some rs => fst (promise_all (map promise subs) up w) = Return rs
    | None => exists e, fst (promise_all (map promise subs) up w) = Throw e
    end.
Proof.
  intros Hp up w. unfold promise_all.
  rewrite (settle_all_fan_out promise query
             (fun sr => match settle sr with
                        | Some r => Return r
                        | None => Throw (failure (fst sr))
                        end) subs Hp).
  split; [now destruct (rejections _)|].
  induction (fan_out up (calls w) query subs) as [|sr answers IH]; simpl.
  - reflexivity.
  - destruct (settle sr) as [r|]; simpl.
    + destruct (map_option settle answers) as [rs|].
      * destruct (rejections _); [|discriminate].
        simpl in *. inversion IH. reflexivity.
      * destruct IH as [e He]. destruct (rejections _); [discriminate|].
        eexists. reflexivity.
    + eexists. reflexivity.
Qed.

(** What the promises settle to, whatever the worlds they ran in. *)
Lemma settle_all_world A (promises : list (M A)) up : forall w,
  exists settled w',
    settle_all promises up w = (settled, w') /\
    Forall2 (fun p r => exists w1 w2, p up w1 = (r, w2)) promises settled.
Proof.
  induction promises as [|p promises IH]; intros w; simpl.
  - exists [], w. split; [reflexivity|constructor].
  - destruct (p up w) as [r w1] eqn:Hp.
    destruct (IH w1) as (settled & w2 & -> & HF).
    exists (r :: settled), w2. split; [reflexivity|].
    constructor; [now exists w, w1|exact HF].
Qed.

(** A promise that rejects whatever the world makes the join reject. *)
Lemma promise_all_throws A (promises : list (M A)) p up w :
  In p promises ->
  (forall w1, exists e w2, p up w1 = (Throw e, w2)) ->
  exists e w', promise_all promises up w = (Throw e, w').
Proof.
  intros Hin Hp. unfold promise_all.
  destruct (settle_all_world promises up w) as (settled & w' & -> & HF).
  assert (H : rejections settled <> []).
  { clear - Hin Hp HF. induction HF as [|q r promises settled Hq HF IH].
    - contradiction.
    - destruct Hin as [->|Hin].
      + destruct Hq as (w1 & w2 & Hq). destruct (Hp w1) as (e & w3 & He).
        rewrite He in Hq. inversion Hq; subst. discriminate.
      + simpl. intros E. apply app_eq_nil in E. now apply IH. }
  destruct (rejections settled); [contradiction|].
  eexists. eexists. reflexivity.
Qed.

Lemma costPromise_settles tok sd ed sub up w :
  exists r w1,
    costPromise tok sd ed sub up w = (Return r, w1) /\
    (printable (subscriptionId sub) = false ->
     r = mkSettled sub VUndefined (Some TypeError)).
Proof.
  destruct (printable (subscriptionId sub)) eqn:P.
  - unfold costPromise, try_catch, bind.
    destruct (fetchCostData _ _ _ _ up w) as [[d|e] w1];
      eexists; eexists; (split; [reflexivity|discriminate]).
  - rewrite costPromise_unsent by assumption.
    eexists. eexists. split; [reflexivity|auto].
Qed.

Lemma settle_all_costs tok sd ed subs up : forall w,
  exists results w',
    settle_all (map (costPromise tok sd ed) subs) up w =
      (map (@Return Settled) results, w') /\
    forall sub, In sub subs -> printable (subscriptionId sub) = false ->
      In (mkSettled sub VUndefined (Some TypeError)) results.
Proof.
  induction subs as [|sub subs IH]; intros w; simpl.
  - exists [], w. split; [reflexivity|contradiction].
  - destruct (costPromise_settles tok sd ed sub up w) as (r & w1 & -> & Hr).
    destruct (IH w1) as (results & w' & -> & Hin).
    exists (r :: results), w'. split; [reflexivity|].
    intros s [<-|Hs] P; [left; auto|right; auto].
Qed.

Lemma rejections_none A (results : list A) :
  rejections (map (@Return A) results) = [] /\
  fulfilled (map (@Return A) results) = results.
Proof.
  induction results as [|r results [IH1 IH2]]; simpl; [auto|].
  now rewrite IH1, IH2.
Qed.

(** [costPromise] never rejects; with an id that cannot be interpolated it
    settles on the TypeError. *)
Lemma promise_all_costs tok sd ed subs up w :
  exists results w',
    promise_all (map (costPromise tok sd ed) subs) up w = (Return results, w') /\
    forall sub, In sub subs -> printable (subscriptionId sub) = false ->
      In (mkSettled sub VUndefined (Some TypeError)) results.
Proof.
  unfold promise_all.
  destruct (settle_all_costs tok sd ed subs up w) as (results & w' & -> & Hin).
  destruct (rejections_none results) as [-> ->].
  now exists results, w'.
Qed.

(** A loop stops at the first element whose body throws. *)
Lemma forEach_throws A S (body : A -> S -> M S) l x up :
  In x l ->
  (forall acc w, exists e w', body x acc up w = (Throw e, w')) ->
  forall acc w, exists e w', forEach l body acc up w = (Throw e, w').
Proof.
  intros Hin Hx. induction l as [|y l IH]; intros acc w; [contradiction|].
  simpl. unfold bind.
  destruct Hin as [->|Hin].
  - destruct (Hx acc w) as (e & w' & ->). eauto.
  - destruct (body y acc up w) as [[acc'|e] w1]; [now apply IH|eauto].
Qed.

(** Joined promises only add requests. *)
Lemma settle_all_issued A (promises : list (M A)) up :
  (forall p, In p promises -> forall w, exists batch, snd (p up w) = issued w batch) ->
  forall w, exists batch, snd (settle_all promises up w) = issued w batch.
Proof.
  induction promises as [|p promises IH]; intros Hp w; simpl.
  - exists []. now rewrite issued_nil.
  - destruct (Hp p (or_introl eq_refl) w) as (b1 & H1).
    destruct (p up w) as [r w1]. simpl in H1. subst w1.
    destruct (IH (fun q Hq => Hp q (or_intror Hq)) (issued w b1)) as (b2 & H2).
    destruct (settle_all promises up (issued w b1)) as [rs w2].
    simpl in *. subst w2. exists (b1 ++ b2).
    unfold issued. simpl. now rewrite app_assoc.
Qed.

Lemma promise_all_issued A (promises : list (M A)) up :
  (forall p, In p promises -> forall w, exists batch, snd (p up w) = issued w batch) ->
  forall w, exists batch, snd (promise_all promises up w) = issued w batch.
Proof.
  intros Hp w. destruct (settle_all_issued promises up Hp w) as (batch & H).
  exists batch. unfold promise_all.
  destruct (settle_all promises up w) as [settled w']. simpl in H. subst w'.
  now destruct (rejections settled).
Qed.

Lemma planPromise_issued tok sub up w :
  printable tok = true ->
  exists batch, snd (planPromise tok sub up w) = issued w batch.
Proof.
  intros P. destruct (printable (subscriptionId sub)) eqn:Pid.
  - rewrite planPromise_run by assumption. simpl. eauto.
  - rewrite planPromise_unsent by assumption. exists []. now rewrite issued_nil.
Qed.


End FanOut.

Module Handlers.
Import Number Js Effects Server Aggregation Loops FanOut.
Local Open Scope js_scope.

(** A branch that answers with another status than 200. *)
Ltac not_200 := intros H; inversion H; subst; discriminate.

(** [getSubscriptions] resolves only with a token it could interpolate. *)
Lemma getSubscriptions_printable tok up w subs w' :
  getSubscriptions tok up w = (Return subs, w') -> printable tok = true.
Proof.
  unfold getSubscriptions, try_catch, bind, to_string.
  destruct (printable tok); [reflexivity|discriminate].
Qed.

(** With a listed id that cannot be interpolated the merge loop of
    [/api/costs] throws. *)
Lemma costs_unsent_throws tok sd ed subs up w :
  printable_ids subs = false ->
  exists e w',
    (results <- promise_all (map (costPromise tok sd ed) subs) ;;
     forEach results costs_each []) up w = (Throw e, w').
Proof.
  intros P. destruct (unprintable_id subs P) as (sub & Hin & Psub).
  destruct (promise_all_costs tok sd ed subs up w) as (results & w1 & Hrun & Hres).
  unfold bind. rewrite Hrun.
  apply forEach_throws with (mkSettled sub VUndefined (Some TypeError)).
  - now apply Hres.
  - intros acc w2. rewrite costs_each_run. unfold cost_contribution. simpl.
    rewrite Psub. eauto.
Qed.

Lemma api_costs_ok req up sd ed tok subs w1 w2 groups :
  member req "startDate" = Some sd ->
  member req "endDate" = Some ed ->
  truthy sd = true -> truthy ed = true ->
  printable sd = true -> printable ed = true ->
  getAccessToken up world0 = (Return tok, w1) ->
  getSubscriptions tok up w1 = (Return subs, w2) ->
  printable_ids subs = true ->
  map_option cost_contribution (cost_results up (calls w2) tok sd ed subs) = Some groups ->
  run (api_costs req) up =
  (Return (mkResponse 200 (CostsBody (concat groups) cost_columns subs)),
   logged (issued w2 (map (cost_call tok sd ed) subs))
     (flat_map failure_log (cost_results up (calls w2) tok sd ed subs))).
Proof.
  intros Hsd Hed Tsd Ted Psd Ped Htok Hsubs Pids Hgroups.
  pose proof (@getSubscriptions_printable _ _ _ _ _ Hsubs) as Ptok.
  unfold run, api_costs, try_catch, bind.
  rewrite Hsd, Hed. simpl. rewrite Tsd, Ted. simpl.
  rewrite !to_string_run, Psd, Ped.
  rewrite Htok, Hsubs.
  rewrite (promise_all_settled _ (cost_call tok sd ed) settle_cost subs)
    by (intros; apply costPromise_run; [eapply printable_ids_In; eauto|assumption]).
  rewrite forEach_costs. fold (cost_results up (calls w2) tok sd ed subs).
  rewrite Hgroups. reflexivity.
Qed.



Lemma promise_all_resources tok sd ed subs up w :
  printable tok = true -> printable_ids subs = true ->
  promise_all (map (resourcePromise tok sd ed) subs) up w =
  (fst (promise_all (map (resourcePromise tok sd ed) subs) up w),
   issued w (map (resource_call tok sd ed) subs)) /\
  match resource_results up (calls w) tok sd ed subs with
  | Some rs =>
      fst (promise_all (map (resourcePromise tok sd ed) subs) up w) = Return rs
  | None =>
      exists e,
        fst (promise_all (map (resourcePromise tok sd ed) subs) up w) = Throw e
  end.
Proof.
  intros Ptok Pids.
  destruct (promise_all_rejecting (resourcePromise tok sd ed)
              (resource_call tok sd ed) settle_resource
              (fun sub => Error "Failed to fetch top resources for "
                            (Some (subscriptionId sub))) subs) with up w
    as [Hw Hr].
  { intros; apply resourcePromise_run;
      [eapply printable_ids_In; eauto|assumption]. }
  split; [|exact Hr].
  rewrite <- Hw. now destruct (promise_all _ up w).
Qed.

(** With a listed id that cannot be interpolated the join of
    [/api/top-resources] and of [/api/plans] rejects. *)
Lemma resources_unsent_throws tok sd ed subs up w :
  printable_ids subs = false ->
  exists e w',
    promise_all (map (resourcePromise tok sd ed) subs) up w = (Throw e, w').
Proof.
  intros P. destruct (unprintable_id subs P) as (sub & Hin & Psub).
  apply promise_all_throws with (resourcePromise tok sd ed sub).
  - now apply in_map.
  - intros w1. rewrite resourcePromise_unsent by assumption. eauto.
Qed.

Lemma plans_unsent_throws tok subs up w :
  printable_ids subs = false ->
  exists e w',
    promise_all (map (planPromise tok) subs) up w = (Throw e, w').
Proof.
  intros P. destruct (unprintable_id subs P) as (sub & Hin & Psub).
  apply promise_all_throws with (planPromise tok sub).
  - now apply in_map.
  - intros w1. rewrite planPromise_unsent by assumption. eauto.
Qed.

Lemma api_top_resources_ok req up sd ed tok subs w1 w2 results groups :
  member req "startDate" = Some sd ->
  member req "endDate" = Some ed ->
  truthy sd = true -> truthy ed = true ->
  getAccessToken up world0 = (Return tok, w1) ->
  getSubscriptions tok up w1 = (Return subs, w2) ->
  printable_ids subs = true ->
  resource_results up (calls w2) tok sd ed subs = Some results ->
  map_option top_contribution results = Some groups ->
  run (api_top_resources req) up =
  (Return (mkResponse 200
             (TopResourcesBody
                (slice_0_10 (sort by_cost_descending (concat groups))))),
   issued w2 (map (resource_call tok sd ed) subs)).
Proof.
  intros Hsd Hed Tsd Ted Htok Hsubs Pids Hres Hgroups.
  pose proof (@getSubscriptions_printable _ _ _ _ _ Hsubs) as Ptok.
  unfold run, api_top_resources, try_catch, bind.
  rewrite Hsd, Hed. simpl. rewrite Tsd, Ted. simpl.
  rewrite Htok, Hsubs.
  destruct (@promise_all_resources tok sd ed subs up w2 Ptok Pids) as [Hw Hr].
  rewrite Hres in Hr. rewrite Hw, Hr.
  rewrite (forEach_merge top_each top_contribution top_each_run).
  rewrite Hgroups. reflexivity.
Qed.

(** What a 200 of [/api/top-resources] tells. *)
Lemma api_top_resources_inv_full req up resp w :
  run (api_top_resources req) up = (Return resp, w) ->
  status resp = 200 ->
  exists sd ed tok subs w1 w2 results groups,
    (member req "startDate" = Some sd /\
     member req "endDate" = Some ed /\
     truthy sd = true /\ truthy ed = true /\
     getAccessToken up world0 = (Return tok, w1) /\
     getSubscriptions tok up w1 = (Return subs, w2) /\
     resource_results up (calls w2) tok sd ed subs = Some results /\
     map_option top_contribution results = Some groups /\
     resp = mkResponse 200
              (TopResourcesBody
                 (slice_0_10 (sort by_cost_descending (concat groups))))) /\
    printable tok = true /\ printable_ids subs = true /\
    w = issued w2 (map (resource_call tok sd ed) subs).
Proof.
  unfold run, api_top_resources, try_catch, bind.
  destruct (member req "startDate") as [sd|] eqn:Hsd; simpl; [|not_200].
  destruct (member req "endDate") as [ed|] eqn:Hed; simpl; [|not_200].
  destruct (truthy sd) eqn:Tsd; simpl; [|not_200].
  destruct (truthy ed) eqn:Ted; simpl; [|not_200].
  destruct (getAccessToken up world0) as [[tok|e] w1] eqn:Htok; [|not_200].
  destruct (getSubscriptions tok up w1) as [[subs|e] w2] eqn:Hsubs; [|not_200].
  pose proof (@getSubscriptions_printable _ _ _ _ _ Hsubs) as Ptok.
  destruct (printable_ids subs) eqn:Pids.
  - destruct (@promise_all_resources tok sd ed subs up w2 Ptok Pids) as [Hw Hr].
    rewrite Hw.
    destruct (resource_results up (calls w2) tok sd ed subs) as [results|] eqn:Hres.
    + rewrite Hr.
      rewrite (forEach_merge top_each top_contribution top_each_run).
      destruct (map_option top_contribution results) as [groups|] eqn:Hgroups;
        [|not_200].
      intros H _. inversion H; subst.
      exists sd, ed, tok, subs, w1, w2, results, groups.
      repeat split; auto.
    + destruct Hr as [e ->]. not_200.
  - destruct (resources_unsent_throws tok sd ed subs up w2 Pids) as (e & w' & ->).
    not_200.
Qed.

Lemma api_top_resources_inv req up resp w :
  run (api_top_resources req) up = (Return resp, w) ->
  status resp = 200 ->
  exists sd ed tok subs w1 w2 results groups,
    member req "startDate" = Some sd /\
    member req "endDate" = Some ed /\
    truthy sd = true /\ truthy ed = true /\
    getAccessToken up world0 = (Return tok, w1) /\
    getSubscriptions tok up w1 = (Return subs, w2) /\
    resource_results up (calls w2) tok sd ed subs = Some results /\
    map_option top_contribution results = Some groups /\
    resp = mkResponse 200
             (TopResourcesBody
                (slice_0_10 (sort by_cost_descending (concat groups)))).
Proof.
  intros Hrun H200.
  destruct (@api_top_resources_inv_full _ _ _ _ Hrun H200)
    as (sd & ed & tok & subs & w1 & w2 & results & groups & H & _).
  now exists sd, ed, tok, subs, w1, w2, results, groups.
Qed.

(** A rejected query fails the whole request, whether every id can be
    interpolated or not. *)
Lemma api_top_resources_rejected req up sd ed tok subs w1 w2 :
  member req "startDate" = Some sd ->
  member req "endDate" = Some ed ->
  truthy sd = true -> truthy ed = true ->
  getAccessToken up world0 = (Return tok, w1) ->
  getSubscriptions tok up w1 = (Return subs, w2) ->
  resource_results up (calls w2) tok sd ed subs = None \/
  printable_ids subs = false ->
  exists e w,
    run (api_top_resources req) up =
    (Return (mkResponse 500 (ErrorBody "Failed to fetch top resources")),
     logged w [ConsoleError "Error in /api/top-resources:" None e]) /\
    (printable_ids subs = true ->
     w = issued w2 (map (resource_call tok sd ed) subs)).
Proof.
  intros Hsd Hed Tsd Ted Htok Hsubs Hres.
  pose proof (@getSubscriptions_printable _ _ _ _ _ Hsubs) as Ptok.
  unfold run, api_top_resources, try_catch, bind.
  rewrite Hsd, Hed. simpl. rewrite Tsd, Ted. simpl.
  rewrite Htok, Hsubs.
  destruct (printable_ids subs) eqn:Pids.
  - destruct Hres as [Hres|]; [|discriminate].
    destruct (@promise_all_resources tok sd ed subs up w2 Ptok Pids) as [Hw Hr].
    rewrite Hres in Hr. destruct Hr as [e He]. rewrite Hw, He.
    exists e, (issued w2 (map (resource_call tok sd ed) subs)).
    split; [reflexivity|auto].
  - destruct (resources_unsent_throws tok sd ed subs up w2 Pids) as (e & w' & ->).
    exists e, w'. split; [reflexivity|discriminate].
Qed.

Lemma api_plans_ok up tok subs w1 w2 groups :
  getAccessToken up world0 = (Return tok, w1) ->
  getSubscriptions tok up w1 = (Return subs, w2) ->
  printable_ids subs = true ->
  map_option plan_contribution (plan_results up (calls w2) tok subs) = Some groups ->
  run api_plans up =
  (Return (mkResponse 200 (PlansBody (concat groups))),
   issued w2 (map (plan_call tok) subs)).
Proof.
  intros Htok Hsubs Pids Hgroups.
  pose proof (@getSubscriptions_printable _ _ _ _ _ Hsubs) as Ptok.
  unfold run, api_plans, try_catch, bind.
  rewrite Htok, Hsubs.
  rewrite (promise_all_settled _ (plan_call tok) settle_plan subs)
    by (intros; apply planPromise_run; [eapply printable_ids_In; eauto|assumption]).
  rewrite (forEach_merge plans_each plan_contribution plans_each_run).
  fold (plan_results up (calls w2) tok subs). rewrite Hgroups. reflexivity.
Qed.



End Handlers.

Module Rounding.
Import Number.
Local Open Scope Z_scope.

Lemma digits2_size m : digits2_pos m = Pos.size m.
Proof. induction m; simpl; congruence. Qed.

Lemma digits2_upper m : Zpos m < 2 ^ Zpos (digits2_pos m).
Proof.
  rewrite digits2_size. generalize (Pos.size_gt m). intros H.
  apply Pos2Z.pos_lt_pos in H. now rewrite Pos2Z.inj_pow in H.
Qed.

Lemma digits2_lower m : 2 ^ Zpos (digits2_pos m) <= 2 * Zpos m.
Proof.
  rewrite digits2_size. generalize (Pos.size_le m). intros H.
  apply Pos2Z.pos_le_pos in H. now rewrite Pos2Z.inj_pow in H.
Qed.

Lemma shr_1_nonneg r : 0 <= shr_m r -> shr_m (shr_1 r) = shr_m r / 2.
Proof.
  destruct r as [m b s]. simpl. intros Hm.
  destruct m as [|p|p]; [reflexivity| |lia].
  destruct p as [p|p|]; simpl.
  - rewrite (Pos2Z.inj_xI p). apply Z.div_unique with 1; lia.
  - rewrite (Pos2Z.inj_xO p). apply Z.div_unique with 0; lia.
  - reflexivity.
Qed.

Lemma pow2_xO p : 2 ^ Zpos p~0 = 2 ^ Zpos p * 2 ^ Zpos p.
Proof.
  rewrite (Pos2Z.inj_xO p). replace (2 * Zpos p) with (Zpos p + Zpos p) by lia.
  apply Z.pow_add_r; lia.
Qed.

Lemma pow2_xI p : 2 ^ Zpos p~1 = 2 * (2 ^ Zpos p * 2 ^ Zpos p).
Proof.
  rewrite (Pos2Z.inj_xI p). replace (2 * Zpos p + 1) with (1 + (Zpos p + Zpos p)) by lia.
  rewrite Z.pow_add_r, Z.pow_add_r by lia. reflexivity.
Qed.

Lemma pow2_pos n : 0 <= n -> 0 < 2 ^ n.
Proof. intros. apply Z.pow_pos_nonneg; lia. Qed.

Lemma iter_shr_1 p : forall r,
  0 <= shr_m r -> shr_m (iter_pos shr_1 p r) = shr_m r / 2 ^ Zpos p.
Proof.
  assert (Hhalf : forall r, 0 <= shr_m r -> 0 <= shr_m (shr_1 r)).
  { intros r Hr. rewrite shr_1_nonneg by assumption.
    apply Z.div_pos; lia. }
  assert (Hpow : forall q, 0 < 2 ^ Zpos q) by (intros; apply pow2_pos; lia).
  induction p as [p IH|p IH|]; intros r Hr; cbn [iter_pos];
    try pose proof (Hpow p) as Hp.
  - assert (H1 : 0 <= shr_m (iter_pos shr_1 p (shr_1 r))).
    { rewrite IH by auto. apply Z.div_pos; auto. }
    rewrite IH, IH, shr_1_nonneg by auto.
    rewrite !Z.div_div by nia.
    now rewrite pow2_xI.
  - assert (H1 : 0 <= shr_m (iter_pos shr_1 p r)).
    { rewrite IH by auto. apply Z.div_pos; auto. }
    rewrite IH, IH by auto.
    rewrite Z.div_div by lia.
    now rewrite pow2_xO.
  - now rewrite shr_1_nonneg, Z.pow_1_r.
Qed.

Lemma fexp_emin e : emin <= fexp prec emax e.
Proof. unfold fexp, SpecFloat.emin, emin, prec, emax. lia. Qed.

Lemma shr_record_of_loc_m m l : shr_m (shr_record_of_loc m l) = m.
Proof. now destruct l as [|[]]. Qed.

(** One alignment step of the rounding: the mantissa stays non-negative,
    the exponent ends at [emin] or above, and a positive mantissa at an
    exponent of at least [emin] is not shifted out. *)
Lemma shr_fexp_spec m e l :
  0 <= m ->
  0 <= shr_m (fst (shr_fexp prec emax m e l)) /\
  emin <= snd (shr_fexp prec emax m e l) /\
  (0 < m -> emin <= e -> 0 < shr_m (fst (shr_fexp prec emax m e l))).
Proof.
  intros Hm. unfold shr_fexp, shr.
  pose proof (fexp_emin (Zdigits2 m + e)) as Hf.
  destruct (fexp prec emax (Zdigits2 m + e) - e) as [|p|p] eqn:Hn; simpl.
  - rewrite shr_record_of_loc_m. clear l. repeat split; auto; lia.
  - rewrite iter_shr_1 by (rewrite shr_record_of_loc_m; exact Hm).
    rewrite shr_record_of_loc_m. clear l.
    assert (Hp : 0 < 2 ^ Zpos p) by (apply pow2_pos; lia).
    split; [apply Z.div_pos; auto|]. split; [lia|].
    intros Hpos He.
    destruct m as [|q|q]; try lia.
    change (Zdigits2 (Zpos q)) with (Zpos (digits2_pos q)) in Hn, Hf.
    apply Z.div_str_pos. split; [exact Hp|].
    pose proof (digits2_lower q) as Hd.
    assert (Hle : Zpos p <= Zpos (digits2_pos q) - 1).
    { unfold fexp, SpecFloat.emin, emin, prec, emax in *. lia. }
    assert (H2 : 2 ^ Zpos p <= 2 ^ (Zpos (digits2_pos q) - 1))
      by (apply Z.pow_le_mono_r; lia).
    assert (H3 : 2 ^ Zpos (digits2_pos q) = 2 * 2 ^ (Zpos (digits2_pos q) - 1)).
    { rewrite <- Z.pow_succ_r by lia. f_equal. lia. }
    lia.
  - rewrite shr_record_of_loc_m. clear l. repeat split; auto; lia.
Qed.

Lemma round_nearest_even_ge m l : m <= round_nearest_even m l.
Proof.
  destruct l as [|[]]; simpl; try lia.
  destruct (Z.even m); lia.
Qed.

(** Rounding a non-negative mantissa never yields NaN nor an exponent below
    [emin]. *)
Lemma binary_round_aux_representable sx mx ex lx :
  0 <= mx ->
  is_nan (binary_round_aux prec emax sx mx ex lx) = false /\
  representable (binary_round_aux prec emax sx mx ex lx) = true.
Proof.
  intros Hm. unfold binary_round_aux.
  destruct (shr_fexp_spec ex lx Hm) as (H1 & _ & _).
  destruct (shr_fexp prec emax mx ex lx) as [mrs' e'].
  simpl in H1.
  pose proof (round_nearest_even_ge (shr_m mrs') (loc_of_shr_record mrs')) as Hr.
  assert (Hm' : 0 <= round_nearest_even (shr_m mrs') (loc_of_shr_record mrs')) by lia.
  destruct (shr_fexp_spec e' loc_Exact Hm') as (H2 & H3 & _).
  destruct (shr_fexp prec emax _ e' loc_Exact) as [mrs'' e''].
  simpl in H2, H3.
  destruct (shr_m mrs'') as [|m|m]; simpl; auto; [|lia].
  destruct (e'' <=? _); simpl; split; auto.
  now apply Z.leb_le.
Qed.

(** Rounding a positive mantissa at an exponent of at least [emin] keeps it
    away from zero: the result has the sign asked for. *)
Lemma binary_round_aux_sign sx mx ex lx :
  0 < mx -> emin <= ex ->
  binary_round_aux prec emax sx mx ex lx = S754_infinity sx \/
  exists m e, binary_round_aux prec emax sx mx ex lx = S754_finite sx m e.
Proof.
  intros Hm He. unfold binary_round_aux.
  assert (Hm0 : 0 <= mx) by lia.
  destruct (shr_fexp_spec ex lx Hm0) as (_ & H1e & H1).
  specialize (H1 Hm He).
  destruct (shr_fexp prec emax mx ex lx) as [mrs' e'].
  simpl in H1, H1e.
  pose proof (round_nearest_even_ge (shr_m mrs') (loc_of_shr_record mrs')) as Hr.
  assert (Hm' : 0 <= round_nearest_even (shr_m mrs') (loc_of_shr_record mrs')) by lia.
  destruct (shr_fexp_spec e' loc_Exact Hm') as (_ & _ & H2).
  assert (H2' := H2 ltac:(lia) H1e). clear H2.
  destruct (shr_fexp prec emax _ e' loc_Exact) as [mrs'' e''].
  simpl in H2'.
  destruct (shr_m mrs'') as [|m|m]; try lia.
  destruct (e'' <=? emax - prec); [right; now exists m, e''|now left].
Qed.

Lemma iter_xO m d : Zpos (Pos.iter xO m d) = Zpos m * 2 ^ Zpos d.
Proof.
  induction d as [|d IH] using Pos.peano_ind.
  - simpl. lia.
  - rewrite Pos.iter_succ, Pos2Z.inj_succ, Z.pow_succ_r by lia.
    rewrite (Pos2Z.inj_xO (Pos.iter xO m d)), IH. ring.
Qed.

Lemma shl_align_spec m e e' :
  e' <= e ->
  Zpos (fst (shl_align m e e')) = Zpos m * 2 ^ (e - e') /\
  snd (shl_align m e e') = e'.
Proof.
  intros Hle. unfold shl_align.
  destruct (e' - e) as [|d|d] eqn:Hd; simpl.
  - assert (e = e') by lia. subst. rewrite Z.sub_diag. simpl. split; lia.
  - lia.
  - rewrite iter_xO. split; [|reflexivity].
    replace (e - e') with (Zpos d) by lia. reflexivity.
Qed.

Lemma shl_align_exponent m e e' :
  emin <= e -> emin <= e' -> emin <= snd (shl_align m e e').
Proof.
  intros He He'. unfold shl_align. now destruct (e' - e).
Qed.

Lemma binary_round_sign sx mx ex :
  emin <= ex ->
  binary_round prec emax sx mx ex = S754_infinity sx \/
  exists m e, binary_round prec emax sx mx ex = S754_finite sx m e.
Proof.
  intros He. unfold binary_round.
  pose proof (shl_align_exponent mx He
                (fexp_emin (Zpos (digits2_pos mx) + ex))) as Hz.
  destruct (shl_align mx ex _) as [mz ez]. simpl in Hz.
  apply binary_round_aux_sign; [lia|exact Hz].
Qed.

(** ** The sign of [b - a] is the sign of the exact difference *)

Lemma sub_finite_sign sy my ey sx mx ex :
  emin <= ey -> emin <= ex ->
  let vy := cond_Zopp sy (Zpos my * 2 ^ (ey - emin)) in
  let vx := cond_Zopp sx (Zpos mx * 2 ^ (ex - emin)) in
  (is_positive (sub (S754_finite sy my ey) (S754_finite sx mx ex)) = true /\ vx < vy) \/
  (is_positive (sub (S754_finite sy my ey) (S754_finite sx mx ex)) = false /\ vy <= vx).
Proof.
  intros Hy Hx vy vx. unfold sub, SFsub.
  set (ez := Z.min ey ex).
  assert (Hzy : ez <= ey) by (unfold ez; lia).
  assert (Hzx : ez <= ex) by (unfold ez; lia).
  assert (Hz : emin <= ez) by (unfold ez; lia).
  destruct (shl_align_spec my Hzy) as [Ey _].
  destruct (shl_align_spec mx Hzx) as [Ex _].
  set (ay := fst (shl_align my ey ez)) in *.
  set (ax := fst (shl_align mx ex ez)) in *.
  set (K := 2 ^ (ez - emin)).
  assert (HK : 0 < K) by (apply pow2_pos; lia).
  assert (Hvy : vy = SpecFloat.cond_Zopp sy (Zpos ay) * K).
  { unfold vy, K. rewrite Ey.
    replace (ey - emin) with ((ey - ez) + (ez - emin)) by lia.
    rewrite Z.pow_add_r by lia.
    unfold cond_Zopp, SpecFloat.cond_Zopp. destruct sy; ring. }
  assert (Hvx : vx = SpecFloat.cond_Zopp sx (Zpos ax) * K).
  { unfold vx, K. rewrite Ex.
    replace (ex - emin) with ((ex - ez) + (ez - emin)) by lia.
    rewrite Z.pow_add_r by lia.
    unfold cond_Zopp, SpecFloat.cond_Zopp. destruct sx; ring. }
  set (D := SpecFloat.cond_Zopp sy (Zpos ay) - SpecFloat.cond_Zopp sx (Zpos ax)) in *.
  assert (HD : vy - vx = D * K) by (rewrite Hvy, Hvx; unfold D; ring).
  unfold binary_normalize.
  destruct D as [|d|d] eqn:ED.
  - right. split; [reflexivity|lia].
  - left. split; [|nia].
    destruct (binary_round_sign false d Hz) as [->|(m & e & ->)]; reflexivity.
  - right. split; [|nia].
    destruct (binary_round_sign true d Hz) as [->|(m & e & ->)]; reflexivity.
Qed.

Lemma exact_finite_pos m e :
  emin <= e -> 0 < Zpos m * 2 ^ (e - emin).
Proof. intros He. apply Z.mul_pos_pos; [lia|apply pow2_pos; lia]. Qed.

Ltac number_cases x y Rx Ry Nx Ny :=
  destruct x as [sx|sx| |sx mx ex], y as [sy|sy| |sy my ey];
  try discriminate Nx; try discriminate Ny;
  simpl in Rx, Ry;
  try (apply Z.leb_le in Rx; pose proof (exact_finite_pos mx Rx));
  try (apply Z.leb_le in Ry; pose proof (exact_finite_pos my Ry)).

Lemma sub_positive x y :
  well_formed x -> well_formed y ->
  is_positive (sub y x) = true -> le x y.
Proof.
  intros [Rx Nx] [Ry Ny] H. unfold le.
  number_cases x y Rx Ry Nx Ny.
  9: { destruct (@sub_finite_sign sy my ey sx mx ex Ry Rx) as [[_ Hlt]|[Hn _]];
       [simpl in *; lia|congruence]. }
  all: destruct sx, sy; simpl in *; try discriminate; auto; lia.
Qed.

Lemma sub_not_positive x y :
  well_formed x -> well_formed y ->
  is_positive (sub y x) = false -> le y x.
Proof.
  intros [Rx Nx] [Ry Ny] H. unfold le.
  number_cases x y Rx Ry Nx Ny.
  9: { destruct (@sub_finite_sign sy my ey sx mx ex Ry Rx) as [[Hp _]|[_ Hle]];
       [congruence|simpl in *; lia]. }
  all: destruct sx, sy; simpl in *; try discriminate; auto; lia.
Qed.

Lemma le_refl x : le x x.
Proof. unfold le. destruct (exact x); simpl; auto; lia. Qed.

Lemma le_trans x y z : le x y -> le y z -> le x z.
Proof.
  unfold le. destruct (exact x), (exact y), (exact z); simpl; auto; try lia;
    contradiction.
Qed.

End Rounding.

Module Fixed.
Import Number Rounding.
Local Open Scope Z_scope.

(** [toFixed(2)] picks the hundredth nearest to the magnitude, the larger
    one on a tie. *)
Lemma hundredths_nearest m e :
  - denominator e
    <= 2 * (100 * numerator m e - Z.of_N (hundredths_of m e) * denominator e)
    < denominator e.
Proof.
  unfold hundredths_of, numerator, denominator.
  destruct e as [|k|k].
  - simpl Z.max. rewrite Z2N.id by lia. lia.
  - replace (Z.max (Zpos k) 0) with (Zpos k) by lia.
    replace (Z.max (- Zpos k) 0) with 0 by lia.
    assert (0 < 2 ^ Zpos k) by (apply pow2_pos; lia).
    rewrite Z2N.id by nia. rewrite Z.pow_0_r. lia.
  - replace (Z.max (Zneg k) 0) with 0 by lia.
    replace (Z.max (- Zneg k) 0) with (Zpos k) by lia.
    assert (HQ : 0 < 2 ^ Zpos k) by (apply pow2_pos; lia).
    set (Q := 2 ^ Zpos k) in *.
    pose proof (Z_div_mod (200 * Zpos m + Q) (2 * Q) ltac:(lia)) as Hdiv.
    unfold Z.div.
    destruct (Z.div_eucl (200 * Zpos m + Q) (2 * Q)) as [n r].
    destruct Hdiv as [Heq Hr]. simpl fst.
    assert (0 <= n) by nia.
    rewrite Z2N.id by assumption. rewrite Z.pow_0_r. nia.
Qed.


End Fixed.

Module Sorting.
Import Number Js Effects Server Aggregation Rounding.

Lemma nearest_well_formed s n d : well_formed (nearest s n d).
Proof.
  unfold nearest, SFdiv, SFdiv_core_binary.
  match goal with
  | |- context [Z.div_eucl ?a ?b] =>
      assert (Ha : (0 <= a)%Z);
      [|generalize (Z_div_mod a b eq_refl); destruct (Z.div_eucl a b) as [q r]]
  end.
  - destruct (_ - _ - _)%Z; try lia.
    rewrite Z.shiftl_mul_pow2 by lia.
    apply Z.mul_nonneg_nonneg; [lia|]. apply Z.pow_nonneg. lia.
  - intros [Hq Hr].
    assert (0 <= q)%Z by nia.
    destruct (@binary_round_aux_representable (xorb s false) q
                (Z.min (fexp prec emax (Zdigits2 (Zpos n) + 0 - (Zdigits2 (Zpos d) + 0))) (0 - 0))
                (new_location (Zpos d) r)); auto.
    split; assumption.
Qed.

(** [parseFloat(x.toFixed(2))] of a Number is a Number. *)
Lemma rounded_well_formed x :
  well_formed x -> well_formed (parseFloat (toFixed2 x)).
Proof.
  intros Hx. destruct x as [s|s| |s m e]; simpl.
  - split; reflexivity.
  - exact Hx.
  - exact Hx.
  - destruct (at_least_1e21 m e); simpl; [exact Hx|].
    destruct (hundredths_of m e); [split; reflexivity|].
    apply nearest_well_formed.
Qed.

Section InsertionSort.
Variable A : Type.
Variable key : A -> number.

Let comparefn (a b : A) : number := Number.sub (key b) (key a).
Let before (a b : A) : Prop := Number.le (key b) (key a).

Lemma insert_perm x l : Permutation (x :: l) (insert comparefn x l).
Proof.
  induction l as [|y l IH]; simpl; [reflexivity|].
  destruct (is_positive (comparefn x y)); [|reflexivity].
  rewrite perm_swap. now constructor.
Qed.

Lemma sort_perm l : Permutation l (sort comparefn l).
Proof.
  induction l as [|x l IH]; simpl; [reflexivity|].
  rewrite <- insert_perm. now constructor.
Qed.

Lemma insert_sorted x l :
  well_formed (key x) -> Forall (fun y => well_formed (key y)) l ->
  StronglySorted before l ->
  StronglySorted before (insert comparefn x l).
Proof.
  intros Hx Hl Hs. induction Hs as [|y l Hs IH Hy]; simpl.
  - repeat constructor.
  - inversion Hl as [|? ? Wy Wl]; subst.
    destruct (is_positive (comparefn x y)) eqn:E.
    + constructor; [now apply IH|].
      apply (Permutation_Forall (insert_perm x l)).
      constructor; [|exact Hy].
      unfold before. now apply sub_positive.
    + assert (Hxy : before x y) by (unfold before; now apply sub_not_positive).
      constructor; [now constructor|].
      constructor; [exact Hxy|].
      eapply Forall_impl; [|exact Hy].
      intros z Hz. unfold before in *. eapply le_trans; eauto.
Qed.

Lemma sort_sorted l :
  Forall (fun y => well_formed (key y)) l ->
  StronglySorted before (sort comparefn l).
Proof.
  induction l as [|x l IH]; intros Hl; simpl; [constructor|].
  inversion Hl; subst.
  apply insert_sorted; auto.
  apply (Permutation_Forall (sort_perm l)). assumption.
Qed.
End InsertionSort.

Lemma In_firstn A n (l : list A) x : In x (firstn n l) -> In x l.
Proof.
  revert l. induction n as [|n IH]; intros l H; simpl in H; [contradiction|].
  destruct l as [|y l]; [contradiction|].
  destruct H as [->|H]; [now left|right; auto].
Qed.

Lemma firstn_sorted A (R : A -> A -> Prop) n l :
  StronglySorted R l -> StronglySorted R (firstn n l).
Proof.
  revert l. induction n as [|n IH]; intros l Hs; simpl; [constructor|].
  destruct l as [|x l]; [constructor|].
  inversion Hs; subst. constructor; [now apply IH|].
  apply Forall_forall. intros y Hy.
  assert (In y l) by (eapply In_firstn; eauto).
  rewrite Forall_forall in *. auto.
Qed.

End Sorting.

Module CostsPath.
Import Number Js Effects Server Aggregation Expected Loops FanOut Handlers.

Lemma getAccessToken_console up w r w' :
  getAccessToken up w = (r, w') -> console w' = console w.
Proof.
  unfold getAccessToken, try_catch, bind, axios.
  destruct (up _ _) as [d|]; simpl.
  - destruct (member d "access_token"); simpl; intros H; now inversion H.
  - intros H; now inversion H.
Qed.

Lemma getSubscriptions_console tok up w r w' :
  getSubscriptions tok up w = (r, w') -> console w' = console w.
Proof.
  unfold getSubscriptions, try_catch, bind, axios, to_string.
  destruct (printable tok); simpl; [|intros H; now inversion H].
  destruct (up _ _) as [d|]; simpl; [|intros H; now inversion H].
  destruct (member d "value") as [v|]; simpl; [|intros H; now inversion H].
  destruct (array_elements v) as [l|]; simpl; [|intros H; now inversion H].
  destruct (map_option subscription_of l); simpl; intros H; now inversion H.
Qed.

Lemma Forall2_impl_In A B (P Q : A -> B -> Prop) l l' :
  Forall2 P l l' ->
  (forall x y, In x l -> P x y -> Q x y) ->
  Forall2 Q l l'.
Proof.
  induction 1 as [|x y l l' Hxy HF IH]; intros H; constructor.
  - apply H; [now left|exact Hxy].
  - apply IH. intros; apply H; [now right|assumption].
Qed.

(** The rows of a tabular payload all flatten. *)
Lemma cost_rows_flatten sub rows :
  forallb iterable rows = true ->
  exists g, map_option (cost_row sub) rows = Some g.
Proof.
  induction rows as [|row rows IH]; simpl; intros H.
  - now exists [].
  - apply andb_true_iff in H. destruct H as [Hrow Hrows].
    destruct (IH Hrows) as (g & ->).
    unfold cost_row at 1. destruct row; try discriminate; simpl;
      eexists; reflexivity.
Qed.

Lemma cost_contribution_tabular r :
  failed r = false -> tabular (data r) = true ->
  exists g, cost_contribution r = Some g /\ flattened r g.
Proof.
  unfold flattened, failed, tabular, cost_contribution, raw_rows, or_else.
  destruct (error r); [discriminate|]. intros _.
  destruct (payload_rows (data r)) as [| |b|x|s|rows|fields] eqn:E; simpl;
    try (intros _; exists []; split; [reflexivity|constructor]);
    try (intros H; apply negb_true_iff in H; rewrite H;
         exists []; split; [reflexivity|constructor]).
  - intros H. destruct (cost_rows_flatten (subscription r) rows H) as (g & Hg).
    exists g. split; [exact Hg|]. now apply map_option_Forall2.
  - discriminate.
Qed.

Lemma cost_contribution_failed r :
  printable (subscriptionId (subscription r)) = true ->
  failed r = true -> cost_contribution r = Some [] /\ raw_rows r = [].
Proof.
  unfold failed, cost_contribution, raw_rows. intros ->.
  destruct (error r); [auto|discriminate].
Qed.

Lemma raw_rows_failed r : failed r = true -> raw_rows r = [].
Proof.
  unfold failed, raw_rows. destruct (error r); [auto|discriminate].
Qed.

(** The results of the fan-out belong to the listed subscriptions. *)
Lemma cost_results_In up tok sd ed subs : forall history r,
  In r (cost_results up history tok sd ed subs) -> In (subscription r) subs.
Proof.
  unfold cost_results.
  induction subs as [|sub subs IH]; simpl; intros history r; [contradiction|].
  intros [<-|Hin].
  - left. unfold settle_cost. simpl. now destruct (query_data _).
  - right. eapply IH; eauto.
Qed.

Lemma cost_results_printable up tok sd ed subs history r :
  printable_ids subs = true ->
  In r (cost_results up history tok sd ed subs) ->
  printable (subscriptionId (subscription r)) = true.
Proof.
  intros P Hin. eapply printable_ids_In; [exact P|].
  eapply cost_results_In; eauto.
Qed.

(** Every result contributes when the successful ones are tabular. *)
Lemma cost_contributions results :
  (forall r, In r results -> printable (subscriptionId (subscription r)) = true) ->
  (forall r, In r results -> failed r = false -> tabular (data r) = true) ->
  exists groups,
    map_option cost_contribution results = Some groups /\
    Forall2 (fun r g => cost_contribution r = Some g /\ flattened r g)
      results groups.
Proof.
  induction results as [|r results IH]; intros P H; simpl.
  - exists []. split; [reflexivity|constructor].
  - destruct IH as (groups & -> & HF);
      [intros; apply P; simpl; auto|intros; apply H; simpl; auto|].
    assert (Hr : exists g, cost_contribution r = Some g /\ flattened r g).
    { destruct (failed r) eqn:F.
      - exists []. unfold flattened.
        destruct (cost_contribution_failed r (P r (or_introl eq_refl)) F)
          as [-> ->].
        split; [reflexivity|constructor].
      - apply cost_contribution_tabular; auto. apply H; simpl; auto. }
    destruct Hr as (g & Hg & Hflat). rewrite Hg.
    exists (g :: groups). split; [reflexivity|]. constructor; auto.
Qed.

Lemma row_count_sum results groups :
  Forall2 (fun r g => cost_contribution r = Some g /\ flattened r g)
    results groups ->
  length (concat groups) = list_sum (map row_count (filter succeeded results)).
Proof.
  induction 1 as [|r g results groups [Hg Hflat] HF IH]; simpl; [reflexivity|].
  rewrite length_app, IH. unfold succeeded at 2.
  assert (Hlen : length g = row_count r).
  { unfold row_count. symmetry. eapply Forall2_length. exact Hflat. }
  rewrite Hlen. unfold row_count at 1.
  destruct (failed r) eqn:F; simpl; [|reflexivity].
  now rewrite (raw_rows_failed r F).
Qed.

Lemma failure_log_about results :
  map about (flat_map failure_log results) =
  map (fun r => Some (subscriptionId (subscription r))) (filter failed results).
Proof.
  induction results as [|r results IH]; simpl; [reflexivity|].
  rewrite map_app, IH. unfold failure_log at 1, failed at 2.
  now destruct (error r).
Qed.

Lemma rows_field_payload d : rows_field d = payload_rows d.
Proof.
  unfold rows_field, payload_rows, member_opt.
  destruct d as [| | | | | |fields]; try reflexivity. simpl.
  now destruct (lookup "properties" fields).
Qed.

(** The rows counted are the rows the successful queries returned. *)
Lemma raw_rows_expected sub d :
  raw_rows (mkSettled sub d None) = rows_of d.
Proof.
  unfold raw_rows, rows_of, or_else. cbn [error data].
  rewrite rows_field_payload.
  destruct (payload_rows d) as [| |b|x|s|rows|fields]; simpl; try reflexivity;
    match goal with
    | |- context [if ?c then _ else _] => destruct c; reflexivity
    end.
Qed.

Lemma row_count_expected up tok sd ed subs : forall history,
  list_sum (map row_count
              (filter succeeded (cost_results up history tok sd ed subs))) =
  list_sum (map returned_rows (fan_out up history (cost_call tok sd ed) subs)).
Proof.
  unfold cost_results.
  induction subs as [|sub subs IH]; intros history; simpl; [reflexivity|].
  rewrite <- IH.
  unfold succeeded at 1, failed, settle_cost at 1 2, returned_rows. cbn [fst snd].
  destruct (query_data _) as [d|]; cbn [error negb]; [|reflexivity].
  simpl. f_equal. unfold row_count. now rewrite raw_rows_expected.
Qed.

(** The log of the failed queries. *)
Lemma failure_log_expected up tok sd ed subs : forall history,
  map about (flat_map failure_log (cost_results up history tok sd ed subs)) =
  map (fun sr => Some (subscriptionId (fst sr)))
    (filter (fun sr => match query_data (snd sr) with
                       | Some _ => false
                       | None => true
                       end)
       (fan_out up history (cost_call tok sd ed) subs)).
Proof.
  unfold cost_results.
  induction subs as [|sub subs IH]; intros history; simpl; [reflexivity|].
  rewrite map_app, IH. unfold settle_cost, failure_log. cbn [fst snd].
  now destruct (query_data _).
Qed.

(** C1: on the costs path, when the dates and the listed ids can be printed
    and every answered payload is tabular, the row count of the aggregated
    result is the sum of the numbers of rows the successful queries
    returned; a failed subscription adds no row, is logged, and does not
    abort the request: the answer is a 200 whatever the failed queries
    are. *)
Theorem costs_row_count_sums_successful req up sd ed tok subs w1 w2 :
  member req "startDate" = Some sd ->
  member req "endDate" = Some ed ->
  truthy sd = true -> truthy ed = true ->
  printable sd = true -> printable ed = true ->
  getAccessToken up world0 = (Return tok, w1) ->
  getSubscriptions tok up w1 = (Return subs, w2) ->
  printable_ids subs = true ->
  (forall r, In r (cost_results up (calls w2) tok sd ed subs) ->
             failed r = false -> tabular (data r) = true) ->
  exists rows groups w,
    run (api_costs req) up =
      (Return (mkResponse 200 (CostsBody rows cost_columns subs)), w) /\
    length rows =
      list_sum (map row_count
                  (filter succeeded (cost_results up (calls w2) tok sd ed subs))) /\
    rows = concat groups /\
    Forall2 (fun r g => cost_contribution r = Some g /\
                        (failed r = true -> g = []))
      (cost_results up (calls w2) tok sd ed subs) groups /\
    console w = flat_map failure_log (cost_results up (calls w2) tok sd ed subs) /\
    map about (console w) =
      map (fun r => Some (subscriptionId (subscription r)))
        (filter failed (cost_results up (calls w2) tok sd ed subs)) /\
    length rows =
      list_sum (map returned_rows
                  (fan_out up (calls w2) (cost_call tok sd ed) subs)) /\
    map about (console w) =
      map (fun sr => Some (subscriptionId (fst sr)))
        (filter (fun sr => match query_data (snd sr) with
                           | Some _ => false
                           | None => true
                           end)
           (fan_out up (calls w2) (cost_call tok sd ed) subs)).
Proof.
  intros Hsd Hed Tsd Ted Psd Ped Htok Hsubs Pids Htab.
  assert (Hp : forall r, In r (cost_results up (calls w2) tok sd ed subs) ->
                         printable (subscriptionId (subscription r)) = true)
    by (intros; eapply cost_results_printable; eauto).
  destruct (cost_contributions _ Hp Htab) as (groups & Hgroups & HF).
  exists (concat groups), groups. eexists.
  split; [eapply api_costs_ok; eauto|].
  split; [now apply row_count_sum|].
  split; [reflexivity|].
  split.
  { eapply Forall2_impl_In; [exact HF|]. simpl. intros r g Hin [Hg _].
    split; [exact Hg|]. intros F.
    destruct (cost_contribution_failed r (Hp r Hin) F) as [H0 _]. congruence. }
  assert (Hc : console w2 = []).
  { rewrite (getSubscriptions_console _ _ _ Hsubs).
    now rewrite (getAccessToken_console _ _ Htok). }
  unfold logged, issued. simpl. rewrite Hc. simpl.
  split; [reflexivity|]. split; [apply failure_log_about|].
  split; [|apply failure_log_expected].
  rewrite <- row_count_expected. now apply row_count_sum.
Qed.

(** ** The handler against the CostRows of the specification *)

Lemma cost_rows_joined sub rows :
  forallb is_array rows = true ->
  map_option (cost_row sub) rows = Some (map (joined sub) rows).
Proof.
  induction rows as [|row rows IH]; simpl; intros H; [reflexivity|].
  apply andb_true_iff in H. destruct H as [Hrow Hrows].
  rewrite (IH Hrows). destruct row; try discriminate. reflexivity.
Qed.

Lemma cost_contribution_expected sr :
  printable (subscriptionId (fst sr)) = true ->
  (forall d, snd sr = Response d -> nullish d = false -> cost_table d = true) ->
  cost_contribution (settle_cost sr) = Some (cost_rows sr).
Proof.
  destruct sr as [sub a]. cbn [fst snd]. intros P Htab.
  unfold settle_cost, cost_rows, cost_contribution. cbn [fst snd].
  destruct (query_data a) as [d|] eqn:Q; cbn [error data subscription].
  - assert (Hd : a = Response d /\ nullish d = false).
    { unfold query_data in Q. destruct a as [d'|]; [|discriminate].
      destruct (nullish d') eqn:N; [discriminate|]. inversion Q; subst. auto. }
    destruct Hd as [-> N]. specialize (Htab d eq_refl N).
    unfold cost_table, rows_of, or_else in *. rewrite <- rows_field_payload.
    destruct (rows_field d) as [| |b|x|s|rows|fields];
      cbn [truthy negb] in *; try reflexivity; try discriminate;
      try (apply negb_true_iff in Htab; rewrite Htab; reflexivity).
    cbn [array_elements]. now apply cost_rows_joined.
  - now rewrite P.
Qed.

Lemma cost_contributions_expected up tok sd ed subs : forall history,
  printable_ids subs = true ->
  (forall sub d,
      In (sub, Response d) (fan_out up history (cost_call tok sd ed) subs) ->
      nullish d = false -> cost_table d = true) ->
  map_option cost_contribution (cost_results up history tok sd ed subs) =
  Some (map cost_rows (fan_out up history (cost_call tok sd ed) subs)).
Proof.
  unfold cost_results.
  induction subs as [|sub subs IH]; intros history P Htab; simpl; [reflexivity|].
  apply printable_ids_cons in P. destruct P as [Psub Psubs].
  rewrite cost_contribution_expected.
  - rewrite IH; [reflexivity|exact Psubs|].
    intros s d Hin. apply (Htab s d). now right.
  - exact Psub.
  - cbn [snd fst]. intros d E. apply (Htab sub d). left. now rewrite E.
Qed.

(** C8: on [/api/costs] every raw row [[cost, meterCategory,
    meterSubCategory, unused, resourceGroup]] of a subscription whose
    query succeeded becomes the CostRow [[cost, meterCategory,
    meterSubCategory, subscriptionId, resourceGroup or "Unknown",
    subscriptionName]]: when the dates and the listed ids can be printed
    and every answered payload is a table, the answer is a 200 carrying
    exactly these rows, subscription after subscription, with the
    six-column schema and the subscription list, also when there is no
    row; an empty subscription list gives zero rows. *)
Theorem costs_rows_flattened_and_returned req up sd ed tok subs w1 w2 :
  member req "startDate" = Some sd ->
  member req "endDate" = Some ed ->
  truthy sd = true -> truthy ed = true ->
  printable sd = true -> printable ed = true ->
  getAccessToken up world0 = (Return tok, w1) ->
  getSubscriptions tok up w1 = (Return subs, w2) ->
  printable_ids subs = true ->
  (forall sub d,
      In (sub, Response d) (fan_out up (calls w2) (cost_call tok sd ed) subs) ->
      nullish d = false -> cost_table d = true) ->
  (forall sub cost meterCategory meterSubCategory unused resourceGroup,
      joined sub
        (VArray [cost; meterCategory; meterSubCategory; unused; resourceGroup]) =
      [cost; meterCategory; meterSubCategory; subscriptionId sub;
       (if truthy resourceGroup then resourceGroup else VString "Unknown");
       displayName sub]) /\
  (exists w,
      run (api_costs req) up =
        (Return
           (mkResponse 200
              (CostsBody
                 (flat_map cost_rows
                    (fan_out up (calls w2) (cost_call tok sd ed) subs))
                 schema subs)), w)) /\
  (subs = [] ->
   flat_map cost_rows (fan_out up (calls w2) (cost_call tok sd ed) subs) = []).
Proof.
  intros Hsd Hed Tsd Ted Psd Ped Htok Hsubs Pids Htab.
  split; [reflexivity|]. split.
  - eexists. rewrite flat_map_concat_map.
    eapply api_costs_ok; eauto.
    now apply cost_contributions_expected.
  - now intros ->.
Qed.



End CostsPath.

Module TopResourcesPath.
Import Number Js Effects Server Aggregation Loops FanOut Handlers Rounding Sorting.

Lemma map_option_In A B (f : A -> option B) l rs y :
  map_option f l = Some rs -> In y rs -> exists x, In x l /\ f x = Some y.
Proof.
  intros H. apply map_option_Forall2 in H.
  induction H as [|x r l rs Hx HF IH]; simpl; [contradiction|].
  intros [<-|Hy].
  - exists x. auto.
  - destruct (IH Hy) as (x' & Hin & Hf). exists x'. auto.
Qed.

Lemma map_option_None A B (f : A -> option B) l x :
  In x l -> f x = None -> map_option f l = None.
Proof.
  induction l as [|y l IH]; simpl; [contradiction|].
  intros [->|Hin] Hx.
  - now rewrite Hx.
  - rewrite (IH Hin Hx). now destruct (f y).
Qed.

Lemma fan_out_In up query subs : forall history sub a,
  In (sub, a) (fan_out up history query subs) ->
  In sub subs /\ exists h, a = up h (query sub).
Proof.
  induction subs as [|s subs IH]; simpl; intros history sub a; [contradiction|].
  intros [H|H].
  - inversion H; subst. split; [now left|now exists history].
  - destruct (IH _ _ _ H) as [Hin Hex]. split; [now right|exact Hex].
Qed.

(** ** JSON payloads hold Numbers only *)

Lemma from_json_lookup key fields :
  forallb (fun kv => from_json (snd kv)) fields = true ->
  from_json (lookup key fields) = true.
Proof.
  induction fields as [|[k v] fields IH]; simpl; [reflexivity|].
  intros H. apply andb_true_iff in H. destruct H as [Hv Hf].
  destruct (String.eqb k key); auto.
Qed.

Lemma from_json_member_opt v key :
  from_json v = true -> from_json (member_opt v key) = true.
Proof.
  unfold member_opt. destruct v; simpl; auto. apply from_json_lookup.
Qed.

Lemma from_json_nth l i :
  forallb from_json l = true -> from_json (nth i l VUndefined) = true.
Proof.
  revert i. induction l as [|v l IH]; intros [|i]; simpl; auto;
    intros H; apply andb_true_iff in H; destruct H; auto.
Qed.

Lemma from_json_at_index v i x :
  from_json v = true -> at_index v i = Some x -> from_json x = true.
Proof.
  destruct v; simpl; intros Hv H; inversion H; subst; auto.
  - unfold char_at. now destruct (nth_error (code_units s) i).
  - now apply from_json_nth.
  - now apply from_json_lookup.
Qed.

Lemma from_json_In l row :
  forallb from_json l = true -> In row l -> from_json row = true.
Proof. intros H. rewrite forallb_forall in H. auto. Qed.

(** ** One row of a resource query *)

Lemma top_resource_inv sub row t :
  top_resource sub row = Some t ->
  exists x,
    at_index row 0 = Some (VNumber x) /\
    cost t = parseFloat (toFixed2 x) /\
    at_index row 1 = Some (resourceId t) /\
    at_index row 2 = Some (meterSubCategory t) /\
    resource_name (resourceId t) = Some (resourceName t) /\
    top_resource_of sub t.
Proof.
  unfold top_resource, top_resource_of.
  destruct (at_index row 0) as [c|]; [|discriminate].
  destruct (at_index row 1) as [rid|]; [|discriminate].
  destruct (at_index row 2) as [msc|]; [|discriminate].
  destruct (resource_name rid) as [name|] eqn:Hname; [|discriminate].
  destruct c; simpl; try discriminate.
  intros H. inversion H; subst; simpl. exists x. repeat split; auto.
Qed.

Lemma top_contribution_inv r g t :
  top_contribution r = Some g -> In t g ->
  exists rows row,
    payload_rows (data r) = VArray rows /\ In row rows /\
    top_resource (subscription r) row = Some t.
Proof.
  unfold top_contribution.
  destruct (truthy (payload_rows (data r)));
    [|intros H; inversion H; subst; contradiction].
  destruct (payload_rows (data r)) as [| | | | |rows|]; simpl; try discriminate.
  intros H Hin. destruct (@map_option_In _ _ _ _ _ _ H Hin) as (row & Hrow & Ht).
  exists rows, row. auto.
Qed.

(** The results of a fan-out that resolved carry payloads the upstream
    sent, one per listed subscription and in list order. *)
Lemma resource_results_inv up history tok sd ed subs results r :
  resource_results up history tok sd ed subs = Some results ->
  In r results ->
  In (subscription r) subs /\
  exists h c, up h c = Response (data r).
Proof.
  unfold resource_results. intros H Hin.
  destruct (@map_option_In _ _ _ _ _ _ H Hin) as ([sub a] & Hsr & Hr).
  destruct (@fan_out_In _ _ _ _ _ _ Hsr) as [Hsub [h Ha]].
  unfold settle_resource, query_data in Hr. simpl in Hr.
  destruct a as [d|]; [|discriminate].
  destruct (nullish d); [discriminate|].
  inversion Hr; subst; simpl. split; [exact Hsub|].
  exists h, (resource_call tok sd ed sub). now symmetry.
Qed.


(** Every merged element stems from a raw row of a subscription's payload. *)
Lemma merged_inv results groups t :
  map_option top_contribution results = Some groups ->
  In t (concat groups) ->
  exists r rows row,
    In r results /\ payload_rows (data r) = VArray rows /\ In row rows /\
    top_resource (subscription r) row = Some t.
Proof.
  intros H Hin. apply in_concat in Hin. destruct Hin as (g & Hg & Ht).
  destruct (@map_option_In _ _ _ _ _ _ H Hg) as (r & Hr & Hc).
  destruct (@top_contribution_inv _ _ _ Hc Ht) as (rows & row & Hrows & Hrow & Htop).
  exists r, rows, row. auto.
Qed.

Lemma merged_costs_well_formed up history tok sd ed subs results groups :
  (forall h c d, up h c = Response d -> from_json d = true) ->
  resource_results up history tok sd ed subs = Some results ->
  map_option top_contribution results = Some groups ->
  Forall (fun t => well_formed (cost t)) (concat groups).
Proof.
  intros Hjson Hres Hgroups. apply Forall_forall. intros t Ht.
  destruct (@merged_inv _ _ _ Hgroups Ht) as (r & rows & row & Hr & Hrows & Hrow & Htop).
  destruct (@resource_results_inv _ _ _ _ _ _ _ _ Hres Hr) as [_ (h & c & Hup)].
  apply Hjson in Hup.
  assert (Hrows' : from_json (VArray rows) = true).
  { rewrite <- Hrows. unfold payload_rows. now do 2 apply from_json_member_opt. }
  simpl in Hrows'.
  pose proof (@from_json_In _ _ Hrows' Hrow) as Hjrow.
  destruct (@top_resource_inv _ _ _ Htop) as (x & Hx & Hcost & _).
  rewrite Hcost. apply rounded_well_formed.
  pose proof (@from_json_at_index _ _ _ Hjrow Hx) as Hjx. simpl in Hjx.
  apply andb_true_iff in Hjx. destruct Hjx as [H1 H2].
  split; [exact H1|]. now apply negb_true_iff.
Qed.

(** C4: on [/api/top-resources] the failure of one subscription's query is
    not caught per subscription: the whole request is answered 500 with an
    error body and no partial result; when every listed id can be printed,
    every query has been issued by then. *)
Theorem top_resources_query_failure_fails_request req up sd ed tok subs w1 w2 sub answer :
  member req "startDate" = Some sd ->
  member req "endDate" = Some ed ->
  truthy sd = true -> truthy ed = true ->
  getAccessToken up world0 = (Return tok, w1) ->
  getSubscriptions tok up w1 = (Return subs, w2) ->
  In (sub, answer) (fan_out up (calls w2) (resource_call tok sd ed) subs) ->
  query_data answer = None ->
  exists w,
    run (api_top_resources req) up =
      (Return (mkResponse 500 (ErrorBody "Failed to fetch top resources")), w) /\
    (printable_ids subs = true ->
     calls w = calls w2 ++ map (resource_call tok sd ed) subs).
Proof.
  intros Hsd Hed Tsd Ted Htok Hsubs Hin Hfail.
  assert (Hres : resource_results up (calls w2) tok sd ed subs = None).
  { unfold resource_results. eapply map_option_None; [exact Hin|].
    unfold settle_resource. simpl. now rewrite Hfail. }
  destruct (@api_top_resources_rejected _ _ _ _ _ _ _ _ Hsd Hed Tsd Ted Htok Hsubs
              (or_introl Hres))
    as (e & w & He & Hw).
  eexists. split; [exact He|].
  intros P. rewrite (Hw P). reflexivity.
Qed.

End TopResourcesPath.

Module RowTransform.
Import Number Js Effects Server Aggregation Loops FanOut Handlers Rounding Sorting.
Import TopResourcesPath Fixed.

Local Arguments Ascii.eqb : simpl never.

Lemma split_no_slash s : has_slash s = false -> split "/"%char s = [s].
Proof.
  unfold has_slash. induction s as [|c s IH]; simpl; [reflexivity|].
  intros H. apply orb_false_iff in H. destruct H as [Hc Hs].
  rewrite Hc, (IH Hs). reflexivity.
Qed.

Lemma split_slash s :
  has_slash s = true -> exists a b l, split "/"%char s = a :: b :: l.
Proof.
  unfold has_slash. induction s as [|c s IH]; simpl; [discriminate|].
  intros H.
  destruct (Ascii.eqb c "/"%char) eqn:Hc.
  - destruct (existsb _ (list_ascii_of_string s)) eqn:Hs.
    + destruct (IH eq_refl) as (a & b & l & ->). now exists "", a, (b :: l).
    + rewrite (split_no_slash s Hs). now exists "", s, [].
  - simpl in H. destruct (IH H) as (a & b & l & ->).
    now exists (String c a), b, l.
Qed.

Lemma last_segment_no_slash s : has_slash s = false -> last_segment s = s.
Proof.
  destruct s as [|c s]; [reflexivity|].
  unfold has_slash. simpl. fold (has_slash s).
  intros H. apply orb_false_iff in H. destruct H as [Hc Hs].
  now rewrite Hs, Hc.
Qed.

(** [s.split('/').pop()] is the substring after the last ['/']. *)
Lemma pop_split s : pop (split "/"%char s) = VString (last_segment s).
Proof.
  induction s as [|c s IH]; [reflexivity|].
  cbn [split last_segment].
  destruct (has_slash s) eqn:Hs.
  - destruct (split_slash s Hs) as (a & b & l & E). rewrite E in *.
    destruct (Ascii.eqb c "/"%char); exact IH.
  - rewrite (split_no_slash s Hs) in *.
    destruct (Ascii.eqb c "/"%char); [|reflexivity].
    simpl. now rewrite (last_segment_no_slash s Hs) in IH.
Qed.

(** The last segment has no ['/'] and follows the last ['/'] of [s]. *)
Lemma last_segment_spec s :
  has_slash (last_segment s) = false /\
  exists prefix,
    s = (prefix ++ last_segment s)%string /\
    (prefix = "" \/ exists p, prefix = (p ++ "/")%string).
Proof.
  induction s as [|c s IH]; [split; [reflexivity|exists ""; auto]|].
  cbn [last_segment].
  destruct IH as [Hno (prefix & Hs & Hp)].
  destruct (has_slash s) eqn:E.
  - split; [exact Hno|].
    exists (String c prefix). split; [simpl; now rewrite <- Hs|].
    right. destruct Hp as [->|(p & ->)].
    + simpl in Hs. rewrite <- Hs in Hno. congruence.
    + now exists (String c p).
  - destruct (Ascii.eqb c "/"%char) eqn:Hc.
    + split; [exact E|]. apply Ascii.eqb_eq in Hc. subst c.
      exists "/". split; [reflexivity|]. right. now exists "".
    + split.
      * unfold has_slash in *. simpl. now rewrite Hc.
      * exists "". auto.
Qed.



End RowTransform.

Module RankedPath.
Import Number Js Effects Server Aggregation Expected.
Import Loops FanOut Handlers Rounding Fixed Sorting.
Import CostsPath TopResourcesPath RowTransform.

(** ** The handler against the TopResources of the specification *)

Lemma resource_name_expected id :
  string_if_any id = true ->
  resource_name id = Some (name_of id).
Proof.
  unfold resource_name, name_of, string_if_any.
  destruct id as [| |b|x|s| |]; cbn [truthy]; intros H;
    try reflexivity; try discriminate;
    try (apply negb_true_iff in H; now rewrite H).
  destruct (String.eqb s ""); simpl; [reflexivity|].
  now rewrite pop_split.
Qed.

Lemma top_resource_expected sub row :
  ranked_row row = true ->
  top_resource sub row = Some (resource_of sub row).
Proof.
  unfold ranked_row, top_resource, resource_of. intros H.
  apply andb_true_iff in H. destruct H as [H Hid].
  apply andb_true_iff in H. destruct H as [Harr Hcost].
  destruct row as [| | | | |cells|]; try discriminate.
  cbn [at_index cell] in *.
  rewrite (@resource_name_expected _ Hid).
  unfold is_number in Hcost.
  destruct (nth 0 cells VUndefined); try discriminate. reflexivity.
Qed.

Lemma top_resources_expected sub rows :
  forallb ranked_row rows = true ->
  map_option (top_resource sub) rows = Some (map (resource_of sub) rows).
Proof.
  induction rows as [|row rows IH]; simpl; intros H; [reflexivity|].
  apply andb_true_iff in H. destruct H as [Hrow Hrows].
  now rewrite (@top_resource_expected sub row Hrow), (IH Hrows).
Qed.

Lemma top_contribution_expected sub d :
  nullish d = false -> resource_table d = true ->
  top_contribution (mkSettled sub d None) = Some (resources (sub, Response d)).
Proof.
  intros N Htab. unfold top_contribution, resources, query_data, rows_of.
  cbn [data subscription fst snd]. rewrite N.
  unfold resource_table in Htab. rewrite <- rows_field_payload.
  destruct (rows_field d) as [| |b|x|s|rows|fields];
    cbn [truthy negb] in *; try reflexivity; try discriminate;
    try (apply negb_true_iff in Htab; rewrite Htab; reflexivity).
  cbn [array_elements]. now apply top_resources_expected.
Qed.

(** Every query answered with a table: the fan-out resolves and the merge
    loop gathers the TopResources of every payload. *)
Lemma top_contributions_expected up tok sd ed subs : forall history,
  (forall sub a,
      In (sub, a) (fan_out up history (resource_call tok sd ed) subs) ->
      exists d, a = Response d /\ nullish d = false /\ resource_table d = true) ->
  exists results,
    resource_results up history tok sd ed subs = Some results /\
    map_option top_contribution results =
      Some (map resources (fan_out up history (resource_call tok sd ed) subs)).
Proof.
  unfold resource_results.
  induction subs as [|sub subs IH]; intros history Htab; simpl.
  - exists []. auto.
  - destruct (Htab sub _ (or_introl eq_refl)) as (d & Hd & N & T).
    destruct (IH (history ++ [resource_call tok sd ed sub])) as (results & Hres & Hg).
    { intros s a Hin. apply (Htab s a). now right. }
    rewrite Hd. unfold settle_resource at 1, query_data. cbn [fst snd].
    rewrite N, Hres.
    exists (mkSettled sub d None :: results). split; [reflexivity|].
    simpl. now rewrite (@top_contribution_expected sub d N T), Hg.
Qed.

(** The answer of [/api/top-resources] when every query is answered with a
    table. *)
Lemma api_top_resources_expected req up sd ed tok subs w1 w2 :
  (forall h c d, up h c = Response d -> from_json d = true) ->
  member req "startDate" = Some sd ->
  member req "endDate" = Some ed ->
  truthy sd = true -> truthy ed = true ->
  getAccessToken up world0 = (Return tok, w1) ->
  getSubscriptions tok up w1 = (Return subs, w2) ->
  printable_ids subs = true ->
  (forall sub a,
      In (sub, a) (fan_out up (calls w2) (resource_call tok sd ed) subs) ->
      exists d, a = Response d /\ nullish d = false /\ resource_table d = true) ->
  exists sorted,
    run (api_top_resources req) up =
      (Return (mkResponse 200 (TopResourcesBody (firstn 10 sorted))),
       issued w2 (map (resource_call tok sd ed) subs)) /\
    descending_by_cost sorted /\
    Permutation
      (flat_map resources
         (fan_out up (calls w2) (resource_call tok sd ed) subs))
      sorted.
Proof.
  intros Hjson Hsd Hed Tsd Ted Htok Hsubs Pids Htab.
  destruct (top_contributions_expected up tok sd ed subs (calls w2) Htab)
    as (results & Hres & Hgroups).
  pose proof (@merged_costs_well_formed _ _ _ _ _ _ _ _ Hjson Hres Hgroups) as Hwf.
  rewrite flat_map_concat_map.
  exists (sort by_cost_descending
            (concat (map resources
                       (fan_out up (calls w2) (resource_call tok sd ed) subs)))).
  split; [|split].
  - exact (@api_top_resources_ok req up sd ed tok subs w1 w2 results _
             Hsd Hed Tsd Ted Htok Hsubs Pids Hres Hgroups).
  - exact (@sort_sorted _ cost _ Hwf).
  - apply (@sort_perm _ cost).
Qed.

(** The rows of a table of resources have a Number for cost. *)
Lemma ranked_rows_cost d row :
  resource_table d = true -> In row (rows_of d) ->
  exists x, cell row 0 = VNumber x.
Proof.
  unfold resource_table, rows_of.
  destruct (rows_field d); try contradiction.
  intros H Hin. rewrite forallb_forall in H. specialize (H row Hin).
  unfold ranked_row in H.
  apply andb_true_iff in H. destruct H as [H _].
  apply andb_true_iff in H. destruct H as [_ H].
  unfold is_number in H. destruct (cell row 0); try discriminate. eauto.
Qed.

Lemma resources_length answers :
  length (flat_map resources answers) = list_sum (map returned_rows answers).
Proof.
  induction answers as [|sr answers IH]; [reflexivity|].
  assert (H : length (resources sr) = returned_rows sr).
  { unfold resources, returned_rows. destruct (query_data (snd sr));
      [apply length_map|reflexivity]. }
  cbn [flat_map]. rewrite length_app, IH, H. reflexivity.
Qed.

(** C2: the array a successful [/api/top-resources] returns has at most 10
    elements and is in non-increasing order of [cost]; when every query is
    answered with a table of resources it is the first 10 elements of a
    descending rearrangement of the TopResources merged from the payloads
    of all subscriptions. *)
Theorem top_resources_at_most_ten_sorted_descending up :
  (forall h c d, up h c = Response d -> from_json d = true) ->
  (forall req resp w,
      run (api_top_resources req) up = (Return resp, w) ->
      status resp = 200 ->
      exists rows,
        json resp = TopResourcesBody rows /\
        length rows <= 10 /\
        descending_by_cost rows) /\
  (forall req sd ed tok subs w1 w2,
      member req "startDate" = Some sd ->
      member req "endDate" = Some ed ->
      truthy sd = true -> truthy ed = true ->
      getAccessToken up world0 = (Return tok, w1) ->
      getSubscriptions tok up w1 = (Return subs, w2) ->
      printable_ids subs = true ->
      (forall sub a,
          In (sub, a) (fan_out up (calls w2) (resource_call tok sd ed) subs) ->
          exists d, a = Response d /\ nullish d = false /\
                    resource_table d = true) ->
      exists sorted,
        fst (run (api_top_resources req) up) =
          Return (mkResponse 200 (TopResourcesBody (firstn 10 sorted))) /\
        descending_by_cost sorted /\
        Permutation
          (flat_map resources
             (fan_out up (calls w2) (resource_call tok sd ed) subs))
          sorted).
Proof.
  intros Hjson. split.
  - intros req resp w Hrun H200.
    destruct (@api_top_resources_inv _ _ _ _ Hrun H200)
      as (sd & ed & tok & subs & w1 & w2 & results & groups &
          _ & _ & _ & _ & _ & _ & Hres & Hgroups & ->).
    pose proof (@merged_costs_well_formed _ _ _ _ _ _ _ _ Hjson Hres Hgroups) as Hwf.
    pose proof (@sort_sorted _ cost _ Hwf) as Hsorted.
    eexists. split; [reflexivity|].
    split; [apply firstn_le_length|].
    apply firstn_sorted; exact Hsorted.
  - intros req sd ed tok subs w1 w2 Hsd Hed Tsd Ted Htok Hsubs Pids Htab.
    destruct (@api_top_resources_expected req up sd ed tok subs w1 w2
                Hjson Hsd Hed Tsd Ted Htok Hsubs Pids Htab)
      as (sorted & Hrun & Hdesc & Hperm).
    exists sorted. rewrite Hrun. auto.
Qed.

(** C7: every [cost] that [/api/top-resources] emits is the cost of its raw
    row rounded to 2 decimal places, [parseFloat(cost.toFixed(2))] on
    binary64.  When every query is answered with a table of resources,
    each element returned stems from a row of a payload and carries the
    rounding of that row's cost, and when at most 10 rows were returned
    every row is emitted so: one that costs [12.345] with the cost [12.35],
    one that costs [12.344] with [12.34].  The rounding prints the
    hundredth nearest to the cost (the larger of two) and reads it back as
    the Number nearest to it. *)
Theorem cost_is_rounded_to_two_decimals req up sd ed tok subs w1 w2 :
  (forall h c d, up h c = Response d -> from_json d = true) ->
  member req "startDate" = Some sd ->
  member req "endDate" = Some ed ->
  truthy sd = true -> truthy ed = true ->
  getAccessToken up world0 = (Return tok, w1) ->
  getSubscriptions tok up w1 = (Return subs, w2) ->
  printable_ids subs = true ->
  (forall sub a,
      In (sub, a) (fan_out up (calls w2) (resource_call tok sd ed) subs) ->
      exists d, a = Response d /\ nullish d = false /\ resource_table d = true) ->
  exists rows,
    fst (run (api_top_resources req) up) =
      Return (mkResponse 200 (TopResourcesBody rows)) /\
    (forall t, In t rows ->
       exists sub d row x,
         In (sub, Response d)
           (fan_out up (calls w2) (resource_call tok sd ed) subs) /\
         In row (rows_of d) /\
         cell row 0 = VNumber x /\
         resourceId t = cell row 1 /\
         cost t = parseFloat (toFixed2 x)) /\
    (forall sub d row x,
       In (sub, Response d)
         (fan_out up (calls w2) (resource_call tok sd ed) subs) ->
       In row (rows_of d) ->
       cell row 0 = VNumber x ->
       list_sum (map returned_rows
                   (fan_out up (calls w2) (resource_call tok sd ed) subs)) <= 10 ->
       exists t,
         In t rows /\ resourceId t = cell row 1 /\
         cost t = parseFloat (toFixed2 x) /\
         (x = nearest false 12345 1000 -> cost t = nearest false 1235 100) /\
         (x = nearest false 12344 1000 -> cost t = nearest false 1234 100)) /\
    (forall s m e,
       at_least_1e21 m e = false ->
       exists n,
         toFixed2 (S754_finite s m e) = Digits s n /\
         (- denominator e
          <= 2 * (100 * numerator m e - Z.of_N n * denominator e)
          < denominator e)%Z /\
         parseFloat (Digits s n) =
           match n with
           | N0 => S754_zero s
           | Npos p => nearest s p 100
           end).
Proof.
  intros Hjson Hsd Hed Tsd Ted Htok Hsubs Pids Htab.
  destruct (@api_top_resources_expected req up sd ed tok subs w1 w2
              Hjson Hsd Hed Tsd Ted Htok Hsubs Pids Htab)
    as (sorted & Hrun & Hdesc & Hperm).
  exists (firstn 10 sorted). rewrite Hrun.
  split; [reflexivity|]. split; [|split].
  - intros t Ht. apply In_firstn in Ht.
    apply (Permutation_in _ (Permutation_sym Hperm)) in Ht.
    apply in_flat_map in Ht. destruct Ht as ([sub a] & Hin & Ht).
    destruct (Htab sub a Hin) as (d & -> & N & T).
    unfold resources, query_data in Ht. cbn [fst snd] in Ht. rewrite N in Ht.
    apply in_map_iff in Ht. destruct Ht as (row & <- & Hrow).
    destruct (ranked_rows_cost d row T Hrow) as (x & Hx).
    exists sub, d, row, x. repeat split; auto.
    unfold resource_of. cbn [cost]. now rewrite Hx.
  - intros sub d row x Hin Hrow Hx Hfew.
    destruct (Htab sub _ Hin) as (d' & E & N & T). inversion E; subst d'.
    assert (Ht : In (resource_of sub row) sorted).
    { apply (Permutation_in _ Hperm). apply in_flat_map.
      exists (sub, Response d). split; [exact Hin|].
      unfold resources, query_data. cbn [fst snd]. rewrite N.
      now apply in_map. }
    assert (Hlen : length sorted <= 10).
    { rewrite <- (Permutation_length Hperm). now rewrite resources_length. }
    exists (resource_of sub row).
    rewrite firstn_all2 by exact Hlen.
    split; [exact Ht|]. split; [reflexivity|].
    unfold resource_of. cbn [cost]. rewrite Hx. cbn [two_decimals].
    split; [reflexivity|].
    split; intros ->; vm_compute; reflexivity.
  - intros s m e H. exists (hundredths_of m e).
    split; [simpl; now rewrite H|].
    split; [apply hundredths_nearest|reflexivity].
Qed.

End RankedPath.

Module PlansPath.
Import Number Js Effects Server Aggregation Loops FanOut Handlers Rounding Sorting.
Import CostsPath TopResourcesPath.

(** The records of a listing all go through [defender_plan]. *)
Lemma defender_plans_listed sub plans :
  forallb (fun plan => negb (nullish plan)) plans = true ->
  exists gs,
    map_option (defender_plan sub) plans = Some gs /\
    Forall2 (fun plan g =>
               g = if truthy (tier_of plan)
                   then [mkDefenderPlan (subscriptionId sub) (displayName sub)
                           (member_opt plan "name") (tier_of plan)]
                   else [])
      plans gs.
Proof.
  induction plans as [|plan plans IH]; simpl; intros H.
  - exists []. split; [reflexivity|constructor].
  - apply andb_true_iff in H. destruct H as [Hplan Hplans].
    destruct (IH Hplans) as (gs & -> & HF).
    assert (Hp : exists props, member plan "properties" = Some props /\
                               member_opt plan "properties" = props).
    { unfold member_opt. destruct plan; try discriminate; simpl; eauto. }
    destruct Hp as (props & Hprops & Hopt).
    assert (Hd : defender_plan sub plan =
                 Some (if truthy (tier_of plan)
                       then [mkDefenderPlan (subscriptionId sub) (displayName sub)
                               (member_opt plan "name") (tier_of plan)]
                       else [])).
    { unfold defender_plan, tier_of. rewrite Hprops, Hopt.
      now destruct (truthy (member_opt props "pricingTier")). }
    rewrite Hd. eexists. split; [reflexivity|].
    constructor; [reflexivity|exact HF].
Qed.

Lemma plans_data_cases d :
  plans_data (Response d) = d \/
  (plans_data (Response d) = VNull /\ nullish (member_opt d "value") = true).
Proof.
  unfold plans_data, member_opt.
  destruct (member d "value") as [v|]; [|now right].
  destruct (nullish v) eqn:N; [now right|now left].
Qed.

(** What a listing contributes. *)
Lemma plan_contribution_listing sub d :
  listing d = true ->
  exists g,
    plan_contribution (settle_plan (sub, Response d)) = Some g /\
    (forall p, In p g -> truthy (pricingTier p) = true) /\
    (forall plans plan,
        member_opt d "value" = VArray plans -> In plan plans ->
        truthy (tier_of plan) = true ->
        In (mkDefenderPlan (subscriptionId sub) (displayName sub)
              (member_opt plan "name") (tier_of plan)) g).
Proof.
  intros Hl. unfold plan_contribution, settle_plan.
  cbn [data subscription fst snd].
  destruct (plans_data_cases d) as [->|[-> Hnull]].
  - unfold listing in Hl.
    destruct (member_opt d "value") as [| |b|x|s|plans|fields] eqn:E; simpl in *;
      try (exists []; repeat split; [contradiction|discriminate]);
      try (apply negb_true_iff in Hl; rewrite Hl;
           exists []; repeat split; [contradiction|discriminate]);
      try discriminate.
    destruct (defender_plans_listed sub plans Hl) as (gs & -> & HF).
    simpl. exists (concat gs). split; [reflexivity|]. split.
    + intros p Hp. apply in_concat in Hp. destruct Hp as (g & Hg & Hp).
      clear E Hl. induction HF as [|plan g' plans gs Hg' HF IH]; [contradiction|].
      destruct Hg as [<-|Hg]; [|now apply IH].
      subst g'. destruct (truthy (tier_of plan)) eqn:T; [|contradiction].
      destruct Hp as [<-|[]]. exact T.
    + intros plans' plan Heq Hin T. inversion Heq; subst plans'.
      apply in_concat. clear E Hl Heq.
      induction HF as [|plan' g' plans gs Hg' HF IH]; [contradiction|].
      destruct Hin as [->|Hin].
      * exists g'. split; [now left|]. subst g'. rewrite T. now left.
      * destruct (IH Hin) as (g & Hg & Hp). exists g. split; [now right|exact Hp].
  - simpl. exists []. repeat split; [contradiction|].
    intros plans plan E. rewrite E in Hnull. discriminate.
Qed.

(** Every result contributes when the answered payloads are listings. *)
Lemma plan_contributions answers :
  (forall sub d, In (sub, Response d) answers -> listing d = true) ->
  exists groups,
    map_option plan_contribution (map settle_plan answers) = Some groups /\
    Forall2 (fun sr g => plan_contribution (settle_plan sr) = Some g)
      answers groups.
Proof.
  induction answers as [|[sub a] answers IH]; intros H; simpl.
  - exists []. split; [reflexivity|constructor].
  - destruct IH as (groups & -> & HF); [intros; eapply H; right; eauto|].
    assert (Hg : exists g, plan_contribution (settle_plan (sub, a)) = Some g).
    { destruct a as [d|].
      - destruct (@plan_contribution_listing sub d) as (g & Hg & _);
          [eapply H; left; reflexivity|]. eauto.
      - exists []. reflexivity. }
    destruct Hg as (g & Hg). rewrite Hg.
    exists (g :: groups). split; [reflexivity|]. constructor; auto.
Qed.

Lemma Forall2_In_l A B (R : A -> B -> Prop) l1 l2 x :
  Forall2 R l1 l2 -> In x l1 -> exists y, In y l2 /\ R x y.
Proof.
  induction 1 as [|a b l1 l2 Hab HF IH]; simpl; [contradiction|].
  intros [->|Hin].
  - exists b. auto.
  - destruct (IH Hin) as (y & Hy & Hr). exists y. auto.
Qed.

Lemma Forall2_In_r A B (R : A -> B -> Prop) l1 l2 y :
  Forall2 R l1 l2 -> In y l2 -> exists x, In x l1 /\ R x y.
Proof.
  induction 1 as [|a b l1 l2 Hab HF IH]; simpl; [contradiction|].
  intros [->|Hin].
  - exists a. auto.
  - destruct (IH Hin) as (x & Hx & Hr). exists x. auto.
Qed.

(** C5: on [/api/plans], when the listed ids can be printed, a plan record
    without a pricing tier is left out of the output, and a subscription
    whose plan fetch fails is swallowed by [fetchDefenderPlans] (it
    resolves with [null]): the request still succeeds and the tiered
    records of the other subscriptions are all in the output. *)
Theorem plans_drop_untiered_and_tolerate_failures up tok subs w1 w2 :
  getAccessToken up world0 = (Return tok, w1) ->
  getSubscriptions tok up w1 = (Return subs, w2) ->
  printable_ids subs = true ->
  (forall sub d,
      In (sub, Response d) (fan_out up (calls w2) (plan_call tok) subs) ->
      listing d = true) ->
  exists plansData w,
    run api_plans up = (Return (mkResponse 200 (PlansBody plansData)), w) /\
    (forall p, In p plansData -> truthy (pricingTier p) = true) /\
    (forall sub plan,
        nullish plan = false -> truthy (tier_of plan) = false ->
        defender_plan sub plan = Some []) /\
    (forall sub d plans plan,
        In (sub, Response d) (fan_out up (calls w2) (plan_call tok) subs) ->
        member_opt d "value" = VArray plans -> In plan plans ->
        truthy (tier_of plan) = true ->
        In (mkDefenderPlan (subscriptionId sub) (displayName sub)
              (member_opt plan "name") (tier_of plan)) plansData) /\
    (forall id up' w',
        printable id = true ->
        up' (calls w') (GetPricings tok id) = Rejected ->
        fetchDefenderPlans tok id up' w' =
          (Return VNull, issued w' [GetPricings tok id])) /\
    (forall sub, plan_contribution (settle_plan (sub, Rejected)) = Some []).
Proof.
  intros Htok Hsubs Pids Hlist.
  pose proof (@getSubscriptions_printable _ _ _ _ _ Hsubs) as Ptok.
  destruct (plan_contributions _ Hlist) as (groups & Hgroups & HF).
  exists (concat groups). eexists.
  split; [eapply api_plans_ok; eauto|].
  split.
  { intros p Hp. apply in_concat in Hp. destruct Hp as (g & Hg & Hp).
    destruct (Forall2_In_r _ HF Hg) as ([sub a] & Hin & Hc).
    destruct a as [d|].
    - destruct (@plan_contribution_listing sub d (Hlist _ _ Hin))
        as (g' & Hg' & Htier & _).
      rewrite Hc in Hg'. inversion Hg'; subst. auto.
    - simpl in Hc. inversion Hc; subst. contradiction. }
  split.
  { intros sub plan Hn T. unfold defender_plan, tier_of, member_opt in *.
    destruct plan; try discriminate; simpl in *; try rewrite T; reflexivity. }
  split.
  { intros sub d plans plan Hin Hv Hplan T.
    destruct (Forall2_In_l _ HF Hin) as (g & Hg & Hc).
    destruct (@plan_contribution_listing sub d (Hlist _ _ Hin))
      as (g' & Hg' & _ & Hall).
    rewrite Hc in Hg'. inversion Hg'; subst.
    apply in_concat. exists g'. split; [exact Hg|]. eapply Hall; eauto. }
  split; [|reflexivity].
  intros id up' w' Pid Hrej.
  rewrite fetchDefenderPlans_run by assumption. now rewrite Hrej.
Qed.

End PlansPath.

Module Traceability.
Import Number Js Effects Server Aggregation Loops FanOut Handlers Rounding Sorting.
Import CostsPath TopResourcesPath PlansPath.














End Traceability.

Module Witnesses.
Import Number Js Effects Server Aggregation Expected Sample Scenarios.
Import CostsPath TopResourcesPath RowTransform RankedPath PlansPath Traceability.

(** The sample tenant answers with JSON. *)
Lemma azure_json h c d : azure h c = Response d -> from_json d = true.
Proof.
  destruct c; simpl;
    repeat match goal with
           | |- context [if ?b then _ else _] => destruct b
           end;
    intros H; inversion H; reflexivity.
Qed.

Lemma cents_json h c d : cents h c = Response d -> from_json d = true.
Proof.
  destruct c; simpl;
    repeat match goal with
           | |- context [if ?b then _ else _] => destruct b
           end;
    intros H; inversion H; reflexivity.
Qed.

(** The resource queries of the sample tenants are answered with tables. *)
Ltac tables :=
  let s := fresh "s" in let a := fresh "a" in let Hin := fresh "Hin" in
  intros s a Hin; vm_compute in Hin;
  repeat (destruct Hin as [Hin|Hin];
          [inversion Hin; eexists; split; [reflexivity|split; reflexivity]|]);
  contradiction.

Lemma costs_row_count_witness :
  exists rows w,
    run (api_costs january) azure =
      (Return (mkResponse 200 (CostsBody rows cost_columns listed)), w) /\
    length rows = 2 /\
    map about (console w) = [Some (VString "s2")].
Proof.
  destruct (@costs_row_count_sums_successful january azure start_date end_date
              token listed with_token with_subscriptions)
    as (rows & groups & w & Hrun & _ & _ & _ & _ & _ & Hlen & Hlog);
    try reflexivity.
  - intros r Hin _. vm_compute in Hin.
    repeat (destruct Hin as [<-|Hin]; [reflexivity|]). contradiction.
  - exists rows, w. split; [exact Hrun|]. split; [exact Hlen|exact Hlog].
Defined.

Lemma costs_rows_flattened_witness :
  exists w,
    run (api_costs january) azure =
      (Return
         (mkResponse 200
            (CostsBody
               [[decimal 5 1; VString "Microsoft Defender for Cloud";
                 VString "Servers"; VString "s1"; VString "rg1"; VString "One"];
                [decimal 7 2; VString "Microsoft Defender for Cloud";
                 VString "SQL"; VString "s1"; VString "Unknown"; VString "One"]]
               schema listed)), w).
Proof.
  destruct (@costs_rows_flattened_and_returned january azure start_date end_date
              token listed with_token with_subscriptions)
    as (_ & Hrun & _);
    try reflexivity.
  - intros sub d Hin _. vm_compute in Hin.
    repeat (destruct Hin as [Heq|Hin];
            [first [discriminate Heq | now inversion Heq]|]).
    contradiction.
  - exact Hrun.
Defined.


Lemma top_resources_sorted_witness :
  exists sorted,
    fst (run (api_top_resources january) azure) =
      Return (mkResponse 200 (TopResourcesBody (firstn 10 sorted))) /\
    descending_by_cost sorted /\
    length sorted = 3.
Proof.
  destruct (proj2 (@top_resources_at_most_ten_sorted_descending azure azure_json)
              january start_date end_date token listed
              with_token with_subscriptions
              eq_refl eq_refl eq_refl eq_refl eq_refl eq_refl eq_refl)
    as (sorted & Hrun & Hdesc & Hperm).
  - tables.
  - exists sorted. split; [exact Hrun|]. split; [exact Hdesc|].
    now rewrite <- (Permutation_length Hperm).
Defined.

Lemma top_resources_failure_witness :
  exists w,
    run (api_top_resources january) azure_flaky =
      (Return (mkResponse 500 (ErrorBody "Failed to fetch top resources")), w) /\
    length (calls w) = 5.
Proof.
  destruct (@top_resources_query_failure_fails_request january azure_flaky
              start_date end_date token listed with_token with_subscriptions
              (mkSubscription (VString "s2") (VString "Two")) Rejected)
    as (w & Hrun & Hcalls);
    try reflexivity.
  - right. left. reflexivity.
  - exists w. split; [exact Hrun|]. now rewrite (Hcalls eq_refl).
Defined.

Lemma plans_witness :
  exists plansData w,
    run api_plans azure = (Return (mkResponse 200 (PlansBody plansData)), w) /\
    In (mkDefenderPlan (VString "s1") (VString "One")
          (VString "VirtualMachines") (VString "Standard")) plansData.
Proof.
  destruct (@plans_drop_untiered_and_tolerate_failures azure token listed
              with_token with_subscriptions)
    as (plansData & w & Hrun & _ & _ & Hall & _);
    try reflexivity.
  - intros sub d Hin. vm_compute in Hin.
    repeat (destruct Hin as [Heq|Hin];
            [first [discriminate Heq | now inversion Heq]|]).
    contradiction.
  - exists plansData, w. split; [exact Hrun|].
    apply (Hall (mkSubscription (VString "s1") (VString "One")) pricings_s1
             [VObject [("name", VString "VirtualMachines");
                       ("properties", VObject [("pricingTier", VString "Standard")])];
              VObject [("name", VString "SqlServers")]]
             (VObject [("name", VString "VirtualMachines");
                       ("properties", VObject [("pricingTier", VString "Standard")])])).
    + left. reflexivity.
    + reflexivity.
    + left. reflexivity.
    + reflexivity.
Defined.


Lemma cost_rounding_witness :
  exists rows,
    fst (run (api_top_resources january) cents) =
      Return (mkResponse 200 (TopResourcesBody rows)) /\
    (exists t, In t rows /\ resourceId t = VString "/sub/rg/a" /\
               cost t = nearest false 1235 100) /\
    (exists t, In t rows /\ resourceId t = VString "/sub/rg/b" /\
               cost t = nearest false 1234 100).
Proof.
  destruct (@cost_is_rounded_to_two_decimals january cents start_date end_date
              token listed with_token with_subscriptions cents_json
              eq_refl eq_refl eq_refl eq_refl eq_refl eq_refl eq_refl)
    as (rows & Hrun & _ & Hall & _).
  - tables.
  - exists rows. split; [exact Hrun|]. split.
    + destruct (Hall (mkSubscription (VString "s1") (VString "One")) cents_rows
                  (VArray [decimal 12345 1000; VString "/sub/rg/a"; VString "Servers"])
                  (nearest false 12345 1000))
        as (t & Ht & Hid & _ & H35 & _);
        [left; reflexivity|left; reflexivity|reflexivity|vm_compute; lia|].
      exists t. split; [exact Ht|]. split; [exact Hid|exact (H35 eq_refl)].
    + destruct (Hall (mkSubscription (VString "s1") (VString "One")) cents_rows
                  (VArray [decimal 12344 1000; VString "/sub/rg/b"; VString "Servers"])
                  (nearest false 12344 1000))
        as (t & Ht & Hid & _ & _ & H34);
        [left; reflexivity|right; left; reflexivity|reflexivity|vm_compute; lia|].
      exists t. split; [exact Ht|]. split; [exact Hid|exact (H34 eq_refl)].
Defined.



End Witnesses.

Module HandlerCases.

Import Number Js Effects Server Aggregation Behaviour.
Import Loops FanOut Handlers.
Local Open Scope js_scope.

Lemma getAccessToken_run up w :
  getAccessToken up w =
  (match token_of (up (calls w) PostToken) with
   | Some tok => Return tok
   | None => Throw (Error "Failed to fetch access token" None)
   end, issued w [PostToken]).
Proof.
  unfold getAccessToken, try_catch, bind, axios, token_of, issued.
  destruct (up _ _) as [d|]; [|reflexivity].
  now destruct (member d "access_token").
Qed.

Lemma getSubscriptions_run tok up w :
  printable tok = true ->
  getSubscriptions tok up w =
  (match listed_subscriptions (up (calls w) (GetSubscriptions tok)) with
   | Some subs => Return subs
   | None => Throw (Error "Failed to fetch subscriptions" None)
   end, issued w [GetSubscriptions tok]).
Proof.
  intros P.
  unfold getSubscriptions, try_catch, bind, axios, listed_subscriptions, issued,
    to_string.
  rewrite P. simpl.
  destruct (up _ _) as [d|]; [|reflexivity].
  destruct (member d "value") as [v|]; [|reflexivity]. simpl.
  destruct (array_elements v) as [items|]; [|reflexivity]. simpl.
  now destruct (map_option subscription_of items).
Qed.

(** With a token that cannot be interpolated the listing is not
    requested. *)
Lemma getSubscriptions_unauthorized tok up w :
  printable tok = false ->
  getSubscriptions tok up w =
  (Throw (Error "Failed to fetch subscriptions" None), w).
Proof.
  intros P. unfold getSubscriptions, try_catch, bind, to_string.
  now rewrite P.
Qed.

(** The body of the request either cannot be destructured, lacks a date, or
    has both. *)
Lemma body_cases req :
  nullish req = true \/
  (nullish req = false /\
   (truthy (member_opt req "startDate") = false \/
    truthy (member_opt req "endDate") = false)) \/
  (exists sd ed, dated req sd ed).
Proof.
  unfold dated, member_opt.
  destruct (nullish req) eqn:N; [now left|right].
  assert (exists sd ed, member req "startDate" = Some sd /\
                        member req "endDate" = Some ed) as (sd & ed & Hsd & Hed).
  { destruct req; try discriminate; simpl; eauto. }
  rewrite Hsd, Hed.
  destruct (truthy sd) eqn:Tsd; [|left; split; auto].
  destruct (truthy ed) eqn:Ted; [|left; split; auto].
  right. exists sd, ed. auto.
Qed.

Lemma dated_not_nullish req sd ed : dated req sd ed -> nullish req = false.
Proof. intros (H & _). now destruct req. Qed.

Lemma legible_dates sd ed :
  legible sd ed = true -> printable sd = true /\ printable ed = true.
Proof. intros H. now apply andb_true_iff in H. Qed.

Lemma prelude_cases up : prelude up.
Proof.
  destruct (token_of (up [] PostToken)) as [tok|] eqn:Htok;
    [|now apply TokenFailed].
  destruct (printable tok) eqn:P; [|now apply Unauthorized with tok].
  destruct (listed_subscriptions (up [PostToken] (GetSubscriptions tok)))
    as [subs|] eqn:Hsubs.
  - now apply Listed with tok subs.
  - now apply ListingFailed with tok.
Qed.

Lemma token_resolved up tok :
  token_of (up [] PostToken) = Some tok ->
  getAccessToken up world0 = (Return tok, mkWorld [PostToken] []).
Proof. intros H. rewrite getAccessToken_run. simpl. now rewrite H. Qed.

Lemma listing_resolved up tok subs :
  printable tok = true ->
  listed_subscriptions (up [PostToken] (GetSubscriptions tok)) = Some subs ->
  getSubscriptions tok up (mkWorld [PostToken] []) =
  (Return subs, mkWorld (preamble tok) []).
Proof.
  intros P H. rewrite getSubscriptions_run by exact P. simpl. now rewrite H.
Qed.

(** The start of [/api/costs] up to the token request. *)
Lemma api_costs_start req up sd ed :
  dated req sd ed -> legible sd ed = true ->
  run (api_costs req) up =
  try_catch
    (accessToken <- getAccessToken ;;
     subscriptions <- getSubscriptions accessToken ;;
     results <- promise_all (map (costPromise accessToken sd ed) subscriptions) ;;
     aggregatedRows <- forEach results costs_each [] ;;
     ret (mkResponse 200 (CostsBody aggregatedRows cost_columns subscriptions)))
    (fun e =>
       console_error "Error in /api/costs:" None e ;;;
       ret (mkResponse 500 (ErrorBody "Failed to fetch cost data")))
    up world0.
Proof.
  intros (Hsd & Hed & Tsd & Ted) L.
  destruct (legible_dates _ _ L) as [Psd Ped].
  unfold run, api_costs, try_catch. unfold bind at 1 2.
  rewrite Hsd, Hed. simpl. rewrite Tsd, Ted. simpl.
  unfold bind at 1. rewrite to_string_run, Psd.
  unfold bind at 1. rewrite to_string_run, Ped.
  reflexivity.
Qed.

Lemma api_top_start req up sd ed :
  dated req sd ed ->
  run (api_top_resources req) up =
  try_catch
    (accessToken <- getAccessToken ;;
     subscriptions <- getSubscriptions accessToken ;;
     results <- promise_all (map (resourcePromise accessToken sd ed) subscriptions) ;;
     topResources <- forEach results top_each [] ;;
     ret (mkResponse 200
            (TopResourcesBody
               (slice_0_10 (sort by_cost_descending topResources)))))
    (fun e =>
       console_error "Error in /api/top-resources:" None e ;;;
       ret (mkResponse 500 (ErrorBody "Failed to fetch top resources")))
    up world0.
Proof.
  intros (Hsd & Hed & Tsd & Ted).
  unfold run, api_top_resources, try_catch. unfold bind at 1 2.
  rewrite Hsd, Hed. simpl. rewrite Tsd, Ted. reflexivity.
Qed.

(** ** [/api/costs], every case *)

Lemma api_costs_unparsed req up :
  nullish req = true ->
  run (api_costs req) up =
  (Return costs_failed,
   mkWorld [] [ConsoleError "Error in /api/costs:" None TypeError]).
Proof. destruct req; try discriminate; reflexivity. Qed.

Lemma api_costs_undated req up :
  nullish req = false ->
  truthy (member_opt req "startDate") = false \/
  truthy (member_opt req "endDate") = false ->
  run (api_costs req) up = (Return bad_request, world0).
Proof.
  intros N H. unfold run, api_costs, try_catch, bind, member_opt in *.
  destruct (member req "startDate") as [sd|] eqn:Hsd; [|destruct req; discriminate].
  destruct (member req "endDate") as [ed|] eqn:Hed; [|destruct req; discriminate].
  simpl. destruct H as [-> | ->]; simpl; [reflexivity|].
  now rewrite orb_true_r.
Qed.

(** A date that cannot be interpolated into the log line of line 138. *)
Lemma api_costs_illegible req up sd ed :
  dated req sd ed -> legible sd ed = false ->
  run (api_costs req) up =
  (Return costs_failed,
   mkWorld [] [ConsoleError "Error in /api/costs:" None TypeError]).
Proof.
  intros (Hsd & Hed & Tsd & Ted) L.
  unfold run, api_costs, try_catch. unfold bind at 1 2.
  rewrite Hsd, Hed. simpl. rewrite Tsd, Ted. simpl.
  unfold bind at 1. rewrite to_string_run.
  unfold legible in L. destruct (printable sd); simpl in L.
  - unfold bind at 1. rewrite to_string_run, L. reflexivity.
  - reflexivity.
Qed.

Lemma api_costs_token_failed req up sd ed :
  dated req sd ed -> legible sd ed = true ->
  token_of (up [] PostToken) = None ->
  run (api_costs req) up =
  (Return costs_failed,
   mkWorld [PostToken]
     [ConsoleError "Error in /api/costs:" None
        (Error "Failed to fetch access token" None)]).
Proof.
  intros D L Htok. rewrite (api_costs_start up D L).
  unfold try_catch, bind.
  rewrite getAccessToken_run. simpl. now rewrite Htok.
Qed.

Lemma api_costs_unauthorized req up sd ed tok :
  dated req sd ed -> legible sd ed = true ->
  token_of (up [] PostToken) = Some tok ->
  printable tok = false ->
  run (api_costs req) up =
  (Return costs_failed,
   mkWorld [PostToken]
     [ConsoleError "Error in /api/costs:" None
        (Error "Failed to fetch subscriptions" None)]).
Proof.
  intros D L Htok P. rewrite (api_costs_start up D L).
  unfold try_catch, bind.
  rewrite (token_resolved _ Htok).
  now rewrite getSubscriptions_unauthorized.
Qed.

Lemma api_costs_listing_failed req up sd ed tok :
  dated req sd ed -> legible sd ed = true ->
  token_of (up [] PostToken) = Some tok ->
  printable tok = true ->
  listed_subscriptions (up [PostToken] (GetSubscriptions tok)) = None ->
  run (api_costs req) up =
  (Return costs_failed,
   mkWorld (preamble tok)
     [ConsoleError "Error in /api/costs:" None
        (Error "Failed to fetch subscriptions" None)]).
Proof.
  intros D L Htok P Hsubs. rewrite (api_costs_start up D L).
  unfold try_catch, bind.
  rewrite (token_resolved _ Htok).
  rewrite getSubscriptions_run by exact P. simpl. now rewrite Hsubs.
Qed.

(** A listed id that cannot be interpolated. *)
Lemma api_costs_unsent req up sd ed tok subs :
  dated req sd ed -> legible sd ed = true ->
  token_of (up [] PostToken) = Some tok ->
  printable tok = true ->
  listed_subscriptions (up [PostToken] (GetSubscriptions tok)) = Some subs ->
  printable_ids subs = false ->
  exists e w,
    run (api_costs req) up =
    (Return costs_failed,
     logged w [ConsoleError "Error in /api/costs:" None e]).
Proof.
  intros D L Htok P Hsubs Pids. rewrite (api_costs_start up D L).
  unfold try_catch. unfold bind at 1.
  rewrite (token_resolved _ Htok). unfold bind at 1.
  rewrite (@listing_resolved up tok subs P Hsubs).
  destruct (costs_unsent_throws tok sd ed subs up (mkWorld (preamble tok) []) Pids)
    as (e & w' & Hthrow).
  unfold bind in *.
  destruct (promise_all _ up _) as [[results|e'] w3].
  - rewrite Hthrow. now exists e, w'.
  - now exists e', w3.
Qed.

Lemma forEach_costs_world results : forall acc up w,
  calls (snd (forEach results costs_each acc up w)) = calls w.
Proof.
  induction results as [|r results IH]; intros acc up w; simpl; [reflexivity|].
  unfold bind. rewrite costs_each_run.
  destruct (cost_contribution r); [|reflexivity].
  now rewrite IH.
Qed.

Lemma api_costs_merge_failed req up sd ed tok subs :
  dated req sd ed -> legible sd ed = true ->
  token_of (up [] PostToken) = Some tok ->
  printable tok = true ->
  listed_subscriptions (up [PostToken] (GetSubscriptions tok)) = Some subs ->
  printable_ids subs = true ->
  map_option cost_contribution (cost_results up (preamble tok) tok sd ed subs)
    = None ->
  exists lines,
    run (api_costs req) up =
    (Return costs_failed,
     mkWorld (preamble tok ++ map (cost_call tok sd ed) subs)
       (lines ++ [ConsoleError "Error in /api/costs:" None TypeError])).
Proof.
  intros D L Htok P Hsubs Pids Hnone. rewrite (api_costs_start up D L).
  unfold try_catch, bind.
  rewrite (token_resolved _ Htok), (@listing_resolved up tok subs P Hsubs).
  rewrite (promise_all_settled _ (cost_call tok sd ed) settle_cost subs)
    by (intros; apply costPromise_run; [eapply printable_ids_In; eauto|assumption]).
  rewrite forEach_costs.
  change (calls (mkWorld (preamble tok) [])) with (preamble tok).
  fold (cost_results up (preamble tok) tok sd ed subs). rewrite Hnone.
  simpl. unfold console_error.
  match goal with
  | |- context [snd ?x] => set (after := snd x)
  end.
  assert (Hcalls : calls after = preamble tok ++ map (cost_call tok sd ed) subs).
  { unfold after. now rewrite forEach_costs_world. }
  destruct after as [cs lines]. simpl in Hcalls. subst cs.
  exists lines. reflexivity.
Qed.

Lemma api_costs_merged req up sd ed tok subs groups :
  dated req sd ed -> legible sd ed = true ->
  token_of (up [] PostToken) = Some tok ->
  printable tok = true ->
  listed_subscriptions (up [PostToken] (GetSubscriptions tok)) = Some subs ->
  printable_ids subs = true ->
  map_option cost_contribution (cost_results up (preamble tok) tok sd ed subs)
    = Some groups ->
  run (api_costs req) up =
  (Return (mkResponse 200 (CostsBody (concat groups) cost_columns subs)),
   mkWorld (preamble tok ++ map (cost_call tok sd ed) subs)
     (flat_map failure_log (cost_results up (preamble tok) tok sd ed subs))).
Proof.
  intros D L Htok P Hsubs Pids Hgroups.
  destruct (legible_dates _ _ L) as [Psd Ped].
  destruct D as (Hsd & Hed & Tsd & Ted).
  exact (@api_costs_ok req up sd ed tok subs _ _ groups Hsd Hed Tsd Ted Psd Ped
           (token_resolved _ Htok) (@listing_resolved up tok subs P Hsubs) Pids Hgroups).
Qed.

(** ** [/api/top-resources], every case *)

Lemma api_top_unparsed req up :
  nullish req = true ->
  run (api_top_resources req) up =
  (Return top_resources_failed,
   mkWorld [] [ConsoleError "Error in /api/top-resources:" None TypeError]).
Proof. destruct req; try discriminate; reflexivity. Qed.

Lemma api_top_undated req up :
  nullish req = false ->
  truthy (member_opt req "startDate") = false \/
  truthy (member_opt req "endDate") = false ->
  run (api_top_resources req) up = (Return bad_request, world0).
Proof.
  intros N H. unfold run, api_top_resources, try_catch, bind, member_opt in *.
  destruct (member req "startDate") as [sd|] eqn:Hsd; [|destruct req; discriminate].
  destruct (member req "endDate") as [ed|] eqn:Hed; [|destruct req; discriminate].
  simpl. destruct H as [-> | ->]; simpl; [reflexivity|].
  now rewrite orb_true_r.
Qed.

Lemma api_top_token_failed req up sd ed :
  dated req sd ed ->
  token_of (up [] PostToken) = None ->
  run (api_top_resources req) up =
  (Return top_resources_failed,
   mkWorld [PostToken]
     [ConsoleError "Error in /api/top-resources:" None
        (Error "Failed to fetch access token" None)]).
Proof.
  intros D Htok. rewrite (api_top_start up D).
  unfold try_catch, bind.
  rewrite getAccessToken_run. simpl. now rewrite Htok.
Qed.

Lemma api_top_unauthorized req up sd ed tok :
  dated req sd ed ->
  token_of (up [] PostToken) = Some tok ->
  printable tok = false ->
  run (api_top_resources req) up =
  (Return top_resources_failed,
   mkWorld [PostToken]
     [ConsoleError "Error in /api/top-resources:" None
        (Error "Failed to fetch subscriptions" None)]).
Proof.
  intros D Htok P. rewrite (api_top_start up D).
  unfold try_catch, bind.
  rewrite (token_resolved _ Htok).
  now rewrite getSubscriptions_unauthorized.
Qed.

Lemma api_top_listing_failed req up sd ed tok :
  dated req sd ed ->
  token_of (up [] PostToken) = Some tok ->
  printable tok = true ->
  listed_subscriptions (up [PostToken] (GetSubscriptions tok)) = None ->
  run (api_top_resources req) up =
  (Return top_resources_failed,
   mkWorld (preamble tok)
     [ConsoleError "Error in /api/top-resources:" None
        (Error "Failed to fetch subscriptions" None)]).
Proof.
  intros D Htok P Hsubs. rewrite (api_top_start up D).
  unfold try_catch, bind.
  rewrite (token_resolved _ Htok).
  rewrite getSubscriptions_run by exact P. simpl. now rewrite Hsubs.
Qed.

(** A rejected query, or a listed id that cannot be interpolated. *)
Lemma api_top_query_failed req up sd ed tok subs :
  dated req sd ed ->
  token_of (up [] PostToken) = Some tok ->
  printable tok = true ->
  listed_subscriptions (up [PostToken] (GetSubscriptions tok)) = Some subs ->
  resource_results up (preamble tok) tok sd ed subs = None \/
  printable_ids subs = false ->
  exists e w,
    run (api_top_resources req) up =
    (Return top_resources_failed,
     logged w [ConsoleError "Error in /api/top-resources:" None e]) /\
    (printable_ids subs = true ->
     w = mkWorld (preamble tok ++ map (resource_call tok sd ed) subs) []).
Proof.
  intros (Hsd & Hed & Tsd & Ted) Htok P Hsubs Hres.
  exact (@api_top_resources_rejected req up sd ed tok subs _ _
           Hsd Hed Tsd Ted
           (token_resolved _ Htok) (@listing_resolved up tok subs P Hsubs) Hres).
Qed.

Lemma api_top_merge_failed req up sd ed tok subs results :
  dated req sd ed ->
  token_of (up [] PostToken) = Some tok ->
  printable tok = true ->
  listed_subscriptions (up [PostToken] (GetSubscriptions tok)) = Some subs ->
  printable_ids subs = true ->
  resource_results up (preamble tok) tok sd ed subs = Some results ->
  map_option top_contribution results = None ->
  run (api_top_resources req) up =
  (Return top_resources_failed,
   mkWorld (preamble tok ++ map (resource_call tok sd ed) subs)
     [ConsoleError "Error in /api/top-resources:" None TypeError]).
Proof.
  intros D Htok P Hsubs Pids Hres Hnone. rewrite (api_top_start up D).
  unfold try_catch, bind.
  rewrite (token_resolved _ Htok), (@listing_resolved up tok subs P Hsubs).
  destruct (@promise_all_resources tok sd ed subs up (mkWorld (preamble tok) [])
              P Pids) as [Hw Hr].
  change (calls (mkWorld (preamble tok) [])) with (preamble tok) in Hr.
  rewrite Hres in Hr. rewrite Hw, Hr.
  rewrite (forEach_merge top_each top_contribution top_each_run).
  rewrite Hnone. reflexivity.
Qed.

Lemma api_top_merged req up sd ed tok subs results groups :
  dated req sd ed ->
  token_of (up [] PostToken) = Some tok ->
  printable tok = true ->
  listed_subscriptions (up [PostToken] (GetSubscriptions tok)) = Some subs ->
  printable_ids subs = true ->
  resource_results up (preamble tok) tok sd ed subs = Some results ->
  map_option top_contribution results = Some groups ->
  run (api_top_resources req) up =
  (Return (mkResponse 200
             (TopResourcesBody
                (slice_0_10 (sort by_cost_descending (concat groups))))),
   mkWorld (preamble tok ++ map (resource_call tok sd ed) subs) []).
Proof.
  intros (Hsd & Hed & Tsd & Ted) Htok P Hsubs Pids Hres Hgroups.
  exact (@api_top_resources_ok req up sd ed tok subs _ _ results groups
           Hsd Hed Tsd Ted
           (token_resolved _ Htok) (@listing_resolved up tok subs P Hsubs)
           Pids Hres Hgroups).
Qed.

(** ** [/api/plans], every case *)

Lemma api_plans_token_failed up :
  token_of (up [] PostToken) = None ->
  run api_plans up =
  (Return plans_failed,
   mkWorld [PostToken]
     [ConsoleError "Error in /api/plans:" None
        (Error "Failed to fetch access token" None)]).
Proof.
  intros Htok. unfold run, api_plans, try_catch, bind.
  rewrite getAccessToken_run. simpl. now rewrite Htok.
Qed.

Lemma api_plans_unauthorized up tok :
  token_of (up [] PostToken) = Some tok ->
  printable tok = false ->
  run api_plans up =
  (Return plans_failed,
   mkWorld [PostToken]
     [ConsoleError "Error in /api/plans:" None
        (Error "Failed to fetch subscriptions" None)]).
Proof.
  intros Htok P. unfold run, api_plans, try_catch, bind.
  rewrite (token_resolved _ Htok).
  now rewrite getSubscriptions_unauthorized.
Qed.

Lemma api_plans_listing_failed up tok :
  token_of (up [] PostToken) = Some tok ->
  printable tok = true ->
  listed_subscriptions (up [PostToken] (GetSubscriptions tok)) = None ->
  run api_plans up =
  (Return plans_failed,
   mkWorld (preamble tok)
     [ConsoleError "Error in /api/plans:" None
        (Error "Failed to fetch subscriptions" None)]).
Proof.
  intros Htok P Hsubs. unfold run, api_plans, try_catch, bind.
  rewrite (token_resolved _ Htok).
  rewrite getSubscriptions_run by exact P. simpl. now rewrite Hsubs.
Qed.

(** A listed id that cannot be interpolated. *)
Lemma api_plans_unsent up tok subs :
  token_of (up [] PostToken) = Some tok ->
  printable tok = true ->
  listed_subscriptions (up [PostToken] (GetSubscriptions tok)) = Some subs ->
  printable_ids subs = false ->
  exists e w,
    run api_plans up =
    (Return plans_failed,
     logged w [ConsoleError "Error in /api/plans:" None e]) /\
    exists batch, calls w = preamble tok ++ batch.
Proof.
  intros Htok P Hsubs Pids. unfold run, api_plans, try_catch, bind.
  rewrite (token_resolved _ Htok), (@listing_resolved up tok subs P Hsubs).
  destruct (promise_all_issued (map (planPromise tok) subs) up)
    with (w := mkWorld (preamble tok) []) as (batch & Hbatch).
  { intros p Hp w. apply in_map_iff in Hp. destruct Hp as (s & <- & _).
    now apply planPromise_issued. }
  destruct (plans_unsent_throws tok subs up (mkWorld (preamble tok) []) Pids)
    as (e & w' & Hthrow).
  rewrite Hthrow in *. simpl in Hbatch. subst w'.
  exists e. eexists. split; [reflexivity|]. now exists batch.
Qed.

Lemma api_plans_merge_failed up tok subs :
  token_of (up [] PostToken) = Some tok ->
  printable tok = true ->
  listed_subscriptions (up [PostToken] (GetSubscriptions tok)) = Some subs ->
  printable_ids subs = true ->
  map_option plan_contribution (plan_results up (preamble tok) tok subs) = None ->
  run api_plans up =
  (Return plans_failed,
   mkWorld (preamble tok ++ map (plan_call tok) subs)
     [ConsoleError "Error in /api/plans:" None TypeError]).
Proof.
  intros Htok P Hsubs Pids Hnone. unfold run, api_plans, try_catch, bind.
  rewrite (token_resolved _ Htok), (@listing_resolved up tok subs P Hsubs).
  rewrite (promise_all_settled _ (plan_call tok) settle_plan subs)
    by (intros; apply planPromise_run; [eapply printable_ids_In; eauto|assumption]).
  rewrite (forEach_merge plans_each plan_contribution plans_each_run).
  change (calls (mkWorld (preamble tok) [])) with (preamble tok).
  fold (plan_results up (preamble tok) tok subs). rewrite Hnone. reflexivity.
Qed.

Lemma api_plans_merged up tok subs groups :
  token_of (up [] PostToken) = Some tok ->
  printable tok = true ->
  listed_subscriptions (up [PostToken] (GetSubscriptions tok)) = Some subs ->
  printable_ids subs = true ->
  map_option plan_contribution (plan_results up (preamble tok) tok subs)
    = Some groups ->
  run api_plans up =
  (Return (mkResponse 200 (PlansBody (concat groups))),
   mkWorld (preamble tok ++ map (plan_call tok) subs) []).
Proof.
  intros Htok P Hsubs Pids Hgroups.
  exact (@api_plans_ok up tok subs _ _ groups
           (token_resolved _ Htok) (@listing_resolved up tok subs P Hsubs)
           Pids Hgroups).
Qed.

End HandlerCases.

Module Answers.

Import Number Js Effects Server Aggregation Behaviour.
Import Loops FanOut Handlers HandlerCases.

(** Run [/api/costs] through each of its cases. *)
Ltac costs_cases req up :=
  let N := fresh "N" in let H := fresh "H" in
  let sd := fresh "sd" in let ed := fresh "ed" in let D := fresh "D" in
  let L := fresh "L" in let P := fresh "P" in let Pids := fresh "Pids" in
  let tok := fresh "tok" in let subs := fresh "subs" in
  let Ht := fresh "Ht" in let Hl := fresh "Hl" in
  let groups := fresh "groups" in let G := fresh "G" in
  let lines := fresh "lines" in
  let e := fresh "e" in let w0 := fresh "w0" in
  destruct (body_cases req) as [N | [[N H] | (sd & ed & D)]];
  [ rewrite (@api_costs_unparsed req up N)
  | rewrite (@api_costs_undated req up N H)
  | destruct (legible sd ed) eqn:L;
    [ destruct (prelude_cases up)
        as [Ht | tok Ht P | tok Ht P Hl | tok subs Ht P Hl];
      [ rewrite (@api_costs_token_failed req up sd ed D L Ht)
      | rewrite (@api_costs_unauthorized req up sd ed tok D L Ht P)
      | rewrite (@api_costs_listing_failed req up sd ed tok D L Ht P Hl)
      | destruct (printable_ids subs) eqn:Pids;
        [ destruct (map_option cost_contribution
                      (cost_results up (preamble tok) tok sd ed subs))
            as [groups|] eqn:G;
          [ rewrite (@api_costs_merged req up sd ed tok subs groups
                       D L Ht P Hl Pids G)
          | destruct (@api_costs_merge_failed req up sd ed tok subs
                        D L Ht P Hl Pids G) as [lines ->] ]
        | destruct (@api_costs_unsent req up sd ed tok subs D L Ht P Hl Pids)
            as (e & w0 & ->) ] ]
    | rewrite (@api_costs_illegible req up sd ed D L) ] ].

Ltac top_cases req up :=
  let N := fresh "N" in let H := fresh "H" in
  let sd := fresh "sd" in let ed := fresh "ed" in let D := fresh "D" in
  let P := fresh "P" in let Pids := fresh "Pids" in
  let tok := fresh "tok" in let subs := fresh "subs" in
  let Ht := fresh "Ht" in let Hl := fresh "Hl" in
  let results := fresh "results" in let R := fresh "R" in
  let groups := fresh "groups" in let G := fresh "G" in
  let e := fresh "e" in let w0 := fresh "w0" in let Hw := fresh "Hw" in
  destruct (body_cases req) as [N | [[N H] | (sd & ed & D)]];
  [ rewrite (@api_top_unparsed req up N)
  | rewrite (@api_top_undated req up N H)
  | destruct (prelude_cases up)
      as [Ht | tok Ht P | tok Ht P Hl | tok subs Ht P Hl];
    [ rewrite (@api_top_token_failed req up sd ed D Ht)
    | rewrite (@api_top_unauthorized req up sd ed tok D Ht P)
    | rewrite (@api_top_listing_failed req up sd ed tok D Ht P Hl)
    | destruct (printable_ids subs) eqn:Pids;
      [ destruct (resource_results up (preamble tok) tok sd ed subs)
          as [results|] eqn:R;
        [ destruct (map_option top_contribution results) as [groups|] eqn:G;
          [ rewrite (@api_top_merged req up sd ed tok subs results groups
                       D Ht P Hl Pids R G)
          | rewrite (@api_top_merge_failed req up sd ed tok subs results
                       D Ht P Hl Pids R G) ]
        | destruct (@api_top_query_failed req up sd ed tok subs D Ht P Hl
                      (or_introl R)) as (e & w0 & -> & Hw) ]
      | destruct (@api_top_query_failed req up sd ed tok subs D Ht P Hl
                    (or_intror Pids)) as (e & w0 & -> & Hw) ] ] ].

Ltac plans_cases up :=
  let P := fresh "P" in let Pids := fresh "Pids" in
  let tok := fresh "tok" in let subs := fresh "subs" in
  let Ht := fresh "Ht" in let Hl := fresh "Hl" in
  let groups := fresh "groups" in let G := fresh "G" in
  let e := fresh "e" in let w0 := fresh "w0" in
  destruct (prelude_cases up)
    as [Ht | tok Ht P | tok Ht P Hl | tok subs Ht P Hl];
  [ rewrite (@api_plans_token_failed up Ht)
  | rewrite (@api_plans_unauthorized up tok Ht P)
  | rewrite (@api_plans_listing_failed up tok Ht P Hl)
  | destruct (printable_ids subs) eqn:Pids;
    [ destruct (map_option plan_contribution
                  (plan_results up (preamble tok) tok subs))
        as [groups|] eqn:G;
      [ rewrite (@api_plans_merged up tok subs groups Ht P Hl Pids G)
      | rewrite (@api_plans_merge_failed up tok subs Ht P Hl Pids G) ]
    | destruct (@api_plans_unsent up tok subs Ht P Hl Pids)
        as (e & w0 & -> & _) ] ].

(** X1: The handlers always answer: no exception escapes them, and the answer
    is a 200 with the body of the path, the 400 for missing parameters
    (POST paths), or the 500 with the fixed message of the path. *)
Theorem handlers_always_answer req up :
  (exists resp w,
      run (api_costs req) up = (Return resp, w) /\
      (resp = bad_request \/ resp = costs_failed \/
       exists rows subs, resp = mkResponse 200 (CostsBody rows cost_columns subs))) /\
  (exists resp w,
      run (api_top_resources req) up = (Return resp, w) /\
      (resp = bad_request \/ resp = top_resources_failed \/
       exists rows, resp = mkResponse 200 (TopResourcesBody rows))) /\
  (exists resp w,
      run api_plans up = (Return resp, w) /\
      (resp = plans_failed \/
       exists plans, resp = mkResponse 200 (PlansBody plans))).
Proof.
  split; [|split].
  - costs_cases req up; eexists; eexists; (split; [reflexivity|]); eauto.
  - top_cases req up; eexists; eexists; (split; [reflexivity|]); eauto.
  - plans_cases up; eexists; eexists; (split; [reflexivity|]); eauto.
Qed.

(** X2: A 400 is only answered to a body that can be read and lacks a date
    (absent or falsy); it is the fixed "Missing required parameters" answer
    and nothing was requested upstream or logged. *)
Theorem bad_request_only_for_missing_dates req up resp w :
  run (api_costs req) up = (Return resp, w) \/
  run (api_top_resources req) up = (Return resp, w) ->
  status resp = 400 ->
  nullish req = false /\
  (truthy (member_opt req "startDate") = false \/
   truthy (member_opt req "endDate") = false) /\
  resp = bad_request /\ w = world0.
Proof.
  intros [Hrun|Hrun]; revert Hrun.
  - costs_cases req up; intros E; inversion E; subst; simpl;
      try discriminate; auto.
  - top_cases req up; intros E; inversion E; subst; simpl;
      try discriminate; auto.
Qed.

(** The answers of the token endpoint with which [getAccessToken] resolves:
    any payload but [null]; the token is its [access_token], [undefined]
    when the payload has none. *)
Lemma token_of_resolves answer tok :
  token_of answer = Some tok <->
  exists d, answer = Response d /\ nullish d = false /\
            tok = member_opt d "access_token".
Proof.
  unfold token_of, member_opt. split.
  - destruct answer as [d|]; [|discriminate]. intros H. exists d.
    rewrite H. destruct d; try discriminate; auto.
  - intros (d & -> & N & ->). destruct d; try discriminate; reflexivity.
Qed.

Lemma token_of_fails answer :
  token_of answer = None <->
  (forall d, answer = Response d -> nullish d = true).
Proof.
  unfold token_of. split.
  - intros H d ->. destruct d; try discriminate; reflexivity.
  - destruct answer as [d|]; [|reflexivity]. intros H.
    specialize (H d eq_refl). destruct d; try discriminate; reflexivity.
Qed.

(** X3: When the token request is rejected, or answered with [null], every
    handler answers its 500 and the token request is the only request
    issued: the subscriptions are not listed and nothing is queried.  (On
    [/api/costs] the dates must be printable for its log line, or no
    request is issued at all.) *)
Theorem token_failure_stops_the_request req up sd ed :
  dated req sd ed ->
  (forall d, up [] PostToken = Response d -> nullish d = true) ->
  fst (run (api_costs req) up) = Return costs_failed /\
  (legible sd ed = true -> calls (snd (run (api_costs req) up)) = [PostToken]) /\
  (legible sd ed = false -> calls (snd (run (api_costs req) up)) = []) /\
  fst (run (api_top_resources req) up) = Return top_resources_failed /\
  calls (snd (run (api_top_resources req) up)) = [PostToken] /\
  fst (run api_plans up) = Return plans_failed /\
  calls (snd (run api_plans up)) = [PostToken].
Proof.
  intros D Hfail. apply token_of_fails in Hfail.
  rewrite (api_top_token_failed up D Hfail), (api_plans_token_failed up Hfail).
  destruct (legible sd ed) eqn:L.
  - rewrite (api_costs_token_failed up D L Hfail).
    repeat split; try reflexivity; discriminate.
  - rewrite (api_costs_illegible up D L).
    repeat split; try reflexivity; discriminate.
Qed.

(** X4: When the subscription listing fails, every handler answers its 500
    after exactly two requests, the token request and the listing: no
    per-subscription query is issued.  With a token that cannot be printed
    into the header, the listing itself is not requested.  (On
    [/api/costs] the dates must be printable for its log line.) *)
Theorem listing_failure_stops_the_request req up sd ed tok :
  dated req sd ed ->
  token_of (up [] PostToken) = Some tok ->
  (printable tok = true ->
   listed_subscriptions (up [PostToken] (GetSubscriptions tok)) = None ->
   (legible sd ed = true ->
    fst (run (api_costs req) up) = Return costs_failed /\
    calls (snd (run (api_costs req) up)) = [PostToken; GetSubscriptions tok]) /\
   fst (run (api_top_resources req) up) = Return top_resources_failed /\
   calls (snd (run (api_top_resources req) up)) = [PostToken; GetSubscriptions tok] /\
   fst (run api_plans up) = Return plans_failed /\
   calls (snd (run api_plans up)) = [PostToken; GetSubscriptions tok]) /\
  (printable tok = false ->
   (legible sd ed = true ->
    fst (run (api_costs req) up) = Return costs_failed /\
    calls (snd (run (api_costs req) up)) = [PostToken]) /\
   fst (run (api_top_resources req) up) = Return top_resources_failed /\
   calls (snd (run (api_top_resources req) up)) = [PostToken] /\
   fst (run api_plans up) = Return plans_failed /\
   calls (snd (run api_plans up)) = [PostToken]).
Proof.
  intros D Htok. split.
  - intros P Hfail.
    rewrite (api_top_listing_failed up D Htok P Hfail),
            (api_plans_listing_failed up Htok P Hfail).
    split; [|repeat split; reflexivity].
    intros L. now rewrite (api_costs_listing_failed up D L Htok P Hfail).
  - intros P.
    rewrite (api_top_unauthorized up D Htok P),
            (api_plans_unauthorized up Htok P).
    split; [|repeat split; reflexivity].
    intros L. now rewrite (api_costs_unauthorized up D L Htok P).
Qed.

(** X5: A 200 is answered after exactly one token request, one subscription
    listing with the token obtained, and one query per listed subscription,
    in list order, each carrying that token and, on the POST paths, the two
    dates of the body as they came. *)
Theorem successful_request_trace up :
  (forall req resp w,
      run (api_costs req) up = (Return resp, w) -> status resp = 200 ->
      exists tok sd ed subs,
        dated req sd ed /\
        token_of (up [] PostToken) = Some tok /\
        listed_subscriptions (up [PostToken] (GetSubscriptions tok)) = Some subs /\
        calls w =
          PostToken :: GetSubscriptions tok ::
          map (fun sub => PostCostQuery tok (subscriptionId sub) sd ed) subs) /\
  (forall req resp w,
      run (api_top_resources req) up = (Return resp, w) -> status resp = 200 ->
      exists tok sd ed subs,
        dated req sd ed /\
        token_of (up [] PostToken) = Some tok /\
        listed_subscriptions (up [PostToken] (GetSubscriptions tok)) = Some subs /\
        calls w =
          PostToken :: GetSubscriptions tok ::
          map (fun sub => PostResourceQuery tok (subscriptionId sub) sd ed) subs) /\
  (forall resp w,
      run api_plans up = (Return resp, w) -> status resp = 200 ->
      exists tok subs,
        token_of (up [] PostToken) = Some tok /\
        listed_subscriptions (up [PostToken] (GetSubscriptions tok)) = Some subs /\
        calls w =
          PostToken :: GetSubscriptions tok ::
          map (fun sub => GetPricings tok (subscriptionId sub)) subs).
Proof.
  split; [|split].
  - intros req resp w. costs_cases req up; intros E; inversion E; subst;
      simpl; try discriminate. intros _.
    exists tok, sd, ed, subs. repeat split; auto; apply D.
  - intros req resp w. top_cases req up; intros E; inversion E; subst;
      simpl; try discriminate. intros _.
    exists tok, sd, ed, subs. repeat split; auto; apply D.
  - intros resp w. plans_cases up; intros E; inversion E; subst;
      simpl; try discriminate. intros _.
    exists tok, subs. repeat split; auto.
Qed.


End Answers.

Module Listing.

Import Number Js Effects Server Aggregation Behaviour.
Import Loops FanOut Handlers HandlerCases Answers.

Lemma subscription_of_decodes items :
  forallb (fun item => negb (nullish item)) items = true ->
  map_option subscription_of items = Some (map decode_subscription items).
Proof.
  induction items as [|item items IH]; simpl; [reflexivity|].
  intros H. apply andb_true_iff in H. destruct H as [Hitem Hitems].
  rewrite (IH Hitems). unfold subscription_of, decode_subscription, member_opt.
  destruct item; try discriminate; reflexivity.
Qed.

Lemma subscription_of_null items :
  forallb (fun item => negb (nullish item)) items = false ->
  map_option subscription_of items = None.
Proof.
  induction items as [|item items IH]; simpl; [discriminate|].
  intros H. apply andb_false_iff in H. destruct H as [Hitem|Hitems].
  - unfold subscription_of. destruct item; try discriminate; reflexivity.
  - rewrite (IH Hitems). now destruct (subscription_of item).
Qed.

Lemma decode_encode sub : decode_subscription (encode_subscription sub) = sub.
Proof. now destruct sub. Qed.

(** X7: With a token that can be printed into the header,
    [getSubscriptions] issues exactly one request, the listing, and
    resolves exactly when it is answered with a payload whose [value] is an
    array without [null] elements; it then returns one subscription per
    element, in order, made of the element's [subscriptionId] and
    [displayName] (other fields are dropped, a missing one is
    [undefined]), so that listing the encoded form of a list of
    subscriptions returns that list.  With a token that cannot be printed
    it throws without a request. *)
Theorem getSubscriptions_decodes_the_listing tok up w :
  (printable tok = true ->
   (forall subs,
       fst (getSubscriptions tok up w) = Return subs <->
       exists d items,
         up (calls w) (GetSubscriptions tok) = Response d /\
         member d "value" = Some (VArray items) /\
         forallb (fun item => negb (nullish item)) items = true /\
         subs = map decode_subscription items) /\
   snd (getSubscriptions tok up w) = issued w [GetSubscriptions tok]) /\
  (printable tok = false ->
   getSubscriptions tok up w =
     (Throw (Error "Failed to fetch subscriptions" None), w)) /\
  (forall subs, map decode_subscription (map encode_subscription subs) = subs).
Proof.
  split; [|split; [apply getSubscriptions_unauthorized|]].
  - intros P. rewrite getSubscriptions_run by exact P. simpl.
    split; [|reflexivity].
    intros subs. unfold listed_subscriptions. split.
    + destruct (up (calls w) (GetSubscriptions tok)) as [d|]; [|discriminate].
      destruct (member d "value") as [v|] eqn:Hv; [|discriminate].
      destruct v as [| | | | |items|]; try discriminate. simpl.
      destruct (forallb (fun item => negb (nullish item)) items) eqn:Hall.
      * rewrite (subscription_of_decodes _ Hall). intros H. inversion H.
        exists d, items. auto.
      * rewrite (subscription_of_null _ Hall). discriminate.
    + intros (d & items & -> & -> & Hall & ->). simpl.
      now rewrite (subscription_of_decodes _ Hall).
  - intros subs. rewrite map_map. rewrite <- (map_id subs) at 2.
    apply map_ext. apply decode_encode.
Qed.

(** X8: A token payload without [access_token] is not detected: the token is
    [undefined] and the subscriptions are then listed with it. *)
Theorem missing_access_token_goes_unnoticed up d :
  up [] PostToken = Response d ->
  nullish d = false ->
  member_opt d "access_token" = VUndefined ->
  getAccessToken up world0 = (Return VUndefined, mkWorld [PostToken] []) /\
  exists queries,
    calls (snd (run api_plans up)) =
    PostToken :: GetSubscriptions VUndefined :: queries.
Proof.
  intros Hup N Hmissing.
  assert (Htok : token_of (up [] PostToken) = Some VUndefined).
  { apply token_of_resolves. exists d. auto. }
  split; [now apply token_resolved|].
  assert (P : printable VUndefined = true) by reflexivity.
  destruct (listed_subscriptions (up [PostToken] (GetSubscriptions VUndefined)))
    as [subs|] eqn:Hl.
  - destruct (printable_ids subs) eqn:Pids.
    + destruct (map_option plan_contribution
                  (plan_results up (preamble VUndefined) VUndefined subs))
        as [groups|] eqn:G.
      * rewrite (api_plans_merged up Htok P Hl Pids G). simpl. eauto.
      * rewrite (api_plans_merge_failed up Htok P Hl Pids G). simpl. eauto.
    + destruct (api_plans_unsent up Htok P Hl Pids)
        as (e & w & -> & batch & Hbatch).
      simpl. rewrite Hbatch. simpl. eauto.
  - rewrite (api_plans_listing_failed up Htok P Hl). simpl. now exists [].
Qed.

End Listing.

Module Merging.

Import Number Js Effects Server Aggregation Behaviour.
Import Loops FanOut Handlers HandlerCases Answers.
Import CostsPath TopResourcesPath PlansPath Traceability.

(** ** Payloads that are not tables *)

Lemma cost_rows_not_iterable sub rows :
  forallb iterable rows = false -> map_option (cost_row sub) rows = None.
Proof.
  induction rows as [|row rows IH]; simpl; [discriminate|].
  intros H. apply andb_false_iff in H. destruct H as [Hrow|Hrows].
  - unfold cost_row. destruct row; try discriminate; reflexivity.
  - rewrite (IH Hrows). now destruct (cost_row sub row).
Qed.

Lemma cost_contribution_not_tabular sub d :
  nullish d = false -> tabular d = false ->
  cost_contribution (settle_cost (sub, Response d)) = None.
Proof.
  intros N T. unfold settle_cost, query_data. cbn [fst snd]. rewrite N.
  unfold cost_contribution, tabular, or_else in *. cbn [error data subscription].
  destruct (payload_rows d) as [| |b|x|s|rows|fields];
    cbn [truthy negb] in *; try discriminate;
    try (apply negb_false_iff in T; rewrite T; reflexivity);
    try reflexivity.
  cbn [array_elements]. now apply cost_rows_not_iterable.
Qed.

Lemma defender_plans_null sub plans :
  forallb (fun plan => negb (nullish plan)) plans = false ->
  map_option (defender_plan sub) plans = None.
Proof.
  induction plans as [|plan plans IH]; simpl; [discriminate|].
  intros H. apply andb_false_iff in H. destruct H as [Hplan|Hplans].
  - unfold defender_plan. destruct plan; try discriminate; reflexivity.
  - rewrite (IH Hplans). now destruct (defender_plan sub plan).
Qed.

Lemma plan_contribution_not_listing sub d :
  listing d = false ->
  plan_contribution (settle_plan (sub, Response d)) = None.
Proof.
  intros L. unfold listing in L.
  assert (Hd : plans_data (Response d) = d).
  { unfold plans_data, member_opt in *.
    destruct (member d "value") as [v|]; [|discriminate].
    destruct v; try discriminate; reflexivity. }
  unfold plan_contribution, settle_plan. cbn [data subscription fst snd].
  rewrite Hd.
  destruct (member_opt d "value") as [| |b|x|s|plans|fields];
    cbn [truthy negb] in *; try discriminate;
    try (apply negb_false_iff in L; rewrite L; reflexivity);
    try reflexivity.
  cbn [array_elements]. now rewrite (defender_plans_null sub plans L).
Qed.

(** Unless the merge succeeds, the request ends in the 500 of its path. *)
Lemma costs_fail_unless_merged req up sd ed tok subs :
  dated req sd ed ->
  token_of (up [] PostToken) = Some tok ->
  listed_subscriptions (up [PostToken] (GetSubscriptions tok)) = Some subs ->
  map_option cost_contribution (cost_results up (preamble tok) tok sd ed subs)
    = None ->
  fst (run (api_costs req) up) = Return costs_failed.
Proof.
  intros D Htok Hl G.
  destruct (legible sd ed) eqn:L;
    [|now rewrite (api_costs_illegible up D L)].
  destruct (printable tok) eqn:P;
    [|now rewrite (api_costs_unauthorized up D L Htok P)].
  destruct (printable_ids subs) eqn:Pids.
  - now destruct (api_costs_merge_failed up D L Htok P Hl Pids G) as [lines ->].
  - now destruct (api_costs_unsent up D L Htok P Hl Pids) as (e & w & ->).
Qed.

Lemma plans_fail_unless_merged up tok subs :
  token_of (up [] PostToken) = Some tok ->
  listed_subscriptions (up [PostToken] (GetSubscriptions tok)) = Some subs ->
  map_option plan_contribution (plan_results up (preamble tok) tok subs) = None ->
  fst (run api_plans up) = Return plans_failed.
Proof.
  intros Htok Hl G.
  destruct (printable tok) eqn:P;
    [|now rewrite (api_plans_unauthorized up Htok P)].
  destruct (printable_ids subs) eqn:Pids.
  - now rewrite (api_plans_merge_failed up Htok P Hl Pids G).
  - now destruct (api_plans_unsent up Htok P Hl Pids) as (e & w & -> & _).
Qed.

(** X9: The tolerance of [/api/costs] and [/api/plans] covers failed fetches
    only: one answered payload that is not a table of rows (its rows are
    not an array, or a row cannot be destructured), respectively not a
    list of plan records, makes the merge throw and the whole request is
    answered 500, whatever the other subscriptions returned. *)
Theorem malformed_payload_fails_the_request up tok subs sub d :
  token_of (up [] PostToken) = Some tok ->
  listed_subscriptions (up [PostToken] (GetSubscriptions tok)) = Some subs ->
  (forall req sd ed,
      dated req sd ed ->
      In (sub, Response d) (fan_out up (preamble tok) (cost_call tok sd ed) subs) ->
      nullish d = false -> tabular d = false ->
      fst (run (api_costs req) up) = Return costs_failed) /\
  (In (sub, Response d) (fan_out up (preamble tok) (plan_call tok) subs) ->
   listing d = false ->
   fst (run api_plans up) = Return plans_failed).
Proof.
  intros Htok Hl. split.
  - intros req sd ed D Hin N T.
    assert (G : map_option cost_contribution
                  (cost_results up (preamble tok) tok sd ed subs) = None).
    { apply map_option_None with (settle_cost (sub, Response d)).
      - unfold cost_results. now apply in_map.
      - now apply cost_contribution_not_tabular. }
    exact (costs_fail_unless_merged up D Htok Hl G).
  - intros Hin L.
    assert (G : map_option plan_contribution
                  (plan_results up (preamble tok) tok subs) = None).
    { apply map_option_None with (settle_plan (sub, Response d)).
      - unfold plan_results. now apply in_map.
      - now apply plan_contribution_not_listing. }
    exact (plans_fail_unless_merged up Htok Hl G).
Qed.

(** ** The rows of [/api/costs] *)

Lemma cost_row_length sub row out :
  cost_row sub row = Some out -> length out = 6.
Proof.
  unfold cost_row. destruct (iterate row); [|discriminate].
  intros H. now inversion H.
Qed.

Lemma cost_contribution_lengths r g :
  cost_contribution r = Some g -> Forall (fun out => length out = 6) g.
Proof.
  unfold cost_contribution. destruct (error r).
  - destruct (printable _); [|discriminate].
    intros H. inversion H. constructor.
  - destruct (array_elements _) as [rows|]; [|discriminate].
    intros H. apply Forall_forall. intros out Hout.
    destruct (@map_option_In _ _ _ _ _ _ H Hout) as (row & _ & Hrow).
    eapply cost_row_length; eauto.
Qed.

(** X10: Every row [/api/costs] returns has one cell per column of the schema
    it returns with them, six, also when the raw row was shorter or
    longer. *)
Theorem costs_rows_match_the_schema req up resp w rows columns subs :
  run (api_costs req) up = (Return resp, w) ->
  json resp = CostsBody rows columns subs ->
  length columns = 6 /\
  Forall (fun row => length row = length columns) rows.
Proof.
  costs_cases req up; intros E; inversion E; subst; simpl; try discriminate.
  intros J. inversion J; subst. split; [reflexivity|].
  apply Forall_forall. intros out Hout. apply in_concat in Hout.
  destruct Hout as (g & Hg & Hout).
  destruct (@map_option_In _ _ _ _ _ _ G Hg) as (r & _ & Hr).
  pose proof (cost_contribution_lengths _ Hr) as HF.
  rewrite Forall_forall in HF. now apply HF.
Qed.

(** ** No subscription *)

(** X11: When the credential, with a token that can be printed into the
    header, sees no subscription, [/api/top-resources] and [/api/plans]
    answer 200 with an empty array after the token request and the listing
    alone. *)
Theorem no_subscription_gives_an_empty_answer req up sd ed tok :
  dated req sd ed ->
  token_of (up [] PostToken) = Some tok ->
  printable tok = true ->
  listed_subscriptions (up [PostToken] (GetSubscriptions tok)) = Some [] ->
  run (api_top_resources req) up =
    (Return (mkResponse 200 (TopResourcesBody [])),
     mkWorld [PostToken; GetSubscriptions tok] []) /\
  run api_plans up =
    (Return (mkResponse 200 (PlansBody [])),
     mkWorld [PostToken; GetSubscriptions tok] []).
Proof.
  intros D Htok P Hl. split.
  - now rewrite (@api_top_merged req up sd ed tok [] [] [] D Htok P Hl
                   eq_refl eq_refl eq_refl).
  - now rewrite (@api_plans_merged up tok [] [] Htok P Hl eq_refl eq_refl).
Qed.

(** ** The records of [/api/plans] *)

Lemma plan_contribution_tiered sr :
  (forall d, snd sr = Response d -> listing d = true) ->
  plan_contribution (settle_plan sr) = Some (tiered_plans sr).
Proof.
  destruct sr as [sub a]. cbn [snd]. intros Hl.
  unfold plan_contribution, settle_plan, tiered_plans. cbn [data subscription fst snd].
  destruct a as [d|]; [|reflexivity].
  specialize (Hl d eq_refl). unfold listing in Hl.
  destruct (plans_data_cases d) as [->|[-> Hnull]].
  - destruct (member_opt d "value") as [| |b|x|s|plans|fields]; simpl in *;
      try reflexivity; try discriminate;
      try (apply negb_true_iff in Hl; now rewrite Hl).
    destruct (defender_plans_listed sub plans Hl) as (gs & -> & HF). simpl.
    f_equal. clear Hl. induction HF as [|plan g plans gs Hg HF IH]; simpl.
    + reflexivity.
    + now rewrite IH, Hg.
  - reflexivity.
Qed.

(** X12: When the token and the listed ids can be printed, [/api/plans]
    returns exactly the plan records that have a pricing tier, each once,
    subscription after subscription in list order and in the order of the
    payload within a subscription; a subscription whose fetch was
    rejected, or whose payload has no [value], gives none. *)
Theorem plans_are_the_tiered_records_in_order up tok subs :
  token_of (up [] PostToken) = Some tok ->
  printable tok = true ->
  listed_subscriptions (up [PostToken] (GetSubscriptions tok)) = Some subs ->
  printable_ids subs = true ->
  (forall sub d,
      In (sub, Response d) (fan_out up (preamble tok) (plan_call tok) subs) ->
      listing d = true) ->
  fst (run api_plans up) =
    Return
      (mkResponse 200
         (PlansBody
            (flat_map tiered_plans
               (fan_out up (preamble tok) (plan_call tok) subs)))) /\
  (forall sub, tiered_plans (sub, Rejected) = []) /\
  (forall sub d, lacks_value d -> tiered_plans (sub, Response d) = []).
Proof.
  intros Htok P Hl Pids Hlist. split; [|split].
  - assert (G : map_option plan_contribution
                  (plan_results up (preamble tok) tok subs) =
                Some (map tiered_plans
                        (fan_out up (preamble tok) (plan_call tok) subs))).
    { unfold plan_results.
      induction (fan_out up (preamble tok) (plan_call tok) subs)
        as [|sr answers IH]; simpl; [reflexivity|].
      rewrite plan_contribution_tiered.
      - rewrite IH; [reflexivity|]. intros; eapply Hlist; right; eauto.
      - intros d E. destruct sr as [sub a]. simpl in E. subst a.
        eapply Hlist. left. reflexivity. }
    rewrite (api_plans_merged up Htok P Hl Pids G). simpl.
    now rewrite flat_map_concat_map.
  - reflexivity.
  - intros sub d Hlack. unfold tiered_plans. cbn [snd].
    destruct (plans_data_cases d) as [->|[-> _]]; [|reflexivity].
    unfold lacks_value in Hlack. now rewrite Hlack.
Qed.

End Merging.

Module Ranking.

Import Number Js Effects Server Aggregation Expected Behaviour.
Import Loops FanOut Handlers HandlerCases Answers Rounding Sorting.
Import CostsPath TopResourcesPath RankedPath.

Lemma In_skipn A n : forall (l : list A) x, In x (skipn n l) -> In x l.
Proof.
  induction n as [|n IH]; intros l x H; [exact H|].
  destruct l as [|y l]; [contradiction|]. right. now apply IH.
Qed.

(** In a sorted list, whatever lies behind a prefix is dominated by the
    prefix. *)
Lemma sorted_prefix_dominates A (R : A -> A -> Prop) n : forall l,
  StronglySorted R l ->
  Forall (fun b => Forall (fun a => R a b) (firstn n l)) (skipn n l).
Proof.
  induction n as [|n IH]; intros l Hs; simpl.
  - apply Forall_forall. intros; constructor.
  - destruct l as [|x l]; [constructor|].
    inversion Hs as [|? ? Hl Hx]; subst.
    specialize (IH l Hl). rewrite Forall_forall in *.
    intros b Hb. constructor.
    + apply Hx. eapply In_skipn; eauto.
    + now apply IH.
Qed.

(** X13: When every query of [/api/top-resources] is answered with a table
    of resources (JSON, and the listed ids printable), the answer holds
    [min 10 n] of the [n] raw rows of all payloads together, and they are
    the costliest: the elements left out are, with the elements returned, a
    rearrangement of the TopResources of all rows, and none of them costs
    more than a returned one. *)
Theorem top_resources_are_the_costliest req up sd ed tok subs w1 w2 :
  (forall h c d, up h c = Response d -> from_json d = true) ->
  member req "startDate" = Some sd ->
  member req "endDate" = Some ed ->
  truthy sd = true -> truthy ed = true ->
  getAccessToken up world0 = (Return tok, w1) ->
  getSubscriptions tok up w1 = (Return subs, w2) ->
  printable_ids subs = true ->
  (forall sub a,
      In (sub, a) (fan_out up (calls w2) (resource_call tok sd ed) subs) ->
      exists d, a = Response d /\ nullish d = false /\ resource_table d = true) ->
  exists rows rest,
    fst (run (api_top_resources req) up) =
      Return (mkResponse 200 (TopResourcesBody rows)) /\
    length rows =
      Nat.min 10
        (list_sum (map returned_rows
                     (fan_out up (calls w2) (resource_call tok sd ed) subs))) /\
    Permutation
      (flat_map resources
         (fan_out up (calls w2) (resource_call tok sd ed) subs))
      (rows ++ rest) /\
    Forall (fun left_out =>
              Forall (fun returned => Number.le (cost left_out) (cost returned)) rows)
           rest.
Proof.
  intros Hjson Hsd Hed Tsd Ted Htok Hsubs Pids Htab.
  destruct (@api_top_resources_expected req up sd ed tok subs w1 w2
              Hjson Hsd Hed Tsd Ted Htok Hsubs Pids Htab)
    as (sorted & Hrun & Hdesc & Hperm).
  exists (firstn 10 sorted), (skipn 10 sorted). rewrite Hrun.
  split; [reflexivity|]. split; [|split].
  - rewrite length_firstn, <- (Permutation_length Hperm).
    now rewrite resources_length.
  - now rewrite firstn_skipn.
  - apply (sorted_prefix_dominates 10 Hdesc).
Qed.

(** Unless every query resolves and the merge succeeds, the request ends
    in the 500 of the path. *)
Lemma top_fail_unless_merged req up sd ed tok subs :
  dated req sd ed ->
  token_of (up [] PostToken) = Some tok ->
  listed_subscriptions (up [PostToken] (GetSubscriptions tok)) = Some subs ->
  (forall results,
      resource_results up (preamble tok) tok sd ed subs = Some results ->
      map_option top_contribution results = None) ->
  fst (run (api_top_resources req) up) = Return top_resources_failed.
Proof.
  intros D Htok Hl G.
  destruct (printable tok) eqn:P;
    [|now rewrite (api_top_unauthorized up D Htok P)].
  destruct (printable_ids subs) eqn:Pids.
  - destruct (resource_results up (preamble tok) tok sd ed subs)
      as [results|] eqn:R.
    + now rewrite (api_top_merge_failed up D Htok P Hl Pids R (G _ eq_refl)).
    + now destruct (api_top_query_failed up D Htok P Hl (or_introl R))
        as (e & w & -> & _).
  - now destruct (api_top_query_failed up D Htok P Hl (or_intror Pids))
      as (e & w & -> & _).
Qed.

Lemma top_contribution_fails r rows row :
  payload_rows (data r) = VArray rows ->
  In row rows ->
  top_resource (subscription r) row = None ->
  top_contribution r = None.
Proof.
  intros Hrows Hin Hrow. unfold top_contribution. rewrite Hrows. simpl.
  now apply map_option_None with row.
Qed.

(** X14: The row transform of [/api/top-resources] is not defensive: a row that
    is [null], whose cost is not a Number, or whose resource id is truthy
    but not a String, in the payload of any subscription, makes the whole
    request answer 500. *)
Theorem ill_typed_row_fails_top_resources req up sd ed tok subs sub d rows row :
  dated req sd ed ->
  token_of (up [] PostToken) = Some tok ->
  listed_subscriptions (up [PostToken] (GetSubscriptions tok)) = Some subs ->
  In (sub, Response d) (fan_out up (preamble tok) (resource_call tok sd ed) subs) ->
  payload_rows d = VArray rows ->
  In row rows ->
  nullish row = true \/
  (forall x, at_index row 0 <> Some (VNumber x)) \/
  (exists id, at_index row 1 = Some id /\ truthy id = true /\
              forall s, id <> VString s) ->
  fst (run (api_top_resources req) up) = Return top_resources_failed.
Proof.
  intros D Htok Hl Hin Hrows Hrow Hbad.
  apply (top_fail_unless_merged up D Htok Hl). intros results R.
  - assert (Hr : In (mkSettled sub d None) results).
    { unfold resource_results in R.
      assert (Hs : settle_resource (sub, Response d) = Some (mkSettled sub d None)).
      { unfold settle_resource, query_data. simpl.
        destruct d; try reflexivity; discriminate. }
      clear - R Hin Hs.
      revert results R.
      induction (fan_out up (preamble tok) (resource_call tok sd ed) subs)
        as [|sr answers IH]; simpl; intros results R; [contradiction|].
      destruct (settle_resource sr) as [r|] eqn:E; [|discriminate].
      destruct (map_option settle_resource answers) as [rs|]; [|discriminate].
      inversion R; subst. destruct Hin as [->|Hin].
      - left. congruence.
      - right. now apply IH. }
    assert (G : map_option top_contribution results = None).
    { apply map_option_None with (mkSettled sub d None); [exact Hr|].
      apply top_contribution_fails with rows row; auto. simpl.
      unfold top_resource.
      destruct Hbad as [Hnull|[Hcost|(id & Hid & Tid & Hstr)]].
      - destruct row; try discriminate; reflexivity.
      - destruct (at_index row 0) as [c|]; [|reflexivity].
        destruct (at_index row 1) as [rid|]; [|reflexivity].
        destruct (at_index row 2) as [msc|]; [|reflexivity].
        destruct (resource_name rid); [|reflexivity].
        destruct c; try reflexivity. now destruct (Hcost x).
      - rewrite Hid.
        destruct (at_index row 0) as [c|]; [|reflexivity].
        destruct (at_index row 2) as [msc|]; [|reflexivity].
        unfold resource_name. rewrite Tid.
        destruct id; try reflexivity. now destruct (Hstr s). }
    exact G.
Qed.

End Ranking.

Module SmallCosts.

Import Number Js Effects Server Aggregation Rounding Fixed.

(** X15: A finite cost below [1e21] is printed with the digits [0.00] exactly
    when its magnitude is below half a cent; it is then emitted as a zero
    that keeps the sign of the cost, so that a small negative cost becomes
    [-0]. *)
Theorem cost_below_half_a_cent_is_zero s m e :
  at_least_1e21 m e = false ->
  (toFixed2 (S754_finite s m e) = Digits s 0 <->
   (200 * numerator m e < denominator e)%Z) /\
  ((200 * numerator m e < denominator e)%Z ->
   rounded_cost (VNumber (S754_finite s m e)) = Some (S754_zero s)).
Proof.
  intros Hsmall.
  pose proof (hundredths_nearest m e) as Hn.
  assert (Hden : (0 < denominator e)%Z).
  { unfold denominator. apply Z.pow_pos_nonneg; lia. }
  assert (Hiff : hundredths_of m e = 0%N <->
                 (200 * numerator m e < denominator e)%Z).
  { split.
    - intros E. rewrite E in Hn. change (Z.of_N 0) with 0%Z in Hn. lia.
    - intros Hlt. destruct (hundredths_of m e) as [|p]; [reflexivity|].
      exfalso. assert (1 <= Z.of_N (Npos p))%Z by lia. nia. }
  split.
  - simpl. rewrite Hsmall. rewrite <- Hiff. split.
    + intros E. now inversion E.
    + now intros ->.
  - intros Hlt. apply Hiff in Hlt. simpl. rewrite Hsmall, Hlt. reflexivity.
Qed.

End SmallCosts.

Module Environment.

Import Js Startup.

Lemma truthy_env_value variable :
  truthy (env_value variable) = true <-> provided variable.
Proof.
  unfold provided. destruct variable as [s|]; simpl.
  - split.
    + intros H. exists s. split; [reflexivity|]. intros ->. discriminate.
    + intros (s' & E & Hs). inversion E; subst.
      destruct (String.eqb s' "") eqn:Q; [|reflexivity].
      apply String.eqb_eq in Q. contradiction.
  - split; [discriminate|]. intros (s & E & _). discriminate.
Qed.

(** X16: The process listens, on port 8080 whatever [PORT] says, exactly when
    [TENANT_ID], [CLIENT_ID] and [CLIENT_SECRET] are all set to a non-empty
    string; otherwise it exits with code 1 before listening. *)
Theorem starts_only_with_all_three_credentials env :
  (start env = Listen 8080 <->
   provided (TENANT_ID env) /\ provided (CLIENT_ID env) /\
   provided (CLIENT_SECRET env)) /\
  (start env = Listen 8080 \/ exists message, start env = Exit 1 message) /\
  (forall port,
      start (mkEnv (TENANT_ID env) (CLIENT_ID env) (CLIENT_SECRET env) port) =
      start env).
Proof.
  split; [|split].
  - unfold start. rewrite <- !truthy_env_value.
    destruct (truthy (env_value (TENANT_ID env))),
             (truthy (env_value (CLIENT_ID env))),
             (truthy (env_value (CLIENT_SECRET env))); simpl;
      (split; [try discriminate; auto
              |intros (H1 & H2 & H3); try discriminate; auto]).
  - unfold start.
    destruct (negb _ || negb _ || negb _); eauto.
  - intros port. reflexivity.
Qed.

End Environment.

Module CaseWitnesses.

Import Number Js Effects Server Aggregation Expected Sample Behaviour Scenarios.
Import Answers Listing Merging Ranking SmallCosts Environment.

Lemma january_dated : dated january start_date end_date.
Proof. repeat split; reflexivity. Qed.

(** The sample tenant answers with JSON. *)
Lemma sample_json h c d : azure h c = Response d -> from_json d = true.
Proof.
  destruct c; simpl;
    repeat match goal with
           | |- context [if ?b then _ else _] => destruct b
           end;
    intros H; inversion H; reflexivity.
Qed.

Lemma bad_request_witness :
  answer (run (api_top_resources no_end_date) azure) = bad_request /\
  snd (run (api_top_resources no_end_date) azure) = world0.
Proof.
  destruct (@bad_request_only_for_missing_dates no_end_date azure
              (answer (run (api_top_resources no_end_date) azure))
              (snd (run (api_top_resources no_end_date) azure))
              (or_intror eq_refl) eq_refl)
    as (_ & _ & Hresp & Hw).
  split; assumption.
Defined.

Lemma token_failure_witness :
  fst (run (api_costs january) no_token) = Return costs_failed /\
  calls (snd (run api_plans no_token)) = [PostToken].
Proof.
  destruct (@token_failure_stops_the_request january no_token
              start_date end_date january_dated)
    as (Hc & _ & _ & _ & _ & _ & Hp).
  - intros d H. discriminate H.
  - split; assumption.
Defined.

Lemma listing_failure_witness :
  fst (run (api_top_resources january) no_listing) = Return top_resources_failed /\
  calls (snd (run (api_top_resources january) no_listing)) =
    [PostToken; GetSubscriptions token].
Proof.
  destruct (proj1 (@listing_failure_stops_the_request january no_listing
                     start_date end_date token january_dated eq_refl)
              eq_refl eq_refl)
    as (_ & Ht & Hc & _).
  split; assumption.
Defined.

Lemma request_trace_witness :
  exists tok subs,
    calls (snd (run api_plans azure)) =
      PostToken :: GetSubscriptions tok ::
      map (fun sub => GetPricings tok (subscriptionId sub)) subs.
Proof.
  destruct (proj2 (proj2 (successful_request_trace azure))
              (answer (run api_plans azure)) (snd (run api_plans azure))
              eq_refl eq_refl)
    as (tok & subs & _ & _ & Hcalls).
  now exists tok, subs.
Defined.


Lemma listing_decoded_witness :
  fst (getSubscriptions token azure with_token) = Return listed.
Proof.
  apply (proj1 (proj1 (@getSubscriptions_decodes_the_listing token azure
                         with_token) eq_refl)).
  exists subscriptions_payload.
  eexists. split; [reflexivity|]. split; [reflexivity|].
  split; reflexivity.
Defined.

Lemma missing_access_token_witness :
  exists queries,
    calls (snd (run api_plans anonymous)) =
      PostToken :: GetSubscriptions VUndefined :: queries.
Proof.
  exact (proj2 (@missing_access_token_goes_unnoticed anonymous
                  (VObject [("token_type", VString "Bearer")])
                  eq_refl eq_refl eq_refl)).
Defined.

Lemma malformed_payload_witness :
  fst (run (api_costs january) garbled) = Return costs_failed /\
  fst (run api_plans garbled) = Return plans_failed.
Proof.
  destruct (@malformed_payload_fails_the_request garbled token listed
              (mkSubscription (VString "s1") (VString "One")) garbled_costs
              eq_refl eq_refl) as [Hcosts _].
  destruct (@malformed_payload_fails_the_request garbled token listed
              (mkSubscription (VString "s1") (VString "One")) garbled_pricings
              eq_refl eq_refl) as [_ Hplans].
  split.
  - apply (Hcosts january start_date end_date january_dated);
      [left; reflexivity|reflexivity|reflexivity].
  - apply Hplans; [left; reflexivity|reflexivity].
Defined.

Lemma schema_witness :
  exists rows columns subs,
    json (answer (run (api_costs january) azure)) = CostsBody rows columns subs /\
    Forall (fun row => length row = length columns) rows.
Proof.
  eexists. eexists. eexists. split; [reflexivity|].
  exact (proj2 (@costs_rows_match_the_schema january azure
                  (answer (run (api_costs january) azure))
                  (snd (run (api_costs january) azure))
                  _ _ _ eq_refl eq_refl)).
Defined.

Lemma no_subscription_witness :
  run api_plans empty_tenant =
    (Return (mkResponse 200 (PlansBody [])),
     mkWorld [PostToken; GetSubscriptions token] []).
Proof.
  exact (proj2 (@no_subscription_gives_an_empty_answer january empty_tenant
                  start_date end_date token january_dated eq_refl eq_refl
                  eq_refl)).
Defined.

Lemma plans_in_order_witness :
  fst (run api_plans azure) =
    Return (mkResponse 200
              (PlansBody
                 [mkDefenderPlan (VString "s1") (VString "One")
                    (VString "VirtualMachines") (VString "Standard")])).
Proof.
  destruct (@plans_are_the_tiered_records_in_order azure token listed
              eq_refl eq_refl eq_refl eq_refl) as [Hrun _].
  - intros sub d Hin. vm_compute in Hin.
    repeat (destruct Hin as [Heq|Hin];
            [first [discriminate Heq | now inversion Heq]|]).
    contradiction.
  - exact Hrun.
Defined.

Lemma costliest_witness :
  exists rows rest,
    fst (run (api_top_resources january) azure) =
      Return (mkResponse 200 (TopResourcesBody rows)) /\
    length rows = 3 /\
    Permutation
      (flat_map resources
         (fan_out azure (calls with_subscriptions)
            (resource_call token start_date end_date) listed))
      (rows ++ rest).
Proof.
  destruct (@top_resources_are_the_costliest january azure start_date end_date
              token listed with_token with_subscriptions
              sample_json eq_refl eq_refl eq_refl eq_refl eq_refl eq_refl eq_refl)
    as (rows & rest & Hrun & Hlen & Hperm & _).
  - intros s a Hin; vm_compute in Hin;
      repeat (destruct Hin as [Hin|Hin];
              [inversion Hin; eexists; split; [reflexivity|split; reflexivity]|]);
      contradiction.
  - exists rows, rest. split; [exact Hrun|]. split; [exact Hlen|exact Hperm].
Defined.

Lemma ill_typed_row_witness :
  fst (run (api_top_resources january) quoted) = Return top_resources_failed.
Proof.
  apply (@ill_typed_row_fails_top_resources january quoted start_date end_date
           token listed (mkSubscription (VString "s2") (VString "Two"))
           quoted_costs [quoted_cost_row] quoted_cost_row
           january_dated eq_refl eq_refl).
  - right. left. reflexivity.
  - reflexivity.
  - left. reflexivity.
  - right. left. intros x H. discriminate H.
Defined.

Lemma small_cost_witness :
  rounded_cost (VNumber (S754_finite true 1 (-10))) = Some (S754_zero true).
Proof.
  apply (proj2 (@cost_below_half_a_cent_is_zero true 1 (-10) eq_refl)).
  reflexivity.
Defined.

Lemma startup_witness :
  Startup.start configured = Startup.Listen 8080 /\
  exists message, Startup.start unconfigured = Startup.Exit 1 message.
Proof.
  split.
  - apply (proj1 (starts_only_with_all_three_credentials configured)).
    repeat split; eexists; (split; [reflexivity|discriminate]).
  - destruct (proj1 (proj2 (starts_only_with_all_three_credentials unconfigured)))
      as [H|H]; [discriminate H|exact H].
Defined.

End CaseWitnesses.
